(** * navmcp: fetch and search tools over a shared browser session

    A shallow embedding of [server/tools/fetch.py],
    [server/tools/search.py] and [server/tools/convert.py].

    Modelling conventions.
    - Python [str] values are Rocq strings (byte strings); [str.lower]
      and [str.strip] are modelled on the ASCII range.
    - A Python call either returns a value or raises: collaborators
      answer in [exc].  Only subclasses of [Exception] are modelled.
    - Code that talks to the browser runs in the monad [M]: it threads
      a [world] made of a millisecond clock and the chronological list
      of collaborator calls (the call log of a test double), and it may
      raise.  Loops are bounded by fuel; running out of fuel is the
      third, separate result [None].
    - Logging calls ([logger.info], ...) have no modelled effect. *)

From Stdlib Require Import String Ascii List Arith NArith Bool Lia.
From Stdlib Require Import DecimalString.
Import ListNotations.
Local Open Scope string_scope.
Local Open Scope list_scope.
Local Open Scope nat_scope.

(** String concatenation, as in an f-string. *)
Infix "+++" := String.append (at level 60, right associativity).

(** ** Python strings *)

Module PyStr.

(** [c.isspace()] for an ASCII character. *)
Definition isspace (c : ascii) : bool :=
  let n := nat_of_ascii c in
  ((9 <=? n) && (n <=? 13)) || ((28 <=? n) && (n <=? 32)).

(** [c.lower()] for an ASCII character. *)
Definition lower_ascii (c : ascii) : ascii :=
  let n := nat_of_ascii c in
  if (65 <=? n) && (n <=? 90) then ascii_of_nat (n + 32) else c.

(** [s.lower()] *)
Fixpoint lower (s : string) : string :=
  match s with
  | EmptyString => EmptyString
  | String c s' => String (lower_ascii c) (lower s')
  end.

(** [s.lstrip()] *)
Fixpoint lstrip (s : string) : string :=
  match s with
  | EmptyString => EmptyString
  | String c s' => if isspace c then lstrip s' else s
  end.

(** [s.rstrip()] *)
Fixpoint rstrip (s : string) : string :=
  match s with
  | EmptyString => EmptyString
  | String c s' =>
      match rstrip s' with
      | EmptyString => if isspace c then EmptyString else String c EmptyString
      | r => String c r
      end
  end.

(** [s.strip()] *)
Definition strip (s : string) : string := rstrip (lstrip s).

(** [s.startswith(p)] *)
Definition startswith (p s : string) : bool := String.prefix p s.

(** [needle in hay] *)
Fixpoint contains (needle hay : string) : bool :=
  String.prefix needle hay
  || match hay with
     | EmptyString => false
     | String _ hay' => contains needle hay'
     end.

(** [not s]: the empty string is the only falsy string. *)
Definition falsy (s : string) : bool :=
  match s with EmptyString => true | _ => false end.

(** [str(n)] for a non-negative integer. *)
Definition of_nat (n : nat) : string := NilEmpty.string_of_uint (Nat.to_uint n).

End PyStr.

(** ** Exceptions *)

(** The exception classes the two modules distinguish.  In selenium,
    [TimeoutException] and [NoSuchElementException] are subclasses of
    [WebDriverException]; [OtherException] stands for every other
    subclass of [Exception]. *)
Inductive exn_class : Type :=
| TimeoutException
| NoSuchElementException
| WebDriverException
| OtherException.

(** An exception value: its class and [str(e)]. *)
Record exn : Type := mk_exn { exn_type : exn_class; exn_str : string }.

(** [isinstance(e, TimeoutException)] *)
Definition is_TimeoutException (e : exn) : bool :=
  match exn_type e with TimeoutException => true | _ => false end.

(** [isinstance(e, NoSuchElementException)] *)
Definition is_NoSuchElementException (e : exn) : bool :=
  match exn_type e with NoSuchElementException => true | _ => false end.

(** [isinstance(e, WebDriverException)] *)
Definition is_WebDriverException (e : exn) : bool :=
  match exn_type e with OtherException => false | _ => true end.

(** The result of a Python call. *)
Inductive exc (A : Type) : Type :=
| Ok (a : A)
| Err (e : exn).
Arguments Ok {A} a.
Arguments Err {A} e.

Definition exc_bind {A B} (x : exc A) (k : A -> exc B) : exc B :=
  match x with
  | Ok a => k a
  | Err e => Err e
  end.

Declare Scope exc_scope.
Delimit Scope exc_scope with exc.
Notation "'let*' x ':=' e 'in' k" := (exc_bind e (fun x => k))
  (at level 10, x name, e at level 100, k at level 200) : exc_scope.

(** ** The world: clock and call log *)

(** Handles to the two stateful collaborators. *)
Inductive BrowserManager : Type := BrowserManagerRef (id : nat).
Inductive Driver : Type := DriverRef (id : nat).

(** One entry of the call log. *)
Inductive event : Type :=
| EvLookupManager                       (* get_browser_manager() *)
| EvGetDriver (bm : BrowserManager)     (* browser_manager.get_driver() *)
| EvGet (url : string)                  (* driver.get(url) *)
| EvExecuteScript (script : string)     (* driver.execute_script(script) *)
| EvCurrentUrl                          (* driver.current_url *)
| EvTitle                               (* driver.title *)
| EvPageSource                          (* driver.page_source *)
| EvFindElements (by_ selector : string) (* driver.find_elements(by, selector) *)
| EvSleep (ms : N).                     (* asyncio.sleep / time.sleep *)

(** A session interaction is a call on the browser manager's session
    or on the driver; looking the manager up and sleeping are not. *)
Definition is_session_call (ev : event) : bool :=
  match ev with
  | EvLookupManager | EvSleep _ => false
  | _ => true
  end.

(** The acquisition of the session, with which every attempt of the
    page fetch begins. *)
Definition is_get_driver (ev : event) : bool :=
  match ev with EvGetDriver _ => true | _ => false end.

(** A navigation command. *)
Definition is_navigation (ev : event) : bool :=
  match ev with EvGet _ => true | _ => false end.

Record world : Type := mk_world {
  now : N;                (* the clock, in milliseconds *)
  trace : list event      (* calls made so far, oldest first *)
}.

Definition session_calls (w : world) : list event := filter is_session_call (trace w).

(** The URL of the last navigation command of a call log. *)
Fixpoint last_navigation (calls : list event) : option string :=
  match calls with
  | [] => None
  | ev :: rest =>
      match last_navigation rest with
      | Some url => Some url
      | None => match ev with EvGet url => Some url | _ => None end
      end
  end.

(** The page the session is on: the one it was last sent to. *)
Definition current_page (w : world) : option string := last_navigation (trace w).

(** ** The monad of browser code *)

Definition M (A : Type) : Type := world -> option (exc A * world).

Definition ret {A} (a : A) : M A := fun w => Some (Ok a, w).

Definition raise {A} (e : exn) : M A := fun w => Some (Err e, w).

Definition out_of_fuel {A} : M A := fun _ => None.

Definition bind {A B} (m : M A) (k : A -> M B) : M B :=
  fun w =>
    match m w with
    | Some (Ok a, w') => k a w'
    | Some (Err e, w') => Some (Err e, w')
    | None => None
    end.

(** [try: m  except Exception as e: h e] *)
Definition try_except {A} (m : M A) (h : exn -> M A) : M A :=
  fun w =>
    match m w with
    | Some (Err e, w') => h e w'
    | r => r
    end.

(** A pure call that may raise. *)
Definition lift {A} (x : exc A) : M A := fun w => Some (x, w).

Declare Scope m_scope.
Delimit Scope m_scope with M.
Notation "x <- m ;; k" := (bind m (fun x => k))
  (at level 61, m at next level, right associativity) : m_scope.
Notation "m ;; k" := (bind m (fun _ => k))
  (at level 61, right associativity) : m_scope.

(** [time.time()] / [time.monotonic()] *)
Definition time_time : M N := fun w => Some (Ok (now w), w).

(** [await asyncio.sleep(ms / 1000)] *)
Definition sleep (ms : N) : M unit :=
  fun w => Some (Ok tt, mk_world (now w + ms)%N (trace w ++ [EvSleep ms])).

(** ** The parsed page, as the parsers observe it *)

(** The parsers look at a page only through [soup.select],
    [element.select_one], [tag.get('href')] and
    [extract_element_text]; the page model records the answers. *)

(** A tag matched inside a result element. *)
Record Tag : Type := mk_tag {
  tag_content : string;                 (* what extract_element_text reads *)
  tag_attrs : list (string * string)    (* attributes *)
}.

(** A result element: for a selector, the first tag it matches. *)
Record Element : Type := mk_element {
  el_matches : list (string * Tag)
}.

(** A parsed page: for a selector, the elements it matches. *)
Record Soup : Type := mk_soup {
  soup_matches : list (string * list Element)
}.

(** The first value recorded for a key. *)
Fixpoint assoc {V} (k : string) (l : list (string * V)) : option V :=
  match l with
  | [] => None
  | (k', v) :: l' => if String.eqb k k' then Some v else assoc k l'
  end.

(** [soup.select(selector)] *)
Definition select (soup : Soup) (selector : string) : list Element :=
  match assoc selector (soup_matches soup) with
  | Some els => els
  | None => []
  end.

(** [element.select_one(selector)] *)
Definition select_one (element : Element) (selector : string) : option Tag :=
  assoc selector (el_matches element).

(** [tag.get(name)] *)
Definition tag_get (tag : Tag) (name : string) : option string :=
  assoc name (tag_attrs tag).

(** ** Collaborators *)

(** What the two modules import and call but do not define: the helper
    modules [server.utils.net] and [server.utils.parsing], two functions
    of [urllib.parse], and the browser manager with its selenium driver.
    The stateful ones answer as a function of the world at the time of
    the call, so a double may change its answers over time. *)
Record Env : Type := mk_env {
  (* server.utils.net *)
  validate_url_security : string -> bool -> exc (bool * string);
  normalize_url : string -> exc string;
  (* server.utils.parsing *)
  parse_html_with_soup : string -> exc Soup;
  extract_element_text : Tag -> exc string;
  clean_text_content : string -> exc string;
  truncate_text : string -> nat -> exc string;
  (* urllib.parse; [urljoin] raises [ValueError] on a reference it
     cannot split, such as one with an unbalanced bracket in its host *)
  quote_plus : string -> string;
  urljoin : string -> string -> exc string;
  (* server.app.get_browser_manager, imported when none is passed *)
  default_browser_manager : world -> exc (option BrowserManager);
  (* BrowserManager.get_driver *)
  bm_get_driver : world -> BrowserManager -> exc Driver;
  (* selenium WebDriver *)
  drv_get : world -> Driver -> string -> exc unit;
  drv_execute_script : world -> Driver -> string -> exc string;
  drv_current_url : world -> Driver -> exc string;
  drv_title : world -> Driver -> exc string;
  drv_page_source : world -> Driver -> exc string;
  drv_find_elements : world -> Driver -> string -> string -> exc nat;
  (* how long a call takes, in milliseconds *)
  latency : world -> event -> N
}.

(** The [get_browser_manager] callable handed to the tools: calling
    (and, in fetch, awaiting) it gives a manager, [None], or raises. *)
Definition Accessor : Type := world -> exc (option BrowserManager).

Section Calls.
Variable env : Env.

(** One call on a stateful collaborator: it is logged, takes its
    time, and answers from the world it was made in. *)
Definition call {A} (ev : event) (answer : world -> exc A) : M A :=
  fun w => Some (answer w, mk_world (now w + latency env w ev)%N (trace w ++ [ev])).

Definition lookup_manager (get_browser_manager : Accessor) : M (option BrowserManager) :=
  call EvLookupManager get_browser_manager.

Definition get_driver (bm : BrowserManager) : M Driver :=
  call (EvGetDriver bm) (fun w => bm_get_driver env w bm).

Definition driver_get (d : Driver) (url : string) : M unit :=
  call (EvGet url) (fun w => drv_get env w d url).

Definition execute_script (d : Driver) (script : string) : M string :=
  call (EvExecuteScript script) (fun w => drv_execute_script env w d script).

Definition current_url (d : Driver) : M string :=
  call EvCurrentUrl (fun w => drv_current_url env w d).

Definition driver_title (d : Driver) : M string :=
  call EvTitle (fun w => drv_title env w d).

Definition page_source (d : Driver) : M string :=
  call EvPageSource (fun w => drv_page_source env w d).

Definition find_elements (d : Driver) (by_ selector : string) : M nat :=
  call (EvFindElements by_ selector) (fun w => drv_find_elements env w d by_ selector).

End Calls.

(** ** tenacity *)

(** The part of tenacity that [fetch.py] uses:
    [@retry(stop=stop_after_attempt(n), wait=wait_exponential(...),
    reraise=True)] with the default [retry_if_exception_type()]. *)
Module Tenacity.

(** [wait_exponential(multiplier, min, max)] after attempt
    [attempt_number] (counted from 1), in seconds:
    [max(max(0, min), min(multiplier * 2 ** (attempt_number - 1), max))]. *)
Definition wait_exponential (multiplier min_ max_ : N) (attempt_number : nat) : N :=
  N.max (N.max 0 min_) (N.min (multiplier * 2 ^ N.of_nat (attempt_number - 1)) max_).

(** Attempt [attempt_number] and those after it, [retries_left] at
    most: a returned value ends the loop; an exception is raised again
    when the stop condition holds, and otherwise followed by the
    back-off sleep and the next attempt. *)
Fixpoint retry_loop {A} (retries_left attempt_number : nat)
    (wait : nat -> N) (fn : M A) : M A :=
  try_except fn (fun e =>
    match retries_left with
    | 0 => raise e
    | S remaining =>
        (sleep (1000 * wait attempt_number) ;;
         retry_loop remaining (S attempt_number) wait fn)%M
    end).

(** [retry(stop=stop_after_attempt(n), wait=wait, reraise=True)(fn)] *)
Definition retry {A} (stop_after_attempt : nat) (wait : nat -> N) (fn : M A) : M A :=
  retry_loop (stop_after_attempt - 1) 1 wait fn.

End Tenacity.

(** ** Tool outputs *)

(** A value of a [metadata] dictionary.  Times and durations are kept
    in the model's milliseconds ([round(duration, 2)] is not modelled). *)
Inductive meta_value : Type :=
| MBool (b : bool)
| MInt (n : nat)
| MTime (ms : N).

(** A value of the [info] dictionary of the two debugging helpers. *)
Inductive info_value : Type :=
| IStr (s : string)
| IInt (n : nat).

(** [d[k] = v] on a dictionary kept in insertion order: the value of
    an existing key is replaced in place, a new key goes to the end. *)
Fixpoint dict_set {V} (k : string) (v : V) (d : list (string * V)) : list (string * V) :=
  match d with
  | [] => [(k, v)]
  | (k', v') :: d' =>
      if String.eqb k k' then (k, v) :: d' else (k', v') :: dict_set k v d'
  end.

(** One step of a [try] block that fills [info]: when the step
    raises, the [except Exception as e] clause stores [str(e)] under
    "error" in the dictionary as filled so far. *)
Definition or_error {A} (info : list (string * info_value)) (step : M A)
    (k : A -> M (list (string * info_value))) : M (list (string * info_value)) :=
  fun w =>
    match step w with
    | Some (Ok a, w') => k a w'
    | Some (Err e, w') => Some (Ok (dict_set "error" (IStr (exn_str e)) info), w')
    | None => None
    end.

(** * server/tools/fetch.py *)

Module Fetch.

Record FetchUrlOutput : Type := mk_output {
  final_url : string;
  title : string;
  html : string;
  status : string;
  error : option string;
  metadata : list (string * meta_value)
}.

(** The keywords of a recoverable driver error. *)
Definition recoverable_keywords : list string :=
  ["net::"; "dns"; "connection"; "timeout"].

(** [any(keyword in error_msg for keyword in [...])] where
    [error_msg = str(e).lower()]. *)
Definition is_recoverable (e : exn) : bool :=
  let error_msg := PyStr.lower (exn_str e) in
  existsb (fun keyword => PyStr.contains keyword error_msg) recoverable_keywords.

Section WithEnv.
Variable env : Env.
Local Open Scope m_scope.

(** The [while time.time() < end_time] loop of
    [_wait_for_page_load]. *)
Fixpoint wait_for_page_load_loop (fuel : nat) (driver : Driver) (end_time : N)
    : M unit :=
  match fuel with
  | 0 => out_of_fuel
  | S fuel' =>
      t <- time_time ;;
      if (t <? end_time)%N then
        is_complete <-
          try_except
            (ready_state <- execute_script env driver "return document.readyState" ;;
             if String.eqb ready_state "complete"
             then sleep 500 ;; ret true
             else ret false)
            (fun _ => ret false) ;;
        if (is_complete : bool) then ret tt
        else sleep 100 ;; wait_for_page_load_loop fuel' driver end_time
      else ret tt
  end.

(** [_wait_for_page_load(driver, max_wait)], [max_wait] in seconds.
    It returns [None] on both exits: when the page is complete and
    when the wait has timed out.  A round that goes on sleeps 100 ms,
    so [10 * max_wait] rounds use up the budget and one more sees the
    deadline passed: the fuel given here is never used up. *)
Definition _wait_for_page_load (driver : Driver) (max_wait : N) : M unit :=
  t <- time_time ;;
  wait_for_page_load_loop (N.to_nat (10 * max_wait + 1)) driver (t + 1000 * max_wait)%N.

(** The [try] block of [_fetch_page_with_retry]. *)
Definition fetch_page_try (browser_manager : BrowserManager) (url : string)
    : M FetchUrlOutput :=
  driver <- get_driver env browser_manager ;;
  driver_get env driver url ;;
  _wait_for_page_load driver 30 ;;
  final_url <- current_url env driver ;;
  title <-
    try_except
      (raw <- driver_title env driver ;;
       try_except (lift (clean_text_content env raw)) (fun _ => ret raw))
      (fun _ => ret "") ;;
  html <- try_except (page_source env driver) (fun _ => ret "") ;;
  ret {| final_url := final_url;
         title := title;
         html := html;
         status := "ok";
         error := None;
         metadata := [("redirected", MBool (negb (String.eqb final_url url)));
                      ("title_length", MInt (String.length title));
                      ("html_length", MInt (String.length html))] |}.

(** The [except] clauses of [_fetch_page_with_retry], in order. *)
Definition fetch_page_except (url : string) (e : exn) : M FetchUrlOutput :=
  if is_TimeoutException e then
    ret {| final_url := url; title := ""; html := ""; status := "error";
           error := Some ("Page load timeout: " +++ exn_str e);
           metadata := [] |}
  else if is_WebDriverException e then
    if is_recoverable e then raise e
    else
      ret {| final_url := url; title := ""; html := ""; status := "error";
             error := Some ("Browser error: " +++ exn_str e);
             metadata := [] |}
  else raise e.

(** The undecorated body of [_fetch_page_with_retry]: one attempt. *)
Definition fetch_page_attempt (browser_manager : BrowserManager) (url : string)
    : M FetchUrlOutput :=
  try_except (fetch_page_try browser_manager url) (fetch_page_except url).

(** [_fetch_page_with_retry], as decorated. *)
Definition _fetch_page_with_retry (browser_manager : BrowserManager) (url : string)
    : M FetchUrlOutput :=
  Tenacity.retry 3 (Tenacity.wait_exponential 1 1 10)
    (fetch_page_attempt browser_manager url).

(** [fetch_url(url, get_browser_manager)] *)
Definition fetch_url (url : string) (get_browser_manager : option Accessor)
    : M FetchUrlOutput :=
  let url := PyStr.strip url in
  start_time <- time_time ;;
  try_except
    (v <- lift (validate_url_security env url false) ;;
     let '(is_valid, error_msg) := v in
     if negb is_valid then
       ret {| final_url := url; title := ""; html := ""; status := "error";
              error := Some ("URL validation failed: " +++ error_msg);
              metadata := [] |}
     else
       normalized_url <- lift (normalize_url env url) ;;
       browser_manager <-
         match get_browser_manager with
         | None => lookup_manager env (default_browser_manager env)
         | Some accessor => lookup_manager env accessor
         end ;;
       match browser_manager with
       | None =>
           ret {| final_url := url; title := ""; html := ""; status := "error";
                  error := Some "Browser manager not available";
                  metadata := [] |}
       | Some bm =>
           result <- _fetch_page_with_retry bm normalized_url ;;
           t1 <- time_time ;;
           let duration := (t1 - start_time)%N in
           t2 <- time_time ;;
           ret {| final_url := final_url result;
                  title := title result;
                  html := html result;
                  status := status result;
                  error := error result;
                  metadata := metadata result
                              ++ [("duration_seconds", MTime duration);
                                  ("timestamp", MTime t2)] |}
       end)
    (fun e =>
       t <- time_time ;;
       let duration := (t - start_time)%N in
       ret {| final_url := url; title := ""; html := ""; status := "error";
              error := Some ("Unexpected error: " +++ exn_str e);
              metadata := [("duration_seconds", MTime duration)] |}).

Definition loading_selector : string := "[class*='loading'], [class*='spinner']".

(** [_get_page_info(driver)] *)
Definition _get_page_info (driver : Driver) : M (list (string * info_value)) :=
  let info := [] in
  or_error info (execute_script env driver "return document.readyState") (fun ready_state =>
  let info := dict_set "ready_state" (IStr ready_state) info in
  or_error info (current_url env driver) (fun url =>
  let info := dict_set "url" (IStr url) info in
  or_error info (driver_title env driver) (fun title =>
  let info := dict_set "title" (IStr title) info in
  try_except
    (loading_elements <- find_elements env driver "css selector" loading_selector ;;
     ret (dict_set "loading_elements_count" (IInt loading_elements) info))
    (fun _ => ret (dict_set "loading_elements_count" (IInt 0) info))))).

End WithEnv.

End Fetch.

(** ** selenium's WebDriverWait *)

(** [WebDriverWait(driver, timeout).until(method)] with the default
    poll frequency of 0.5 s and the default ignored exception
    [NoSuchElementException]: call [method] until it gives a truthy
    value; give up with [TimeoutException] once the clock has passed
    the deadline. *)
Module WebDriverWait.

Definition poll_ms : N := 500.

(** selenium renders an exception with an empty message as
    ["Message: \n"]. *)
Definition timeout_exception : exn :=
  mk_exn TimeoutException ("Message: " +++ String (ascii_of_nat 10) EmptyString).

Local Open Scope m_scope.

Fixpoint until_loop (fuel : nat) (end_time : N) (method : M bool) : M bool :=
  match fuel with
  | 0 => out_of_fuel
  | S fuel' =>
      value <-
        try_except method
          (fun e => if is_NoSuchElementException e then ret false else raise e) ;;
      if (value : bool) then ret value
      else
        t <- time_time ;;
        if (end_time <? t)%N then raise timeout_exception
        else sleep poll_ms ;; until_loop fuel' end_time method
  end.

(** [timeout] in seconds.  A round that goes on sleeps 500 ms, so
    the fuel given here is never used up. *)
Definition until (timeout : N) (method : M bool) : M bool :=
  t <- time_time ;;
  until_loop (N.to_nat (2 * timeout + 2)) (t + 1000 * timeout)%N method.

End WebDriverWait.

(** * server/tools/search.py *)

Module Search.

(** [WebSearchInput]; [num_results] is an integer that the schema
    bounds below by 1, kept as a natural number. *)
Record WebSearchInput : Type := mk_input {
  in_query : string;
  in_engine : string;
  in_num_results : nat
}.

Record SearchResult : Type := mk_result {
  title : string;
  url : string;
  snippet : string
}.

Record WebSearchOutput : Type := mk_output {
  results : list SearchResult;
  query : string;
  engine : string;
  status : string;
  error : option string;
  metadata : list (string * meta_value)
}.

(** The engine names of the schema's
    [pattern="^(google_scholar|pubmed|ieee|arxiv|medrxiv|biorxiv)$"]. *)
Definition known_engines : list string :=
  ["google_scholar"; "pubmed"; "ieee"; "arxiv"; "medrxiv"; "biorxiv"].

(** The pattern matches a string when it is one of the six names
    (pydantic's pattern anchors [^] and [$] at the two ends of the
    whole string). *)
Definition engine_pattern_matches (s : string) : bool :=
  existsb (String.eqb s) known_engines.

(** The selector tables and the base URL of one engine's
    [_extract_*_result]. *)
Record extract_table : Type := mk_table {
  title_selectors : list string;
  url_selectors : list string;
  base_url : string;
  snippet_selectors : list string
}.

Section WithEnv.
Variable env : Env.

(** [for selector in selectors: el = element.select_one(selector);
    if el: text = extract_element_text(el); break], from [""]. *)
Fixpoint first_text (element : Element) (selectors : list string) : exc string :=
  match selectors with
  | [] => Ok ""
  | selector :: rest =>
      match select_one element selector with
      | Some tag => extract_element_text env tag
      | None => first_text element rest
      end
  end.

(** [for selector in selectors: el = element.select_one(selector);
    if el and el.get('href'): url = el['href']; break], from [""]. *)
Fixpoint first_href (element : Element) (selectors : list string) : string :=
  match selectors with
  | [] => ""
  | selector :: rest =>
      match select_one element selector with
      | Some tag =>
          match tag_get tag "href" with
          | Some href => if PyStr.falsy href then first_href element rest else href
          | None => first_href element rest
          end
      | None => first_href element rest
      end
  end.

(** The [try] block shared by the six [_extract_*_result]. *)
Definition extract_try (t : extract_table) (element : Element)
    : exc (option SearchResult) :=
  (let* title := first_text element (title_selectors t) in
   if PyStr.falsy title then Ok None
   else
     let url := first_href element (url_selectors t) in
     if PyStr.falsy url then Ok None
     else
       let* url := (if PyStr.startswith "/" url then urljoin env (base_url t) url
                    else Ok url) in
       let* snippet := first_text element (snippet_selectors t) in
       let* title := clean_text_content env title in
       let* snippet := clean_text_content env snippet in
       let* snippet := truncate_text env snippet 300 in
       Ok (Some {| title := title; url := url; snippet := snippet |}))%exc.

(** [_extract_*_result]: any exception gives [None]. *)
Definition extract_result (t : extract_table) (element : Element)
    : exc (option SearchResult) :=
  match extract_try t element with
  | Ok r => Ok r
  | Err _ => Ok None
  end.

(** The tables of the six [_extract_*_result]; Google Scholar looks
    for the link under [title_selectors[:2]] only. *)
Definition google_scholar_table : extract_table :=
  let title_selectors := ["h3.gs_rt a"; ".gs_rt a"; "h3 a"; ".gs_rt"] in
  {| title_selectors := title_selectors;
     url_selectors := firstn 2 title_selectors;
     base_url := "https://scholar.google.com";
     snippet_selectors := [".gs_rs"; ".gs_a + div"; ".gs_fl + div"] |}.

Definition pubmed_table : extract_table :=
  let title_selectors := [".docsum-title a"; "h1 a"; ".title a"] in
  {| title_selectors := title_selectors;
     url_selectors := title_selectors;
     base_url := "https://pubmed.ncbi.nlm.nih.gov";
     snippet_selectors := [".full-view-snippet"; ".docsum-snippet"; ".abstract"] |}.

Definition ieee_table : extract_table :=
  let title_selectors := [".result-item-title a"; "h2 a"; ".title a"] in
  {| title_selectors := title_selectors;
     url_selectors := title_selectors;
     base_url := "https://ieeexplore.ieee.org";
     snippet_selectors := [".description"; ".abstract"; ".snippet"] |}.

Definition arxiv_table : extract_table :=
  let title_selectors := [".list-title a"; "p.title a"; ".title a"] in
  {| title_selectors := title_selectors;
     url_selectors := title_selectors;
     base_url := "https://arxiv.org";
     snippet_selectors := [".list-abstract"; "p.abstract"; ".abstract"] |}.

Definition medrxiv_table : extract_table :=
  let title_selectors := [".highwire-cite-title a"; ".citation-title a"; ".title a"] in
  {| title_selectors := title_selectors;
     url_selectors := title_selectors;
     base_url := "https://www.medrxiv.org";
     snippet_selectors := [".highwire-cite-snippet"; ".citation-snippet"; ".abstract"] |}.

Definition biorxiv_table : extract_table :=
  let title_selectors := [".highwire-cite-title a"; ".citation-title a"; ".title a"] in
  {| title_selectors := title_selectors;
     url_selectors := title_selectors;
     base_url := "https://www.biorxiv.org";
     snippet_selectors := [".highwire-cite-snippet"; ".citation-snippet"; ".abstract"] |}.

(** The six [_extract_*_result]. *)
Definition _extract_google_scholar_result := extract_result google_scholar_table.
Definition _extract_pubmed_result := extract_result pubmed_table.
Definition _extract_ieee_result := extract_result ieee_table.
Definition _extract_arxiv_result := extract_result arxiv_table.
Definition _extract_medrxiv_result := extract_result medrxiv_table.
Definition _extract_biorxiv_result := extract_result biorxiv_table.

(** [for selector in result_selectors: result_elements =
    soup.select(selector); if result_elements: break], from [[]]. *)
Fixpoint find_result_elements (soup : Soup) (result_selectors : list string)
    : list Element :=
  match result_selectors with
  | [] => []
  | selector :: rest =>
      match select soup selector with
      | [] => find_result_elements soup rest
      | result_elements => result_elements
      end
  end.

(** The loop over the result elements: a result is appended, [None]
    and an exception both go on with the next element. *)
Fixpoint extract_each (extract : Element -> exc (option SearchResult))
    (elements : list Element) : list SearchResult :=
  match elements with
  | [] => []
  | element :: rest =>
      match extract element with
      | Ok (Some result) => result :: extract_each extract rest
      | Ok None => extract_each extract rest
      | Err _ => extract_each extract rest
      end
  end.

(** The body shared by the six [_parse_*_results]. *)
Definition parse_results (result_selectors : list string)
    (extract : Element -> exc (option SearchResult))
    (html : string) (max_results : nat) : list SearchResult :=
  match parse_html_with_soup env html with
  | Err _ => []
  | Ok soup =>
      match find_result_elements soup result_selectors with
      | [] => []
      | result_elements => extract_each extract (firstn max_results result_elements)
      end
  end.

(** The [result_selectors] of the six [_parse_*_results]. *)
Definition google_scholar_selectors := [".gs_r.gs_or.gs_scl"; ".gs_ri"; "[data-lid]"].
Definition pubmed_selectors := ["article.full-docsum"; ".docsum-wrap"; ".docsum-content"].
Definition ieee_selectors := [".List-results-items"; ".result-item"; ".document"].
Definition arxiv_selectors := ["li.arxiv-result"; ".list-item"; "ol li"].
Definition medrxiv_selectors := [".highwire-cite"; ".search-result"; ".result-item"].
Definition biorxiv_selectors := [".highwire-cite"; ".search-result"; ".result-item"].

(** The six [_parse_*_results]. *)
Definition _parse_google_scholar_results :=
  parse_results google_scholar_selectors _extract_google_scholar_result.
Definition _parse_pubmed_results :=
  parse_results pubmed_selectors _extract_pubmed_result.
Definition _parse_ieee_results :=
  parse_results ieee_selectors _extract_ieee_result.
Definition _parse_arxiv_results :=
  parse_results arxiv_selectors _extract_arxiv_result.
Definition _parse_medrxiv_results :=
  parse_results medrxiv_selectors _extract_medrxiv_result.
Definition _parse_biorxiv_results :=
  parse_results biorxiv_selectors _extract_biorxiv_result.

Local Open Scope m_scope.

Definition dquote : string := String (ascii_of_nat 34) EmptyString.

(** [article[data-testid="result"]], [.result],
    [[data-testid="result"]] *)
Definition result_indicators : list string :=
  ["article[data-testid=" +++ dquote +++ "result" +++ dquote +++ "]";
   ".result";
   "[data-testid=" +++ dquote +++ "result" +++ dquote +++ "]"].

(** [for selector in result_indicators: try: elements =
    driver.find_elements("css selector", selector); if elements:
    break; except Exception: continue] *)
Fixpoint probe_result_indicators (driver : Driver) (selectors : list string) : M unit :=
  match selectors with
  | [] => ret tt
  | selector :: rest =>
      found <-
        try_except
          (elements <- find_elements env driver "css selector" selector ;;
           ret (negb (elements =? 0)))
          (fun _ => ret false) ;;
      if (found : bool) then ret tt else probe_result_indicators driver rest
  end.

(** [_wait_for_search_results(driver, max_wait)] *)
Definition _wait_for_search_results (driver : Driver) (max_wait : N) : M unit :=
  try_except
    (WebDriverWait.until max_wait
       (ready_state <- execute_script env driver "return document.readyState" ;;
        ret (String.eqb ready_state "complete")) ;;
     probe_result_indicators driver result_indicators ;;
     sleep 1000)
    (fun e =>
       if is_TimeoutException e then ret tt   (* logger.warning *)
       else ret tt).                          (* logger.debug *)

(** The body shared by the six [_search_*]: [results = []], then a
    [try] block whose every exception is logged and dropped. *)
Definition search_engine (search_url : string -> nat -> string) (max_wait : N)
    (parse : string -> nat -> list SearchResult)
    (browser_manager : BrowserManager) (query : string) (num_results : nat)
    : M (list SearchResult) :=
  try_except
    (driver <- get_driver env browser_manager ;;
     let encoded_query := quote_plus env query in
     driver_get env driver (search_url encoded_query num_results) ;;
     _wait_for_search_results driver max_wait ;;
     html <- page_source env driver ;;
     ret (parse html num_results))
    (fun _ => ret []).

(** The [search_url] f-string of each [_search_*]. *)
Definition google_scholar_url (encoded_query : string) (num_results : nat) : string :=
  "https://scholar.google.com/scholar?q=" +++ encoded_query +++ "&hl=en&as_sdt=0,5".

Definition pubmed_url (encoded_query : string) (num_results : nat) : string :=
  "https://pubmed.ncbi.nlm.nih.gov/?term=" +++ encoded_query
  +++ "&size=" +++ PyStr.of_nat (Nat.min num_results 20).

Definition ieee_url (encoded_query : string) (num_results : nat) : string :=
  "https://ieeexplore.ieee.org/search/searchresult.jsp?queryText=" +++ encoded_query.

Definition arxiv_url (encoded_query : string) (num_results : nat) : string :=
  "https://arxiv.org/search/?query=" +++ encoded_query
  +++ "&searchtype=all&abstracts=show&order=-announced_date_first&size="
  +++ PyStr.of_nat (Nat.min num_results 25).

Definition medrxiv_url (encoded_query : string) (num_results : nat) : string :=
  "https://www.medrxiv.org/search/" +++ encoded_query.

Definition biorxiv_url (encoded_query : string) (num_results : nat) : string :=
  "https://www.biorxiv.org/search/" +++ encoded_query.

(** The six [_search_*] routines; IEEE waits with [max_wait=20], the
    others with the default of 15 seconds. *)
Definition _search_google_scholar :=
  search_engine google_scholar_url 15 _parse_google_scholar_results.
Definition _search_pubmed :=
  search_engine pubmed_url 15 _parse_pubmed_results.
Definition _search_ieee :=
  search_engine ieee_url 20 _parse_ieee_results.
Definition _search_arxiv :=
  search_engine arxiv_url 15 _parse_arxiv_results.
Definition _search_medrxiv :=
  search_engine medrxiv_url 15 _parse_medrxiv_results.
Definition _search_biorxiv :=
  search_engine biorxiv_url 15 _parse_biorxiv_results.

(** The [if engine == ... elif ... else] chain of [web_search]:
    the routine it selects, or [None] in the [else] branch. *)
Definition search_dispatch (engine : string)
    : option (BrowserManager -> string -> nat -> M (list SearchResult)) :=
  if String.eqb engine "google_scholar" then Some _search_google_scholar
  else if String.eqb engine "pubmed" then Some _search_pubmed
  else if String.eqb engine "ieee" then Some _search_ieee
  else if String.eqb engine "arxiv" then Some _search_arxiv
  else if String.eqb engine "medrxiv" then Some _search_medrxiv
  else if String.eqb engine "biorxiv" then Some _search_biorxiv
  else None.

(** The six engine routines. *)
Definition search_routines
    : list (BrowserManager -> string -> nat -> M (list SearchResult)) :=
  [_search_google_scholar; _search_pubmed; _search_ieee;
   _search_arxiv; _search_medrxiv; _search_biorxiv].

(** [web_search(input_data)], closed over [get_browser_manager]. *)
Definition web_search (get_browser_manager : Accessor) (input_data : WebSearchInput)
    : M WebSearchOutput :=
  let query := PyStr.strip (in_query input_data) in
  let engine := PyStr.lower (in_engine input_data) in
  let num_results := Nat.min (in_num_results input_data) 20 in
  start_time <- time_time ;;
  if PyStr.falsy query then
    ret {| results := []; query := query; engine := engine; status := "error";
           error := Some "Search query cannot be empty"; metadata := [] |}
  else
    try_except
      (browser_manager <- lookup_manager env get_browser_manager ;;
       match browser_manager with
       | None =>
           ret {| results := []; query := query; engine := engine; status := "error";
                  error := Some "Browser manager not available"; metadata := [] |}
       | Some bm =>
           match search_dispatch engine with
           | None =>
               ret {| results := []; query := query; engine := engine;
                      status := "error";
                      error := Some ("Unsupported search engine: " +++ engine);
                      metadata := [] |}
           | Some search =>
               results <- search bm query num_results ;;
               t1 <- time_time ;;
               let duration := (t1 - start_time)%N in
               t2 <- time_time ;;
               ret {| results := results; query := query; engine := engine;
                      status := "ok"; error := None;
                      metadata := [("duration_seconds", MTime duration);
                                   ("results_requested", MInt num_results);
                                   ("results_found", MInt (List.length results));
                                   ("timestamp", MTime t2)] |}
           end
       end)
      (fun e =>
         t <- time_time ;;
         let duration := (t - start_time)%N in
         ret {| results := []; query := query; engine := engine; status := "error";
                error := Some ("Search error: " +++ exn_str e);
                metadata := [("duration_seconds", MTime duration)] |}).

(** The counting loop of [_get_search_page_info]: the number of
    elements of each selector, or 0 when the lookup raises, under the
    key [f"elements_{selector}"]. *)
Fixpoint count_result_elements (driver : Driver) (selectors : list string)
    (info : list (string * info_value)) : M (list (string * info_value)) :=
  match selectors with
  | [] => ret info
  | selector :: rest =>
      info <-
        try_except
          (elements <- find_elements env driver "css selector" selector ;;
           ret (dict_set ("elements_" +++ selector) (IInt elements) info))
          (fun _ => ret (dict_set ("elements_" +++ selector) (IInt 0) info)) ;;
      count_result_elements driver rest info
  end.

(** [_get_search_page_info(driver)] *)
Definition _get_search_page_info (driver : Driver) : M (list (string * info_value)) :=
  let info := [] in
  or_error info (driver_title env driver) (fun title =>
  let info := dict_set "title" (IStr title) info in
  or_error info (current_url env driver) (fun url =>
  let info := dict_set "url" (IStr url) info in
  count_result_elements driver result_indicators info)).

End WithEnv.

End Search.

(** * server/tools/convert.py *)

(** The conversion tool talks to other collaborators than the browser
    tools: the MarkItDown converter and the temporary file it is fed
    from.  Its code runs in a monad of its own, over a clock and the log
    of these calls; it has no loop, so a run always ends, with a value
    or an exception. *)
Module Convert.

(** One entry of the call log. *)
Inductive call : Type :=
| CallMarkItDown                           (* MarkItDown() *)
| CallTempFile                             (* tempfile.NamedTemporaryFile(...) *)
| CallWrite (path content : string)        (* temp_file.write(content), then close *)
| CallConvertLocal (path : string)         (* md_converter.convert_local(path) *)
| CallUnlink (path : string)               (* os.unlink(path) *)
| CallConvertUrl (url : string).           (* md_converter.convert_url(url) *)

Record state : Type := mk_state {
  clock : N;              (* milliseconds *)
  log : list call         (* calls made so far, oldest first *)
}.

Definition C (A : Type) : Type := state -> exc A * state.

Definition ret {A} (a : A) : C A := fun st => (Ok a, st).

Definition bind {A B} (m : C A) (k : A -> C B) : C B :=
  fun st =>
    match m st with
    | (Ok a, st') => k a st'
    | (Err e, st') => (Err e, st')
    end.

(** [try: m  except Exception as e: h e] *)
Definition try_except {A} (m : C A) (h : exn -> C A) : C A :=
  fun st =>
    match m st with
    | (Err e, st') => h e st'
    | r => r
    end.

(** [try: m  finally: cleanup], for a cleanup that does not raise. *)
Definition try_finally {A} (m : C A) (cleanup : C unit) : C A :=
  fun st =>
    match m st with
    | (r, st') => (r, snd (cleanup st'))
    end.

Definition lift {A} (x : exc A) : C A := fun st => (x, st).

Definition time_time : C N := fun st => (Ok (clock st), st).

Declare Scope c_scope.
Delimit Scope c_scope with C.
Notation "x <- m ;; k" := (bind m (fun x => k))
  (at level 61, m at next level, right associativity) : c_scope.
Notation "m ;; k" := (bind m (fun _ => k))
  (at level 61, right associativity) : c_scope.

(** A value of the [metadata] dictionary of the conversion output. *)
Inductive meta : Type :=
| MStr (s : string)
| MNone
| MInt (n : nat)
| MTime (ms : N).

Record ConvertToMarkdownOutput : Type := mk_output {
  markdown : string;
  original_format : string;
  conversion_success : bool;
  status : string;
  error : option string;
  metadata : list (string * meta)
}.

(** The converter and the file system, as the tool uses them. *)
Record Tools : Type := mk_tools {
  new_converter : state -> exc unit;
  temp_file : state -> exc string;
  write_file : state -> string -> string -> exc unit;
  convert_local : state -> string -> exc string;
  (* the [text_content] and the [title] attribute of the result *)
  convert_url : state -> string -> exc (string * option string);
  duration : state -> call -> N
}.

Section WithTools.
Variable env : Env.
Variable tools : Tools.
Local Open Scope c_scope.

(** One call on a collaborator: logged, timed, answered from the
    state it was made in. *)
Definition perform {A} (c : call) (answer : state -> exc A) : C A :=
  fun st => (answer st, mk_state (clock st + duration tools st c)%N (log st ++ [c])).

(** [try: os.unlink(path)  except OSError: pass].  [os.unlink] either
    succeeds or raises an [OSError], which the clause drops: the block
    ends normally in both cases. *)
Definition unlink_quietly (path : string) : C unit :=
  perform (CallUnlink path) (fun _ => Ok tt).

(** [_convert_html_content(md_converter, html_content)] *)
Definition _convert_html_content (html_content : string) : C ConvertToMarkdownOutput :=
  try_except
    (temp_file_path <-
       (path <- perform CallTempFile (temp_file tools) ;;
        perform (CallWrite path html_content)
          (fun st => write_file tools st path html_content) ;;
        ret path) ;;
     try_finally
       (text_content <-
          perform (CallConvertLocal temp_file_path)
            (fun st => convert_local tools st temp_file_path) ;;
        ret {| markdown := text_content;
               original_format := "html";
               conversion_success := true;
               status := "ok";
               error := None;
               metadata := [("source", MStr "html_string");
                            ("file_size", MInt (String.length html_content))] |})
       (unlink_quietly temp_file_path))
    (fun e =>
       ret {| markdown := "";
              original_format := "html";
              conversion_success := false;
              status := "error";
              error := Some ("HTML conversion failed: " +++ exn_str e);
              metadata := [] |}).

(** ["pdf" if content_type == "pdf_url" else "html"] *)
Definition format_of (content_type : string) : string :=
  if String.eqb content_type "pdf_url" then "pdf" else "html".

(** [_convert_url_content(md_converter, url, content_type)] *)
Definition _convert_url_content (url content_type : string) : C ConvertToMarkdownOutput :=
  try_except
    (result <- perform (CallConvertUrl url) (fun st => convert_url tools st url) ;;
     let '(text_content, title) := result in
     ret {| markdown := text_content;
            original_format := format_of content_type;
            conversion_success := true;
            status := "ok";
            error := None;
            metadata := [("source", MStr "url");
                         ("url", MStr url);
                         ("title", match title with Some t => MStr t | None => MNone end);
                         ("content_length", MInt (String.length text_content))] |})
    (fun e =>
       ret {| markdown := "";
              original_format := format_of content_type;
              conversion_success := false;
              status := "error";
              error := Some ("URL conversion failed: " +++ exn_str e);
              metadata := [] |}).

Definition valid_types : list string := ["url"; "html"; "pdf_url"].

(** [f"Invalid content_type. Must be one of: {valid_types}"] *)
Definition invalid_type_message : string :=
  "Invalid content_type. Must be one of: ['url', 'html', 'pdf_url']".

(** The timing metadata added to a result. *)
Definition with_timing (result : ConvertToMarkdownOutput) (duration_ms timestamp : N)
    (content_type : string) : ConvertToMarkdownOutput :=
  {| markdown := markdown result;
     original_format := original_format result;
     conversion_success := conversion_success result;
     status := status result;
     error := error result;
     metadata :=
       dict_set "content_type" (MStr content_type)
         (dict_set "timestamp" (MTime timestamp)
            (dict_set "duration_seconds" (MTime duration_ms) (metadata result))) |}.

(** [convert_to_markdown(content_type, content)] *)
Definition convert_to_markdown (content_type content : string) : C ConvertToMarkdownOutput :=
  start_time <- time_time ;;
  try_except
    (if negb (existsb (String.eqb content_type) valid_types) then
       ret {| markdown := "";
              original_format := "unknown";
              conversion_success := false;
              status := "error";
              error := Some invalid_type_message;
              metadata := [] |}
     else
       perform CallMarkItDown (new_converter tools) ;;
       let finish (result : ConvertToMarkdownOutput) : C ConvertToMarkdownOutput :=
         t1 <- time_time ;;
         t2 <- time_time ;;
         ret (with_timing result (t1 - start_time)%N t2 content_type) in
       if String.eqb content_type "html" then
         result <- _convert_html_content content ;;
         finish result
       else
         (* content_type in ['url', 'pdf_url'] *)
         v <- lift (validate_url_security env content false) ;;
         let '(is_valid, error_msg) := v in
         if negb is_valid then
           ret {| markdown := "";
                  original_format := "url";
                  conversion_success := false;
                  status := "error";
                  error := Some ("URL validation failed: " +++ error_msg);
                  metadata := [] |}
         else
           normalized_url <- lift (normalize_url env content) ;;
           result <- _convert_url_content normalized_url content_type ;;
           finish result)
    (fun e =>
       t <- time_time ;;
       ret {| markdown := "";
              original_format := content_type;
              conversion_success := false;
              status := "error";
              error := Some ("Unexpected error: " +++ exn_str e);
              metadata := [("duration_seconds", MTime (t - start_time)%N)] |}).

End WithTools.

End Convert.

(** * Test doubles and fixtures *)

Module Double.

Definition manager : BrowserManager := BrowserManagerRef 0.
Definition driver : Driver := DriverRef 0.

(** The world before the first call. *)
Definition w0 : world := mk_world 0%N [].

(** A [get_browser_manager] that always hands out the manager. *)
Definition accessor : Accessor := fun _ => Ok (Some manager).

(** A validator double: http and https only, no loopback address. *)
Definition validate (url : string) (allow_private : bool) : exc (bool * string) :=
  if negb (PyStr.startswith "http://" url || PyStr.startswith "https://" url) then
    Ok (false, "Only http and https URLs are allowed")
  else if negb allow_private && PyStr.contains "127.0.0.1" url then
    Ok (false, "Private addresses are not allowed")
  else Ok (true, "").

(** Stand-ins for [server.utils.parsing] and [urllib.parse]. *)
Definition clean (s : string) : exc string := Ok (PyStr.strip s).

Definition truncate (s : string) (max_length : nat) : exc string :=
  if String.length s <=? max_length then Ok s
  else Ok (String.substring 0 max_length s +++ "...").

Definition text_of (tag : Tag) : exc string := Ok (PyStr.strip (tag_content tag)).

Fixpoint plus_for_space (s : string) : string :=
  match s with
  | EmptyString => EmptyString
  | String c s' =>
      String (if Ascii.eqb c " "%char then "+"%char else c) (plus_for_space s')
  end.

(** [urljoin] of an https base without a path: a reference that
    begins with two slashes names its own host, which must not hold an
    unbalanced bracket, and takes the scheme of the base; one that begins
    with one slash is a path on the host of the base; any other reference
    is returned as it is. *)
Definition invalid_ipv6 : exn := mk_exn OtherException "Invalid IPv6 URL".

Definition join (base url : string) : exc string :=
  if PyStr.startswith "//" url then
    if PyStr.contains "[" url && negb (PyStr.contains "]" url) then Err invalid_ipv6
    else Ok ("https:" +++ url)
  else if PyStr.startswith "/" url then Ok (base +++ url)
  else Ok url.

(** A browser double.  [get_answer] is what [driver.get] does,
    [ready_state] what [document.readyState] reports, [markup] the
    page source, and [pages] the parse of each known markup. *)
Definition browser (get_answer : string -> exc unit) (ready_state : string)
    (markup : string) (pages : list (string * Soup)) : Env :=
  {| validate_url_security := validate;
     normalize_url := fun url => Ok url;
     parse_html_with_soup := fun html =>
       match assoc html pages with
       | Some soup => Ok soup
       | None => Ok (mk_soup [])
       end;
     extract_element_text := text_of;
     clean_text_content := clean;
     truncate_text := truncate;
     quote_plus := plus_for_space;
     urljoin := join;
     default_browser_manager := accessor;
     bm_get_driver := fun _ _ => Ok driver;
     drv_get := fun _ _ url => get_answer url;
     drv_execute_script := fun _ _ _ => Ok ready_state;
     drv_current_url := fun _ _ => Ok "https://example.com/";
     drv_title := fun _ _ => Ok "Example Domain";
     drv_page_source := fun _ _ => Ok markup;
     drv_find_elements := fun _ _ _ _ => Ok 0;
     latency := fun _ ev => match ev with EvGet _ => 20%N | _ => 0%N end |}.

(** A page that loads at once. *)
Definition ready : Env := browser (fun _ => Ok tt) "complete" "<html></html>" [].

(** A page whose ready state never becomes complete. *)
Definition stalled : Env := browser (fun _ => Ok tt) "loading" "<html></html>" [].

(** A session on which one page never reports the ready state
    "complete", while every other page is ready at once. *)
Definition slow_url : string := "https://example.com/slow".

Definition ready_state_of (page : option string) : string :=
  match page with
  | Some url => if String.eqb url slow_url then "loading" else "complete"
  | None => "complete"
  end.

Definition one_slow_page : Env :=
  {| validate_url_security := validate;
     normalize_url := fun url => Ok url;
     parse_html_with_soup := fun _ => Ok (mk_soup []);
     extract_element_text := text_of;
     clean_text_content := clean;
     truncate_text := truncate;
     quote_plus := plus_for_space;
     urljoin := join;
     default_browser_manager := accessor;
     bm_get_driver := fun _ _ => Ok driver;
     drv_get := fun _ _ _ => Ok tt;
     drv_execute_script := fun w _ _ => Ok (ready_state_of (current_page w));
     drv_current_url := fun _ _ => Ok "https://example.com/";
     drv_title := fun _ _ => Ok "Example Domain";
     drv_page_source := fun _ _ => Ok "<html></html>";
     drv_find_elements := fun _ _ _ _ => Ok 0;
     latency := fun _ ev => match ev with EvGet _ => 20%N | _ => 0%N end |}.

(** Every navigation fails with a network error. *)
Definition net_error : exn :=
  mk_exn WebDriverException "Message: unknown error: net::ERR_CONNECTION_RESET".
Definition unreachable : Env := browser (fun _ => Err net_error) "loading" "" [].

(** Every navigation fails with a driver error that is no network
    error. *)
Definition session_error : exn :=
  mk_exn WebDriverException "Message: invalid session id".
Definition broken : Env := browser (fun _ => Err session_error) "loading" "" [].

(** An arXiv result page with four result elements: one with an
    absolute link, one with a link relative to the page, one whose
    title holds no link, and one with a link relative to the site
    root. *)
Definition arxiv_full : Element :=
  mk_element
    [(".list-title a", mk_tag "arXiv:2301.00001" [("href", "https://arxiv.org/abs/2301.00001")]);
     (".list-abstract", mk_tag " A study of qubits. " [])].

Definition arxiv_page_relative : Element :=
  mk_element
    [(".title a", mk_tag "Quantum computing" [("href", "abs/2301.00002")])].

Definition arxiv_root_relative : Element :=
  mk_element
    [(".title a", mk_tag "Quantum error correction" [("href", "/abs/2301.00003")])].

Definition arxiv_untitled : Element :=
  mk_element
    [("p.title", mk_tag "A title without a link" [])].

Definition arxiv_markup : string := "<ol><li class='arxiv-result'>...</li></ol>".

Definition arxiv_soup : Soup :=
  mk_soup [("li.arxiv-result", [arxiv_full; arxiv_page_relative; arxiv_untitled;
                                arxiv_root_relative])].

Definition arxiv : Env :=
  browser (fun _ => Ok tt) "complete" arxiv_markup [(arxiv_markup, arxiv_soup)].

(** [env] with another [extract_element_text]. *)
Definition with_extract_element_text (f : Tag -> exc string) (env : Env) : Env :=
  {| validate_url_security := validate_url_security env;
     normalize_url := normalize_url env;
     parse_html_with_soup := parse_html_with_soup env;
     extract_element_text := f;
     clean_text_content := clean_text_content env;
     truncate_text := truncate_text env;
     quote_plus := quote_plus env;
     urljoin := urljoin env;
     default_browser_manager := default_browser_manager env;
     bm_get_driver := bm_get_driver env;
     drv_get := drv_get env;
     drv_execute_script := drv_execute_script env;
     drv_current_url := drv_current_url env;
     drv_title := drv_title env;
     drv_page_source := drv_page_source env;
     drv_find_elements := drv_find_elements env;
     latency := latency env |}.

(** A text extractor that raises on a tag without content. *)
Definition fragile_text_of (tag : Tag) : exc string :=
  if PyStr.falsy (tag_content tag)
  then Err (mk_exn OtherException "'NoneType' object has no attribute 'get_text'")
  else text_of tag.

(** A result element on which [fragile_text_of] raises. *)
Definition arxiv_malformed : Element :=
  mk_element [(".title a", mk_tag "" [("href", "/abs/2301.00004")])].

Definition arxiv_soup_malformed : Soup :=
  mk_soup [("li.arxiv-result", [arxiv_full; arxiv_malformed; arxiv_root_relative])].

Definition arxiv_fragile_page : Env :=
  with_extract_element_text fragile_text_of
    (browser (fun _ => Ok tt) "complete" arxiv_markup [(arxiv_markup, arxiv_soup_malformed)]).

(** [env] with another driver: what [get], [title] and [page_source]
    answer. *)
Definition with_driver (get_answer : world -> string -> exc unit)
    (title_answer source_answer : exc string) (env : Env) : Env :=
  {| validate_url_security := validate_url_security env;
     normalize_url := normalize_url env;
     parse_html_with_soup := parse_html_with_soup env;
     extract_element_text := extract_element_text env;
     clean_text_content := clean_text_content env;
     truncate_text := truncate_text env;
     quote_plus := quote_plus env;
     urljoin := urljoin env;
     default_browser_manager := default_browser_manager env;
     bm_get_driver := bm_get_driver env;
     drv_get := fun w _ url => get_answer w url;
     drv_execute_script := drv_execute_script env;
     drv_current_url := drv_current_url env;
     drv_title := fun _ _ => title_answer;
     drv_page_source := fun _ _ => source_answer;
     drv_find_elements := drv_find_elements env;
     latency := latency env |}.

(** Every navigation runs into the page-load timeout of the driver. *)
Definition page_load_timeout : exn :=
  mk_exn TimeoutException "Message: timeout: Timed out receiving message from renderer: 300.000".
Definition timing_out : Env := browser (fun _ => Err page_load_timeout) "loading" "" [].

(** The first navigation fails with a network error, the later ones
    work. *)
Definition flaky : Env :=
  with_driver
    (fun w _ => if existsb is_navigation (trace w) then Ok tt else Err net_error)
    (Ok "Example Domain") (Ok "<html></html>") ready.

(** The page loads, but its title and its source cannot be read. *)
Definition stale : exn := mk_exn WebDriverException "Message: stale element reference".
Definition unreadable : Env := with_driver (fun _ _ => Ok tt) (Err stale) (Err stale) ready.

(** An arXiv page on which only the second container selector finds
    the results. *)
Definition arxiv_soup_fallback : Soup :=
  mk_soup [("li.arxiv-result", []);
           (".list-item", [arxiv_full; arxiv_root_relative]);
           ("ol li", [arxiv_untitled])].

Definition arxiv_fallback : Env :=
  browser (fun _ => Ok tt) "complete" arxiv_markup [(arxiv_markup, arxiv_soup_fallback)].

(** A result whose first title selector matches a tag without text,
    while a later one would give a title. *)
Definition arxiv_blank_first : Element :=
  mk_element
    [(".list-title a", mk_tag "  " [("href", "/abs/2301.00005")]);
     ("p.title a", mk_tag "A title under the second selector" [("href", "/abs/2301.00005")])].

(** A result whose link names a host with an unbalanced bracket. *)
Definition arxiv_bad_host : Element :=
  mk_element
    [(".list-title a", mk_tag "A preprint" [("href", "//[arxiv.org/abs/2301.00006")])].

(** A Google Scholar result whose title link is found by the third
    selector only. *)
Definition scholar_third_selector : Element :=
  mk_element
    [("h3 a", mk_tag "Attention is all you need" [("href", "https://arxiv.org/abs/1706.03762")])].

(** A manager accessor that has no manager yet. *)
Definition no_manager : Accessor := fun _ => Ok None.

(** [env] with another answer of [get_driver]. *)
Definition with_get_driver (answer : exc Driver) (env : Env) : Env :=
  {| validate_url_security := validate_url_security env;
     normalize_url := normalize_url env;
     parse_html_with_soup := parse_html_with_soup env;
     extract_element_text := extract_element_text env;
     clean_text_content := clean_text_content env;
     truncate_text := truncate_text env;
     quote_plus := quote_plus env;
     urljoin := urljoin env;
     default_browser_manager := default_browser_manager env;
     bm_get_driver := fun _ _ => answer;
     drv_get := drv_get env;
     drv_execute_script := drv_execute_script env;
     drv_current_url := drv_current_url env;
     drv_title := drv_title env;
     drv_page_source := drv_page_source env;
     drv_find_elements := drv_find_elements env;
     latency := latency env |}.

(** A browser manager that was never started: asking it for the
    session raises a [RuntimeError]. *)
Definition not_started : exn := mk_exn OtherException "Browser manager not started".
Definition stopped : Env := with_get_driver (Err not_started) ready.

(** A manager accessor that raises. *)
Definition not_awaitable : exn :=
  mk_exn OtherException "object BrowserManager can't be used in 'await' expression".
Definition raising_accessor : Accessor := fun _ => Err not_awaitable.

End Double.

(** Doubles of the converter and the file system. *)
Module ConvertDouble.

Definition st0 : Convert.state := Convert.mk_state 0%N [].

Definition path : string := "/tmp/tmpk3v9x2.html".

Definition tools (write_answer : exc unit) (local_answer : exc string)
    (url_answer : exc (string * option string)) : Convert.Tools :=
  {| Convert.new_converter := fun _ => Ok tt;
     Convert.temp_file := fun _ => Ok path;
     Convert.write_file := fun _ _ _ => write_answer;
     Convert.convert_local := fun _ _ => local_answer;
     Convert.convert_url := fun _ _ => url_answer;
     Convert.duration := fun _ _ => 5%N |}.

(** Everything works. *)
Definition working : Convert.Tools :=
  tools (Ok tt) (Ok "# Hello World") (Ok ("# Example Domain", Some "Example Domain")).

(** The converter rejects what it is given. *)
Definition unsupported : exn := mk_exn OtherException "Could not convert file".
Definition rejecting : Convert.Tools :=
  tools (Ok tt) (Err unsupported) (Err unsupported).

(** The temporary file cannot be written. *)
Definition disk_full : exn := mk_exn OtherException "[Errno 28] No space left on device".
Definition unwritable : Convert.Tools :=
  tools (Err disk_full) (Ok "# Hello World") (Ok ("", None)).

End ConvertDouble.

(** * Vocabulary of the properties *)

(** The world after a sleep of [ms] milliseconds. *)
Definition after_sleep (ms : N) (w : world) : world :=
  mk_world (now w + ms)%N (trace w ++ [EvSleep ms]).

(** The calls made between two worlds, when the second log extends the
    first. *)
Definition calls_between (w w' : world) (calls : list event) : Prop :=
  trace w' = trace w ++ calls.

(** The classifier of the retry policy: a function of the description
    of a failure, not of its class.  A failure is transient (network or
    time-out class) when its description holds one of the keywords that
    [_fetch_page_with_retry] looks for, whatever exception carries it. *)
Definition classified_transient (e : exn) : bool := Fetch.is_recoverable e.

(** Fatal: not of the network or time-out class. *)
Definition classified_fatal (e : exn) : bool := negb (Fetch.is_recoverable e).

(** The message of the error output that an attempt returns for a
    driver error it does not raise again. *)
Definition driver_error_message (e : exn) : string :=
  (if is_TimeoutException e then "Page load timeout: " else "Browser error: ")
  +++ exn_str e.


(** The error output of [fetch.py] for a message. *)
Definition fetch_error_output (url message : string) : Fetch.FetchUrlOutput :=
  {| Fetch.final_url := url; Fetch.title := ""; Fetch.html := "";
     Fetch.status := "error"; Fetch.error := Some message; Fetch.metadata := [] |}.

(** The elements of a list on which [f] gives a value, in order. *)
Fixpoint keep_some {A B : Type} (f : A -> option B) (l : list A) : list B :=
  match l with
  | [] => []
  | x :: l' =>
      match f x with
      | Some y => y :: keep_some f l'
      | None => keep_some f l'
      end
  end.

(** The result extracted from an element, if there is one: [None]
    stands for an element that [_extract_*_result] discards or on which
    it fails. *)
Definition extracted (env : Env) (t : Search.extract_table) (element : Element)
    : option Search.SearchResult :=
  match Search.extract_result env t element with
  | Ok (Some result) => Some result
  | Ok None => None
  | Err _ => None
  end.

(** The six parsers, each with its container selectors and its
    extraction table. *)
Definition engine_parsers (env : Env)
    : list ((string -> nat -> list Search.SearchResult) * list string * Search.extract_table) :=
  [(Search._parse_google_scholar_results env,
    Search.google_scholar_selectors, Search.google_scholar_table);
   (Search._parse_pubmed_results env, Search.pubmed_selectors, Search.pubmed_table);
   (Search._parse_ieee_results env, Search.ieee_selectors, Search.ieee_table);
   (Search._parse_arxiv_results env, Search.arxiv_selectors, Search.arxiv_table);
   (Search._parse_medrxiv_results env, Search.medrxiv_selectors, Search.medrxiv_table);
   (Search._parse_biorxiv_results env, Search.biorxiv_selectors, Search.biorxiv_table)].


(** An absolute http(s) URL. *)
Definition is_absolute_url (url : string) : bool :=
  PyStr.startswith "http://" url || PyStr.startswith "https://" url.

(** The link of a result element. *)
Definition link_of (t : Search.extract_table) (element : Element) : string :=
  Search.first_href element (Search.url_selectors t).

(** What a result owes to the element it was extracted from: a
    non-empty title text, cleaned; a non-empty link, which is joined
    with the engine's base URL when it begins with a slash and kept when
    it is an absolute URL already.  Of a link of another form nothing is
    said. *)
Definition result_of_element (env : Env) (t : Search.extract_table)
    (element : Element) (result : Search.SearchResult) : Prop :=
  exists raw_title,
    Search.first_text env element (Search.title_selectors t) = Ok raw_title
    /\ raw_title <> ""
    /\ clean_text_content env raw_title = Ok (Search.title result)
    /\ link_of t element <> ""
    /\ (PyStr.startswith "/" (link_of t element) = true ->
        urljoin env (Search.base_url t) (link_of t element) = Ok (Search.url result))
    /\ (is_absolute_url (link_of t element) = true ->
        Search.url result = link_of t element).

(** An element that gives a result: it has a title text and a link,
    and none of the helper calls made for it raises (the join of a link
    that begins with a slash, the read of the snippet, the cleaning of
    the title and of the snippet, the truncation of the snippet). *)
Definition yields_result (env : Env) (t : Search.extract_table) (element : Element) : Prop :=
  exists raw_title raw_snippet cleaned,
    Search.first_text env element (Search.title_selectors t) = Ok raw_title
    /\ raw_title <> ""
    /\ link_of t element <> ""
    /\ (PyStr.startswith "/" (link_of t element) = true ->
        exists joined, urljoin env (Search.base_url t) (link_of t element) = Ok joined)
    /\ Search.first_text env element (Search.snippet_selectors t) = Ok raw_snippet
    /\ (exists title, clean_text_content env raw_title = Ok title)
    /\ clean_text_content env raw_snippet = Ok cleaned
    /\ (exists snippet, truncate_text env cleaned 300 = Ok snippet).


(** The number of session acquisitions in the call log. *)
Definition count_get_driver (w : world) : nat :=
  List.length (filter is_get_driver (trace w)).

(** Whenever [m] comes back, it has only added calls that satisfy [P]
    to the log. *)
Definition logs_only {A : Type} (P : event -> bool) (m : M A) : Prop :=
  forall w r w', m w = Some (r, w') ->
    exists calls, calls_between w w' calls /\ forallb P calls = true.

(** [m] always comes back, with a value that satisfies [P] or with
    an exception: it never runs out of fuel. *)
Definition returns {A : Type} (m : M A) (P : A -> Prop) : Prop :=
  forall w, exists r w', m w = Some (r, w') /\ (forall a, r = Ok a -> P a).

(** [m] always comes back with a value that satisfies [P]: it neither
    raises nor runs out of fuel. *)
Definition returns_value {A : Type} (m : M A) (P : A -> Prop) : Prop :=
  forall w, exists a w', m w = Some (Ok a, w') /\ P a.

(** An exception that the [except] clauses of [_fetch_page_with_retry]
    let through to the retry executor: no [TimeoutException], and
    either no [WebDriverException] at all or one with a keyword. *)
Definition reraised (e : exn) : bool :=
  negb (is_TimeoutException e)
  && (negb (is_WebDriverException e) || Fetch.is_recoverable e).

(** The two shapes of a fetch output: a success without an error
    message, or an error with a message and neither title nor markup. *)
Definition fetch_output_coherent (out : Fetch.FetchUrlOutput) : Prop :=
  (Fetch.status out = "ok" /\ Fetch.error out = None)
  \/ (Fetch.status out = "error" /\ Fetch.error out <> None
      /\ Fetch.title out = "" /\ Fetch.html out = "").

(** The two shapes of a search output for an input: a success
    without an error message, or an error with a message and no
    results; either way it repeats the stripped query and the
    lower-cased engine and holds at most [min(num_results, 20)]
    results. *)
Definition search_output_coherent (input_data : Search.WebSearchInput)
    (out : Search.WebSearchOutput) : Prop :=
  Search.query out = PyStr.strip (Search.in_query input_data)
  /\ Search.engine out = PyStr.lower (Search.in_engine input_data)
  /\ List.length (Search.results out) <= Nat.min (Search.in_num_results input_data) 20
  /\ ((Search.status out = "ok" /\ Search.error out = None)
      \/ (Search.status out = "error" /\ Search.error out <> None
          /\ Search.results out = [])).

(** A call of the readiness wait of a search: a poll or a poll
    interval. *)
Definition is_wait_call (ev : event) : bool :=
  match ev with
  | EvExecuteScript _ => true
  | EvSleep ms => N.eqb ms WebDriverWait.poll_ms
  | _ => false
  end.

(** The two shapes of a conversion output: a success without an
    error message, or a failure with a message and no markdown. *)
Definition convert_output_coherent (out : Convert.ConvertToMarkdownOutput) : Prop :=
  (Convert.status out = "ok" /\ Convert.conversion_success out = true
   /\ Convert.error out = None)
  \/ (Convert.status out = "error" /\ Convert.conversion_success out = false
      /\ Convert.error out <> None /\ Convert.markdown out = "").

(** The calls made between two states of the conversion tool. *)
Definition convert_calls (st st' : Convert.state) (calls : list Convert.call) : Prop :=
  Convert.log st' = Convert.log st ++ calls.

(** A call of the readiness wait of a fetch while the page is not
    ready: a poll of the ready state or the pause of 100 ms after it. *)
Definition is_readiness_call (ev : event) : bool :=
  match ev with
  | EvExecuteScript script => String.eqb script "return document.readyState"
  | EvSleep ms => N.eqb ms 100
  | _ => false
  end.

(** The title that the page fetch returns for an answer of
    [driver.title]: cleaned, as read when cleaning raises, empty when the
    read raises. *)
Definition title_of_answer (env : Env) (answer : exc string) : string :=
  match answer with
  | Ok raw =>
      match clean_text_content env raw with
      | Ok cleaned => cleaned
      | Err _ => raw
      end
  | Err _ => ""
  end.

(** The markup that the page fetch returns for an answer of
    [driver.page_source]. *)
Definition html_of_answer (answer : exc string) : string :=
  match answer with
  | Ok source => source
  | Err _ => ""
  end.

(** A readiness poll. *)
Definition is_poll (ev : event) : bool :=
  match ev with EvExecuteScript _ => true | _ => false end.

(** The number of readiness polls in the call log. *)
Definition count_polls (w : world) : nat := List.length (filter is_poll (trace w)).

(** A well-formed status. *)
Definition status_ok_or_error (status : string) : Prop :=
  status = "ok" \/ status = "error".

(** * Properties of the retry executor *)

Section RetryFacts.
Context {A : Type}.
Variable wait : nat -> N.
Variable fn : M A.

Lemma retry_loop_returned (left_ k : nat) (w w' : world) (a : A) :
  fn w = Some (Ok a, w') ->
  Tenacity.retry_loop left_ k wait fn w = Some (Ok a, w').
Proof.
  intros H. destruct left_; simpl; unfold try_except; rewrite H; reflexivity.
Qed.

Lemma retry_loop_last (k : nat) (w w' : world) (e : exn) :
  fn w = Some (Err e, w') ->
  Tenacity.retry_loop 0 k wait fn w = Some (Err e, w').
Proof.
  intros H. simpl. unfold try_except. rewrite H. reflexivity.
Qed.

Lemma retry_loop_again (left_ k : nat) (w w' : world) (e : exn) :
  fn w = Some (Err e, w') ->
  Tenacity.retry_loop (S left_) k wait fn w
  = Tenacity.retry_loop left_ (S k) wait fn (after_sleep (1000 * wait k) w').
Proof.
  intros H. simpl. unfold try_except. rewrite H. reflexivity.
Qed.

End RetryFacts.

(** The back-off of [wait_exponential(multiplier=1, min=1, max=10)]
    starts at one second, doubles, and is capped at ten seconds. *)
Lemma wait_exponential_schedule (k : nat) :
  Tenacity.wait_exponential 1 1 10 (S k) = N.min (2 ^ N.of_nat k) 10.
Proof.
  unfold Tenacity.wait_exponential.
  replace (S k - 1) with k by lia.
  assert (1 <= 2 ^ N.of_nat k)%N.
  { change 1%N with (2 ^ 0)%N at 1. apply N.pow_le_mono_r; lia. }
  lia.
Qed.

(** One attempt on an exception that the [except] clauses let
    through. *)
Lemma fetch_page_attempt_reraised (env : Env) (bm : BrowserManager) (url : string)
    (w w' : world) (e : exn) :
  Fetch.fetch_page_try env bm url w = Some (Err e, w') ->
  reraised e = true ->
  Fetch.fetch_page_attempt env bm url w = Some (Err e, w').
Proof.
  intros Htry Hc. unfold reraised in Hc.
  apply andb_prop in Hc as [Hto Hrest]. apply negb_true_iff in Hto.
  unfold Fetch.fetch_page_attempt, try_except. rewrite Htry.
  unfold Fetch.fetch_page_except. rewrite Hto.
  destruct (is_WebDriverException e); simpl in Hrest; [rewrite Hrest |]; reflexivity.
Qed.

(** A transient failure is let through unless a [TimeoutException]
    carries it. *)
Lemma transient_reraised (e : exn) :
  classified_transient e = true -> is_TimeoutException e = false -> reraised e = true.
Proof.
  unfold classified_transient, reraised. intros -> ->.
  destruct (is_WebDriverException e); reflexivity.
Qed.

(** One attempt on a driver error that the [except] clauses turn
    into an error output. *)
Lemma fetch_page_attempt_driver_error (env : Env) (bm : BrowserManager) (url : string)
    (w w' : world) (e : exn) :
  Fetch.fetch_page_try env bm url w = Some (Err e, w') ->
  classified_fatal e = true ->
  is_WebDriverException e = true ->
  Fetch.fetch_page_attempt env bm url w
  = Some (Ok (fetch_error_output url (driver_error_message e)), w').
Proof.
  intros Htry Hc Hwd. unfold classified_fatal in Hc. apply negb_true_iff in Hc.
  unfold Fetch.fetch_page_attempt, try_except. rewrite Htry.
  unfold Fetch.fetch_page_except, driver_error_message.
  destruct (is_TimeoutException e); [reflexivity |].
  rewrite Hwd, Hc. reflexivity.
Qed.

(** C1.  A URL that the security validator rejects makes [fetch_url]
    return at once an output with status "error" that carries the
    validator's reason; the world is returned as it was received, so
    nothing was called: no manager lookup, no session, no driver. *)
Theorem fetch_url_rejected_touches_nothing
    (env : Env) (url reason : string) (get_browser_manager : option Accessor) (w : world) :
  validate_url_security env (PyStr.strip url) false = Ok (false, reason) ->
  exists out w',
    Fetch.fetch_url env url get_browser_manager w = Some (Ok out, w')
    /\ Fetch.status out = "error"
    /\ Fetch.error out = Some ("URL validation failed: " +++ reason)
    /\ calls_between w w' []
    /\ now w' = now w.
Proof.
  intros Hrej.
  exists (fetch_error_output (PyStr.strip url) ("URL validation failed: " +++ reason)), w.
  unfold Fetch.fetch_url, bind, try_except, time_time, lift, calls_between.
  rewrite Hrej. simpl. rewrite app_nil_r. repeat split; reflexivity.
Qed.

Lemma fetch_url_rejected_witness :
  exists out w',
    Fetch.fetch_url Double.ready "http://127.0.0.1/admin" (Some Double.accessor) Double.w0
    = Some (Ok out, w')
    /\ Fetch.status out = "error"
    /\ Fetch.error out = Some ("URL validation failed: " +++ "Private addresses are not allowed")
    /\ calls_between Double.w0 w' []
    /\ now w' = now Double.w0.
Proof.
  apply (fetch_url_rejected_touches_nothing Double.ready "http://127.0.0.1/admin").
  reflexivity.
Defined.

(** * What an attempt adds to the call log *)

Section Logs.
Context {A B : Type}.
Variable P : event -> bool.

Lemma logs_only_nothing (m : M A) :
  (forall w r w', m w = Some (r, w') -> w' = w) -> logs_only P m.
Proof.
  intros Hm w r w' Hrun. apply Hm in Hrun. subst w'.
  exists []. split; [unfold calls_between; symmetry; apply app_nil_r | reflexivity].
Qed.

Lemma logs_only_ret (a : A) : logs_only P (ret a).
Proof. apply logs_only_nothing. intros w r w' H. inversion H. reflexivity. Qed.

Lemma logs_only_raise (e : exn) : logs_only P (@raise A e).
Proof. apply logs_only_nothing. intros w r w' H. inversion H. reflexivity. Qed.

Lemma logs_only_lift (x : exc A) : logs_only P (lift x).
Proof. apply logs_only_nothing. intros w r w' H. inversion H. reflexivity. Qed.

Lemma logs_only_out_of_fuel : logs_only P (@out_of_fuel A).
Proof. intros w r w' H. discriminate. Qed.

Lemma logs_only_call (env : Env) (ev : event) (answer : world -> exc A) :
  P ev = true -> logs_only P (call env ev answer).
Proof.
  intros HP w r w' H. inversion H; subst. exists [ev].
  split; [reflexivity | simpl; rewrite HP; reflexivity].
Qed.

Lemma logs_only_step (w w1 w2 : world) (calls1 calls2 : list event) :
  calls_between w w1 calls1 -> forallb P calls1 = true ->
  calls_between w1 w2 calls2 -> forallb P calls2 = true ->
  exists calls, calls_between w w2 calls /\ forallb P calls = true.
Proof.
  unfold calls_between. intros H1 F1 H2 F2. exists (calls1 ++ calls2). split.
  - rewrite H2, H1, app_assoc. reflexivity.
  - rewrite forallb_app, F1, F2. reflexivity.
Qed.

Lemma logs_only_bind (m : M A) (k : A -> M B) :
  logs_only P m -> (forall a, logs_only P (k a)) -> logs_only P (bind m k).
Proof.
  intros Hm Hk w r w' Hrun. unfold bind in Hrun.
  destruct (m w) as [[[a | e] w1] |] eqn:E; [| | discriminate].
  - destruct (Hm _ _ _ E) as (c1 & H1 & F1).
    destruct (Hk a _ _ _ Hrun) as (c2 & H2 & F2).
    exact (logs_only_step _ _ _ _ _ H1 F1 H2 F2).
  - inversion Hrun; subst. exact (Hm _ _ _ E).
Qed.

Lemma logs_only_try (m : M A) (h : exn -> M A) :
  logs_only P m -> (forall e, logs_only P (h e)) -> logs_only P (try_except m h).
Proof.
  intros Hm Hh w r w' Hrun. unfold try_except in Hrun.
  destruct (m w) as [[[a | e] w1] |] eqn:E; [| | discriminate].
  - inversion Hrun; subst. exact (Hm _ _ _ E).
  - destruct (Hm _ _ _ E) as (c1 & H1 & F1).
    destruct (Hh e _ _ _ Hrun) as (c2 & H2 & F2).
    exact (logs_only_step _ _ _ _ _ H1 F1 H2 F2).
Qed.

End Logs.

Lemma logs_only_time (P : event -> bool) : logs_only P time_time.
Proof. apply logs_only_nothing. intros w r w' H. inversion H. reflexivity. Qed.

Lemma logs_only_sleep (P : event -> bool) (ms : N) :
  P (EvSleep ms) = true -> logs_only P (sleep ms).
Proof.
  intros HP w r w' H. inversion H; subst. exists [EvSleep ms].
  split; [reflexivity | simpl; rewrite HP; reflexivity].
Qed.

(** The readiness wait acquires no session. *)
Lemma wait_for_page_load_logs (env : Env) (driver : Driver) (max_wait : N) :
  logs_only (fun ev => negb (is_get_driver ev)) (Fetch._wait_for_page_load env driver max_wait).
Proof.
  unfold Fetch._wait_for_page_load.
  apply logs_only_bind; [apply logs_only_time |]. intros t.
  generalize (t + 1000 * max_wait)%N as end_time. intros end_time.
  induction (N.to_nat (10 * max_wait + 1)) as [| fuel IH]; simpl.
  - apply logs_only_out_of_fuel.
  - apply logs_only_bind; [apply logs_only_time |]. intros t'.
    destruct (t' <? end_time)%N; [| apply logs_only_ret].
    apply logs_only_bind.
    + apply logs_only_try; [| intros e; apply logs_only_ret].
      apply logs_only_bind; [apply logs_only_call; reflexivity |].
      intros rs. destruct (String.eqb rs "complete"); [| apply logs_only_ret].
      apply logs_only_bind; [apply logs_only_sleep; reflexivity |].
      intros _. apply logs_only_ret.
    + intros [|]; [apply logs_only_ret |].
      apply logs_only_bind; [apply logs_only_sleep; reflexivity |].
      intros _. exact IH.
Qed.

(** Whatever its outcome, the [try] block of the page fetch acquires
    the session exactly once. *)
Lemma fetch_page_try_one_get_driver
    (env : Env) (bm : BrowserManager) (url : string) (w w' : world)
    (r : exc Fetch.FetchUrlOutput) :
  Fetch.fetch_page_try env bm url w = Some (r, w') ->
  count_get_driver w' = S (count_get_driver w).
Proof.
  unfold Fetch.fetch_page_try. unfold bind at 1. unfold get_driver at 1. unfold call at 1.
  assert (Hrest : forall d,
             logs_only (fun ev => negb (is_get_driver ev))
               (driver_get env d url ;;
                Fetch._wait_for_page_load env d 30 ;;
                final_url <- current_url env d ;;
                title <-
                  try_except
                    (raw <- driver_title env d ;;
                     try_except (lift (clean_text_content env raw)) (fun _ => ret raw))
                    (fun _ => ret "") ;;
                html <- try_except (page_source env d) (fun _ => ret "") ;;
                ret {| Fetch.final_url := final_url;
                       Fetch.title := title;
                       Fetch.html := html;
                       Fetch.status := "ok";
                       Fetch.error := None;
                       Fetch.metadata :=
                         [("redirected", MBool (negb (String.eqb final_url url)));
                          ("title_length", MInt (String.length title));
                          ("html_length", MInt (String.length html))] |})%M).
  { intros d.
    apply logs_only_bind; [apply logs_only_call; reflexivity |]. intros _.
    apply logs_only_bind; [apply wait_for_page_load_logs |]. intros _.
    apply logs_only_bind; [apply logs_only_call; reflexivity |]. intros final_url.
    apply logs_only_bind.
    { apply logs_only_try; [| intros e; apply logs_only_ret].
      apply logs_only_bind; [apply logs_only_call; reflexivity |]. intros raw.
      apply logs_only_try; [apply logs_only_lift | intros e; apply logs_only_ret]. }
    intros title.
    apply logs_only_bind.
    { apply logs_only_try; [apply logs_only_call; reflexivity | intros e; apply logs_only_ret]. }
    intros html. apply logs_only_ret. }
  assert (Hcount : forall v v' calls,
             calls_between v v' calls ->
             forallb (fun ev => negb (is_get_driver ev)) calls = true ->
             count_get_driver v' = count_get_driver v).
  { unfold calls_between, count_get_driver. intros v v' calls -> Hall.
    rewrite filter_app, length_app.
    replace (filter is_get_driver calls) with (@nil event); [simpl; lia |].
    symmetry. induction calls as [| ev calls IH]; [reflexivity |].
    simpl in Hall. apply andb_prop in Hall as [Hev Hall].
    simpl. destruct (is_get_driver ev); [discriminate | apply IH; exact Hall]. }
  destruct (bm_get_driver env w bm) as [d | e].
  - intros Hrun. destruct (Hrest d _ _ _ Hrun) as (calls & Hcalls & Hall).
    rewrite (Hcount _ _ _ Hcalls Hall).
    unfold count_get_driver. cbn [trace]. rewrite filter_app, length_app. simpl. lia.
  - intros Hrun. inversion Hrun; subst.
    unfold count_get_driver. cbn [trace]. rewrite filter_app, length_app. simpl. lia.
Qed.

Lemma count_get_driver_after_sleep (ms : N) (w : world) :
  count_get_driver (after_sleep ms w) = count_get_driver w.
Proof.
  unfold count_get_driver, after_sleep. cbn [trace].
  rewrite filter_app, length_app. simpl. lia.
Qed.

(** C5, as the code has it.  When every attempt of the page fetch
    fails with a failure classified as transient that no
    [TimeoutException] carries, [_fetch_page_with_retry] makes exactly
    three attempts (the session is acquired three times), sleeping one
    second after the first and two seconds after the second (the
    exponential back-off of base 1 s and factor 2, never above 10 s),
    and then raises the failure of the third attempt to its caller. *)
Theorem fetch_retry_transient_three_attempts
    (env : Env) (bm : BrowserManager) (url : string) (w : world) :
  (forall v, exists e v',
      Fetch.fetch_page_try env bm url v = Some (Err e, v')
      /\ classified_transient e = true
      /\ is_TimeoutException e = false) ->
  exists e1 w1 e2 w2 e3 w3,
    Fetch.fetch_page_attempt env bm url w = Some (Err e1, w1)
    /\ Fetch.fetch_page_attempt env bm url (after_sleep 1000 w1) = Some (Err e2, w2)
    /\ Fetch.fetch_page_attempt env bm url (after_sleep 2000 w2) = Some (Err e3, w3)
    /\ Fetch._fetch_page_with_retry env bm url w = Some (Err e3, w3)
    /\ classified_transient e3 = true
    /\ count_get_driver w3 = count_get_driver w + 3
    /\ (forall k, Tenacity.wait_exponential 1 1 10 (S k) = N.min (2 ^ N.of_nat k) 10).
Proof.
  intros Hfail.
  destruct (Hfail w) as (e1 & w1 & H1 & C1 & T1).
  destruct (Hfail (after_sleep 1000 w1)) as (e2 & w2 & H2 & C2 & T2).
  destruct (Hfail (after_sleep 2000 w2)) as (e3 & w3 & H3 & C3 & T3).
  pose proof (fetch_page_try_one_get_driver _ _ _ _ _ _ H1) as N1.
  pose proof (fetch_page_try_one_get_driver _ _ _ _ _ _ H2) as N2.
  pose proof (fetch_page_try_one_get_driver _ _ _ _ _ _ H3) as N3.
  rewrite count_get_driver_after_sleep in N2, N3.
  apply fetch_page_attempt_reraised in H1; [| apply transient_reraised; assumption].
  apply fetch_page_attempt_reraised in H2; [| apply transient_reraised; assumption].
  apply fetch_page_attempt_reraised in H3; [| apply transient_reraised; assumption].
  exists e1, w1, e2, w2, e3, w3.
  repeat split; try assumption.
  - unfold Fetch._fetch_page_with_retry, Tenacity.retry.
    change (3 - 1) with 2.
    rewrite (retry_loop_again _ _ _ _ _ _ _ H1).
    change (1000 * Tenacity.wait_exponential 1 1 10 1)%N with 1000%N.
    rewrite (retry_loop_again _ _ _ _ _ _ _ H2).
    change (1000 * Tenacity.wait_exponential 1 1 10 2)%N with 2000%N.
    apply retry_loop_last. exact H3.
  - lia.
  - apply wait_exponential_schedule.
Qed.

Lemma fetch_retry_transient_witness :
  exists e1 w1 e2 w2 e3 w3,
    Fetch.fetch_page_attempt Double.unreachable Double.manager "https://example.com" Double.w0
    = Some (Err e1, w1)
    /\ Fetch.fetch_page_attempt Double.unreachable Double.manager "https://example.com"
         (after_sleep 1000 w1) = Some (Err e2, w2)
    /\ Fetch.fetch_page_attempt Double.unreachable Double.manager "https://example.com"
         (after_sleep 2000 w2) = Some (Err e3, w3)
    /\ Fetch._fetch_page_with_retry Double.unreachable Double.manager "https://example.com"
         Double.w0 = Some (Err e3, w3)
    /\ classified_transient e3 = true
    /\ count_get_driver w3 = count_get_driver Double.w0 + 3
    /\ (forall k, Tenacity.wait_exponential 1 1 10 (S k) = N.min (2 ^ N.of_nat k) 10).
Proof.
  apply (fetch_retry_transient_three_attempts Double.unreachable).
  intros v. exists Double.net_error. eexists. repeat split; reflexivity.
Defined.

(** C5, as the claim has it, fails: with a driver whose every
    navigation runs into its page-load timeout, every attempt fails with
    a failure whose description holds "timeout", so that it is
    classified as transient; but the exception is a [TimeoutException],
    and the fetch ends after its first attempt: it returns an error
    output, having acquired the session once and slept for no back-off,
    and raises nothing to its caller. *)
Lemma fetch_retry_timeout_counterexample :
  (forall v, exists v',
      Fetch.fetch_page_try Double.timing_out Double.manager "https://example.com" v
      = Some (Err Double.page_load_timeout, v'))
  /\ classified_transient Double.page_load_timeout = true
  /\ exists out w',
       Fetch._fetch_page_with_retry Double.timing_out Double.manager "https://example.com"
         Double.w0 = Some (Ok out, w')
       /\ Fetch.status out = "error"
       /\ trace w' = [EvGetDriver Double.manager; EvGet "https://example.com"]
       /\ count_get_driver w' = 1
       /\ count_get_driver w' <> 3.
Proof.
  split; [intros v; eexists; reflexivity |]. split; [reflexivity |].
  eexists; eexists. split; [vm_compute; reflexivity |].
  split; [reflexivity |]. split; [reflexivity |]. split; [reflexivity | discriminate].
Qed.

(** C6, as the code has it.  When the first attempt of the page fetch
    fails with a driver error (a [WebDriverException], which a
    [TimeoutException] is) classified as fatal,
    [_fetch_page_with_retry] makes that one attempt only: it returns
    the error output for the exception in the very world the attempt
    ended in, without a back-off sleep and without a second attempt
    (the session was acquired once). *)
Theorem fetch_retry_fatal_single_attempt
    (env : Env) (bm : BrowserManager) (url : string) (w w1 : world) (e : exn) :
  Fetch.fetch_page_try env bm url w = Some (Err e, w1) ->
  classified_fatal e = true ->
  is_WebDriverException e = true ->
  Fetch.fetch_page_attempt env bm url w
  = Some (Ok (fetch_error_output url (driver_error_message e)), w1)
  /\ Fetch._fetch_page_with_retry env bm url w
     = Some (Ok (fetch_error_output url (driver_error_message e)), w1)
  /\ Fetch.status (fetch_error_output url (driver_error_message e)) = "error"
  /\ count_get_driver w1 = count_get_driver w + 1.
Proof.
  intros Htry Hc Hwd.
  pose proof (fetch_page_attempt_driver_error env bm url w w1 e Htry Hc Hwd) as Hatt.
  split; [exact Hatt |].
  split; [| split; [reflexivity |]].
  - unfold Fetch._fetch_page_with_retry, Tenacity.retry.
    apply retry_loop_returned. exact Hatt.
  - rewrite (fetch_page_try_one_get_driver _ _ _ _ _ _ Htry). lia.
Qed.

Lemma fetch_retry_fatal_witness :
  Fetch.fetch_page_attempt Double.broken Double.manager "https://example.com" Double.w0
  = Some (Ok (fetch_error_output "https://example.com"
                (driver_error_message Double.session_error)),
          mk_world 20 [EvGetDriver Double.manager; EvGet "https://example.com"])
  /\ Fetch._fetch_page_with_retry Double.broken Double.manager "https://example.com" Double.w0
     = Some (Ok (fetch_error_output "https://example.com"
                   (driver_error_message Double.session_error)),
             mk_world 20 [EvGetDriver Double.manager; EvGet "https://example.com"])
  /\ Fetch.status (fetch_error_output "https://example.com"
                     (driver_error_message Double.session_error)) = "error"
  /\ count_get_driver (mk_world 20 [EvGetDriver Double.manager; EvGet "https://example.com"])
     = count_get_driver Double.w0 + 1.
Proof.
  apply (fetch_retry_fatal_single_attempt Double.broken); reflexivity.
Defined.

(** C6, as the claim has it, fails: with a browser manager that was
    never started, the first attempt fails with a [RuntimeError] whose
    description holds none of the keywords, so that it is classified as
    fatal; but no [except] clause takes an exception that is no driver
    error, and the retry executor goes on: the session is asked for
    three times, with sleeps of one and two seconds in between, before
    the failure is raised. *)
Lemma fetch_retry_non_driver_counterexample :
  (forall v, exists v',
      Fetch.fetch_page_try Double.stopped Double.manager "https://example.com" v
      = Some (Err Double.not_started, v'))
  /\ classified_fatal Double.not_started = true
  /\ exists w',
       Fetch._fetch_page_with_retry Double.stopped Double.manager "https://example.com"
         Double.w0 = Some (Err Double.not_started, w')
       /\ trace w' = [EvGetDriver Double.manager; EvSleep 1000;
                      EvGetDriver Double.manager; EvSleep 2000;
                      EvGetDriver Double.manager]
       /\ count_get_driver w' = 3
       /\ count_get_driver w' <> 1.
Proof.
  split; [intros v; eexists; reflexivity |]. split; [reflexivity |].
  eexists. split; [vm_compute; reflexivity |].
  split; [reflexivity |]. split; [reflexivity | discriminate].
Qed.

(** * Properties of the search dispatch *)

Lemma falsy_true_iff (s : string) : PyStr.falsy s = true <-> s = "".
Proof. destruct s; simpl; split; congruence. Qed.

Lemma falsy_false_iff (s : string) : PyStr.falsy s = false <-> s <> "".
Proof. destruct s; simpl; split; congruence. Qed.

Lemma engine_pattern_matches_In (s : string) :
  Search.engine_pattern_matches s = true <-> In s Search.known_engines.
Proof.
  unfold Search.engine_pattern_matches. rewrite existsb_exists. split.
  - intros (x & Hin & Heq). apply String.eqb_eq in Heq. subst. exact Hin.
  - intros Hin. exists s. split; [exact Hin | apply String.eqb_refl].
Qed.

(** The [else] branch of the dispatch is taken exactly by the names
    outside the six. *)
Lemma search_dispatch_unknown (env : Env) (engine : string) :
  Search.engine_pattern_matches engine = false ->
  Search.search_dispatch env engine = None.
Proof.
  unfold Search.engine_pattern_matches, Search.known_engines. simpl.
  intros H. repeat (apply orb_false_elim in H as [?E H]).
  unfold Search.search_dispatch. rewrite E, E0, E1, E2, E3, E4. reflexivity.
Qed.

Lemma search_dispatch_known (env : Env) (engine : string) :
  Search.engine_pattern_matches engine = true ->
  exists routine,
    In (engine, routine) (combine Search.known_engines (Search.search_routines env))
    /\ Search.search_dispatch env engine = Some routine.
Proof.
  intros H. apply engine_pattern_matches_In in H. unfold Search.known_engines in H.
  simpl in H.
  repeat (destruct H as [H | H]; [subst engine; eexists; split; [| reflexivity]; simpl; tauto |]).
  contradiction.
Qed.

(** Every routine of the dispatch is the shared body at some URL
    builder, wait budget and parser. *)
Lemma search_routines_shape (env : Env) routine :
  In routine (Search.search_routines env) ->
  exists search_url max_wait parse,
    routine = Search.search_engine env search_url max_wait parse.
Proof.
  unfold Search.search_routines. simpl.
  intros H.
  repeat (destruct H as [H | H]; [subst routine; do 3 eexists; reflexivity |]).
  contradiction.
Qed.

Lemma lower_known_engine (s : string) :
  In s Search.known_engines -> PyStr.lower s = s.
Proof.
  unfold Search.known_engines. simpl. intros H.
  repeat (destruct H as [H | H]; [subst s; reflexivity |]).
  contradiction.
Qed.

(** The error messages [web_search] can return when the dispatch has
    selected a routine. *)
Lemma web_search_dispatched_errors
    (env : Env) (get_browser_manager : Accessor) (input_data : Search.WebSearchInput)
    routine (w w' : world) (out : Search.WebSearchOutput) :
  Search.search_dispatch env (PyStr.lower (Search.in_engine input_data)) = Some routine ->
  Search.web_search env get_browser_manager input_data w = Some (Ok out, w') ->
  Search.error out = None
  \/ Search.error out = Some "Search query cannot be empty"
  \/ Search.error out = Some "Browser manager not available"
  \/ exists e, Search.error out = Some ("Search error: " +++ exn_str e).
Proof.
  intros Hd. unfold Search.web_search, bind, try_except, time_time, ret, lookup_manager, call.
  rewrite Hd.
  destruct (PyStr.falsy _).
  - intros H. inversion H; subst. simpl. tauto.
  - destruct (get_browser_manager w) as [[bm |] | e].
    + destruct (routine bm _ _ _) as [[[rs | e] v] |].
      * intros H. inversion H; subst. simpl. tauto.
      * intros H. inversion H; subst. simpl. right. right. right. eauto.
      * discriminate.
    + intros H. inversion H; subst. simpl. tauto.
    + intros H. inversion H; subst. simpl. right. right. right. eauto.
Qed.

(** C10.  For an engine value that satisfies the pattern of the input
    schema, lower-casing is the identity, the dispatch of [web_search]
    selects one of the six engine routines (the one listed for that
    name), and no output of [web_search] carries the "Unsupported
    search engine" error. *)
Theorem schema_valid_engine_is_dispatched
    (env : Env) (input_data : Search.WebSearchInput) :
  Search.engine_pattern_matches (Search.in_engine input_data) = true ->
  PyStr.lower (Search.in_engine input_data) = Search.in_engine input_data
  /\ (exists routine,
        In (Search.in_engine input_data, routine)
          (combine Search.known_engines (Search.search_routines env))
        /\ Search.search_dispatch env (PyStr.lower (Search.in_engine input_data))
           = Some routine)
  /\ (forall get_browser_manager w out w',
        Search.web_search env get_browser_manager input_data w = Some (Ok out, w') ->
        Search.error out
        <> Some ("Unsupported search engine: " +++ PyStr.lower (Search.in_engine input_data))).
Proof.
  intros Hvalid.
  assert (Hlow : PyStr.lower (Search.in_engine input_data) = Search.in_engine input_data).
  { apply lower_known_engine, engine_pattern_matches_In, Hvalid. }
  split; [exact Hlow |].
  rewrite Hlow.
  destruct (search_dispatch_known env _ Hvalid) as (routine & Hin & Hd).
  split; [exists routine; split; assumption |].
  intros acc w out w' Hrun.
  rewrite <- Hlow in Hd.
  destruct (web_search_dispatched_errors env acc input_data routine w w' out Hd Hrun)
    as [H | [H | [H | [e H]]]]; rewrite H; simpl; discriminate.
Qed.

Lemma schema_valid_engine_witness :
  PyStr.lower "arxiv" = "arxiv"
  /\ (exists routine,
        In ("arxiv", routine)
          (combine Search.known_engines (Search.search_routines Double.arxiv))
        /\ Search.search_dispatch Double.arxiv (PyStr.lower "arxiv") = Some routine)
  /\ (forall get_browser_manager w out w',
        Search.web_search Double.arxiv get_browser_manager
          (Search.mk_input "quantum computing" "arxiv" 5) w = Some (Ok out, w') ->
        Search.error out <> Some ("Unsupported search engine: " +++ PyStr.lower "arxiv")).
Proof.
  apply (schema_valid_engine_is_dispatched Double.arxiv
           (Search.mk_input "quantum computing" "arxiv" 5)).
  reflexivity.
Defined.

Lemma session_calls_lookup (w w' : world) :
  calls_between w w' [EvLookupManager] -> session_calls w' = session_calls w.
Proof.
  unfold calls_between, session_calls. intros ->.
  rewrite filter_app. simpl. apply app_nil_r.
Qed.

(** C7.  A search whose query is empty after stripping, or whose
    engine identifier is none of the six known names (identifiers are
    compared in lower case), returns an output with status "error" and
    makes no call on the session or the driver: with an empty query
    nothing is called at all, and with an unknown engine the browser
    manager is looked up and nothing more. *)
Theorem web_search_invalid_input_no_session
    (env : Env) (get_browser_manager : Accessor) (input_data : Search.WebSearchInput)
    (w : world) :
  PyStr.strip (Search.in_query input_data) = ""
  \/ Search.engine_pattern_matches (PyStr.lower (Search.in_engine input_data)) = false ->
  exists out w',
    Search.web_search env get_browser_manager input_data w = Some (Ok out, w')
    /\ Search.status out = "error"
    /\ Search.results out = []
    /\ session_calls w' = session_calls w
    /\ (calls_between w w' [] \/ calls_between w w' [EvLookupManager]).
Proof.
  intros Hbad.
  unfold Search.web_search, bind, try_except, time_time, ret, lookup_manager, call.
  destruct (PyStr.falsy (PyStr.strip (Search.in_query input_data))) eqn:Hq.
  - eexists; eexists. split; [reflexivity |]. simpl.
    repeat split. left. unfold calls_between. symmetry. apply app_nil_r.
  - destruct Hbad as [Hempty | Hunknown].
    { apply falsy_false_iff in Hq. contradiction. }
    rewrite (search_dispatch_unknown env _ Hunknown).
    destruct (get_browser_manager w) as [[bm |] | e];
      (eexists; eexists; split; [reflexivity |]; simpl;
       repeat split;
       [apply session_calls_lookup; reflexivity | right; reflexivity]).
Qed.

Lemma web_search_invalid_input_witness :
  exists out w',
    Search.web_search Double.arxiv Double.accessor
      (Search.mk_input "python programming" "duckduckgo" 5) Double.w0 = Some (Ok out, w')
    /\ Search.status out = "error"
    /\ Search.results out = []
    /\ session_calls w' = session_calls Double.w0
    /\ (calls_between Double.w0 w' [] \/ calls_between Double.w0 w' [EvLookupManager]).
Proof.
  apply (web_search_invalid_input_no_session Double.arxiv Double.accessor
           (Search.mk_input "python programming" "duckduckgo" 5)).
  right. reflexivity.
Defined.

(** * Properties of a failed navigation in search *)

(** The shared body of the search routines when [driver.get] raises:
    the exception is dropped and the empty list returned, after the one
    [get_driver] and the one [get]. *)
Lemma search_engine_navigation_fails
    (env : Env) (search_url : string -> nat -> string) (max_wait : N)
    (parse : string -> nat -> list Search.SearchResult)
    (bm : BrowserManager) (d : Driver) (query : string) (num_results : nat) (w : world) :
  (forall v, bm_get_driver env v bm = Ok d) ->
  (forall v u, exists e, drv_get env v d u = Err e) ->
  exists w',
    Search.search_engine env search_url max_wait parse bm query num_results w
    = Some (Ok [], w')
    /\ calls_between w w'
         [EvGetDriver bm; EvGet (search_url (quote_plus env query) num_results)].
Proof.
  intros Hdrv Hget.
  unfold Search.search_engine, bind, try_except, ret, get_driver, driver_get, call.
  rewrite Hdrv.
  match goal with
  | |- context [drv_get env ?v d ?u] => destruct (Hget v u) as [e He]; rewrite He
  end.
  eexists. split; [reflexivity |].
  unfold calls_between. simpl. rewrite <- app_assoc. reflexivity.
Qed.

(** C4, as the code has it.  A search on a known engine whose
    navigation command raises (a transient network error or any other
    exception) is not retried: the routine makes its single attempt (one
    [get_driver], one [get]), drops the exception, and [web_search]
    returns status "ok" with an empty result list. *)
Theorem web_search_navigation_failure_not_retried
    (env : Env) (get_browser_manager : Accessor) (input_data : Search.WebSearchInput)
    (bm : BrowserManager) (d : Driver) (w : world) :
  PyStr.strip (Search.in_query input_data) <> "" ->
  Search.engine_pattern_matches (PyStr.lower (Search.in_engine input_data)) = true ->
  get_browser_manager w = Ok (Some bm) ->
  (forall v, bm_get_driver env v bm = Ok d) ->
  (forall v u, exists e, drv_get env v d u = Err e) ->
  exists out w' u,
    Search.web_search env get_browser_manager input_data w = Some (Ok out, w')
    /\ Search.status out = "ok"
    /\ Search.error out = None
    /\ Search.results out = []
    /\ calls_between w w' [EvLookupManager; EvGetDriver bm; EvGet u]
    /\ List.length (filter is_navigation [EvLookupManager; EvGetDriver bm; EvGet u]) = 1.
Proof.
  intros Hq Hknown Hacc Hdrv Hget.
  destruct (search_dispatch_known env _ Hknown) as (routine & Hin & Hd).
  apply in_combine_r in Hin.
  destruct (search_routines_shape env routine Hin) as (search_url & max_wait & parse & ->).
  apply falsy_false_iff in Hq.
  unfold Search.web_search, bind, try_except, time_time, ret, lookup_manager, call.
  rewrite Hq, Hacc, Hd.
  match goal with
  | |- context [Search.search_engine env search_url max_wait parse bm ?q ?n ?v] =>
      destruct (search_engine_navigation_fails env search_url max_wait parse bm d q n v
                  Hdrv Hget) as (w1 & Hrun & Hcalls)
  end.
  rewrite Hrun.
  eexists; eexists; eexists. split; [reflexivity |]. simpl.
  repeat split.
  unfold calls_between in *. simpl in *. rewrite Hcalls, <- app_assoc. reflexivity.
Qed.

Lemma web_search_navigation_failure_witness :
  exists out w' u,
    Search.web_search Double.unreachable Double.accessor
      (Search.mk_input "quantum computing" "arxiv" 5) Double.w0 = Some (Ok out, w')
    /\ Search.status out = "ok"
    /\ Search.error out = None
    /\ Search.results out = []
    /\ calls_between Double.w0 w' [EvLookupManager; EvGetDriver Double.manager; EvGet u]
    /\ List.length
         (filter is_navigation [EvLookupManager; EvGetDriver Double.manager; EvGet u]) = 1.
Proof.
  apply (web_search_navigation_failure_not_retried Double.unreachable Double.accessor
           (Search.mk_input "quantum computing" "arxiv" 5) Double.manager Double.driver).
  - discriminate.
  - reflexivity.
  - reflexivity.
  - reflexivity.
  - intros v u. exists Double.net_error. reflexivity.
Defined.

(** C4, as the claim has it, fails: with a driver whose every
    navigation fails with a transient network error, the search
    navigates once, sleeps for no back-off, and reports "ok". *)
Lemma web_search_transient_failure_counterexample :
  (forall v d u, drv_get Double.unreachable v d u = Err Double.net_error)
  /\ classified_transient Double.net_error = true
  /\ exists out w',
       Search.web_search Double.unreachable Double.accessor
         (Search.mk_input "quantum computing" "arxiv" 5) Double.w0 = Some (Ok out, w')
       /\ Search.status out = "ok"
       /\ Search.status out <> "error"
       /\ List.length (filter is_navigation (trace w')) = 1.
Proof.
  split; [reflexivity |]. split; [reflexivity |].
  eexists; eexists. split; [vm_compute; reflexivity |].
  split; [reflexivity |]. split; [discriminate | reflexivity].
Qed.

(** * Properties of the result extractor *)

Lemma keep_some_app {A B : Type} (f : A -> option B) (l1 l2 : list A) :
  keep_some f (l1 ++ l2) = keep_some f l1 ++ keep_some f l2.
Proof.
  induction l1 as [| x l1 IH]; simpl; [reflexivity |].
  destruct (f x); simpl; rewrite IH; reflexivity.
Qed.

Lemma keep_some_length {A B : Type} (f : A -> option B) (l : list A) :
  List.length (keep_some f l) <= List.length l.
Proof.
  induction l as [| x l IH]; simpl; [lia |].
  destruct (f x); simpl; lia.
Qed.

Lemma keep_some_all {A B : Type} (f : A -> option B) (l : list A) :
  Forall (fun x => f x <> None) l -> List.length (keep_some f l) = List.length l.
Proof.
  induction 1 as [| x l Hx _ IH]; simpl; [reflexivity |].
  destruct (f x); [simpl; rewrite IH; reflexivity | contradiction].
Qed.

Lemma keep_some_In {A B : Type} (f : A -> option B) (l : list A) (y : B) :
  In y (keep_some f l) -> exists x, In x l /\ f x = Some y.
Proof.
  induction l as [| x l IH]; simpl; [contradiction |].
  destruct (f x) eqn:E.
  - intros [-> | H].
    + exists x. split; [left; reflexivity | exact E].
    + destruct (IH H) as (x' & Hin & Hf). exists x'. split; [right |]; assumption.
  - intros H. destruct (IH H) as (x' & Hin & Hf). exists x'. split; [right |]; assumption.
Qed.

(** The loop over the elements keeps what is extracted, in order. *)
Lemma extract_each_keep_some (env : Env) (t : Search.extract_table) (elements : list Element) :
  Search.extract_each (Search.extract_result env t) elements
  = keep_some (extracted env t) elements.
Proof.
  induction elements as [| el els IH]; simpl; [reflexivity |].
  unfold extracted at 1.
  destruct (Search.extract_result env t el) as [[r |] | e]; rewrite IH; reflexivity.
Qed.

(** A parser returns what is extracted from the first [max_results]
    elements of the first container selector that matches. *)
Lemma parse_results_keep_some
    (env : Env) (result_selectors : list string) (t : Search.extract_table)
    (html : string) (max_results : nat) (soup : Soup) :
  parse_html_with_soup env html = Ok soup ->
  Search.parse_results env result_selectors (Search.extract_result env t) html max_results
  = keep_some (extracted env t)
      (firstn max_results (Search.find_result_elements soup result_selectors)).
Proof.
  intros Hsoup. unfold Search.parse_results. rewrite Hsoup.
  destruct (Search.find_result_elements soup result_selectors) as [| el els] eqn:E.
  - rewrite firstn_nil. reflexivity.
  - apply extract_each_keep_some.
Qed.

Lemma engine_parsers_shape (env : Env) parse result_selectors t :
  In (parse, result_selectors, t) (engine_parsers env) ->
  parse = Search.parse_results env result_selectors (Search.extract_result env t).
Proof.
  unfold engine_parsers. simpl. intros H.
  repeat (destruct H as [H | H]; [inversion H; reflexivity |]).
  contradiction.
Qed.

(** An absolute URL does not begin with a slash. *)
Lemma absolute_not_rooted (href : string) :
  is_absolute_url href = true -> PyStr.startswith "/" href = false.
Proof.
  unfold PyStr.startswith.
  destruct href as [| c href]; [reflexivity |].
  cbn [String.prefix].
  destruct (ascii_dec "/" c) as [<- | Hc]; [| reflexivity].
  intros H. cbv in H. discriminate.
Qed.

(** The extraction, element by element: an element that gives a
    result is turned into a result made of it, and every other element
    into [None]; no exception leaves [_extract_*_result]. *)
Lemma extract_result_spec (env : Env) (t : Search.extract_table) (element : Element) :
  (yields_result env t element
   /\ exists r, Search.extract_result env t element = Ok (Some r)
                /\ result_of_element env t element r)
  \/ (~ yields_result env t element
      /\ Search.extract_result env t element = Ok None).
Proof.
  unfold Search.extract_result, Search.extract_try, exc_bind.
  fold (link_of t element).
  destruct (Search.first_text env element (Search.title_selectors t)) as [raw | e] eqn:Htitle.
  2: { right. split; [| reflexivity].
       intros (raw & sn & cl & H & _). rewrite Htitle in H. discriminate. }
  destruct (PyStr.falsy raw) eqn:Hraw.
  { right. split; [| reflexivity].
    apply falsy_true_iff in Hraw.
    intros (raw' & sn & cl & H & Hne & _). rewrite Htitle in H.
    inversion H; subst. contradiction. }
  apply falsy_false_iff in Hraw.
  destruct (PyStr.falsy (link_of t element)) eqn:Hhref.
  { right. split; [| reflexivity].
    apply falsy_true_iff in Hhref.
    intros (raw' & sn & cl & _ & _ & Hne & _). contradiction. }
  apply falsy_false_iff in Hhref.
  assert (Hjoin : forall u,
            (if PyStr.startswith "/" (link_of t element)
             then urljoin env (Search.base_url t) (link_of t element)
             else Ok (link_of t element)) = Ok u ->
            (PyStr.startswith "/" (link_of t element) = true ->
             urljoin env (Search.base_url t) (link_of t element) = Ok u)
            /\ (is_absolute_url (link_of t element) = true -> u = link_of t element)).
  { intros u Hu. destruct (PyStr.startswith "/" (link_of t element)) eqn:Hrooted.
    - split; [intros _; exact Hu |].
      intros Habs. apply absolute_not_rooted in Habs. congruence.
    - split; [discriminate |]. intros _. inversion Hu. reflexivity. }
  destruct (if PyStr.startswith "/" (link_of t element)
            then urljoin env (Search.base_url t) (link_of t element)
            else Ok (link_of t element)) as [u | e] eqn:Hresolve.
  2: { right. split; [| reflexivity].
       intros (raw' & sn & cl & _ & _ & _ & Hj & _).
       destruct (PyStr.startswith "/" (link_of t element)); [| discriminate].
       destruct (Hj eq_refl) as [joined Hjoined]. congruence. }
  destruct (Search.first_text env element (Search.snippet_selectors t)) as [sn | e] eqn:Hsn.
  2: { right. split; [| reflexivity].
       intros (raw' & sn & cl & _ & _ & _ & _ & H & _). congruence. }
  destruct (clean_text_content env raw) as [title' | e] eqn:Hclean.
  2: { right. split; [| reflexivity].
       intros (raw' & sn' & cl & H & _ & _ & _ & _ & (title' & Hc) & _).
       rewrite Htitle in H. inversion H; subst. congruence. }
  destruct (clean_text_content env sn) as [sn' | e] eqn:Hcleansn.
  2: { right. split; [| reflexivity].
       intros (raw' & sn' & cl & _ & _ & _ & _ & H & _ & Hc & _).
       rewrite Hsn in H. inversion H; subst. congruence. }
  destruct (truncate_text env sn' 300) as [sn'' | e] eqn:Htrunc.
  2: { right. split; [| reflexivity].
       intros (raw' & sn0 & cl & _ & _ & _ & _ & H & _ & Hc & (sn'' & Ht)).
       rewrite Hsn in H. inversion H; subst.
       rewrite Hcleansn in Hc. inversion Hc; subst. congruence. }
  left. split.
  - exists raw, sn, sn'. repeat split; try assumption.
    + intros Hrooted. rewrite Hrooted in Hresolve. exists u. exact Hresolve.
    + exists title'. exact Hclean.
    + exists sn''. exact Htrunc.
  - eexists. split; [reflexivity |].
    exists raw. cbn [Search.title Search.url].
    destruct (Hjoin u eq_refl) as [Hrooted Habs].
    repeat split; assumption.
Qed.

(** What an extracted result is made of. *)
Lemma extracted_result_of_element
    (env : Env) (t : Search.extract_table) (element : Element) (r : Search.SearchResult) :
  extracted env t element = Some r -> result_of_element env t element r.
Proof.
  unfold extracted.
  destruct (extract_result_spec env t element) as [(_ & r' & -> & Hr) | (_ & ->)];
    [| discriminate].
  intros H. inversion H; subst. exact Hr.
Qed.






(** An element on which the extraction raises yields no result. *)
Lemma extracted_failure (env : Env) (t : Search.extract_table) (element : Element) :
  (exists e, Search.extract_try env t element = Err e) ->
  extracted env t element = None.
Proof.
  intros [e He]. unfold extracted, Search.extract_result. rewrite He. reflexivity.
Qed.


(** C9.  For each of the six engines, when the extraction raises on
    one of the elements of a result page, that element alone is
    skipped: the parser returns the results of the elements before it
    followed by the results of the elements after it. *)
Theorem extraction_failure_skips_one_element
    (env : Env) parse (result_selectors : list string) (t : Search.extract_table)
    (html : string) (n : nat) (soup : Soup) (before after : list Element) (bad : Element) :
  In (parse, result_selectors, t) (engine_parsers env) ->
  parse_html_with_soup env html = Ok soup ->
  firstn n (Search.find_result_elements soup result_selectors) = before ++ bad :: after ->
  (exists e, Search.extract_try env t bad = Err e) ->
  parse html n
  = keep_some (extracted env t) before ++ keep_some (extracted env t) after.
Proof.
  intros Hin Hsoup Hsplit Hbad.
  apply engine_parsers_shape in Hin. subst parse.
  rewrite (parse_results_keep_some env result_selectors t html n soup Hsoup), Hsplit.
  rewrite keep_some_app. simpl.
  rewrite (extracted_failure env t bad Hbad). reflexivity.
Qed.

Lemma extraction_failure_witness :
  Search._parse_arxiv_results Double.arxiv_fragile_page Double.arxiv_markup 5
  = keep_some (extracted Double.arxiv_fragile_page Search.arxiv_table) [Double.arxiv_full]
    ++ keep_some (extracted Double.arxiv_fragile_page Search.arxiv_table)
         [Double.arxiv_root_relative].
Proof.
  apply (extraction_failure_skips_one_element Double.arxiv_fragile_page
           (Search._parse_arxiv_results Double.arxiv_fragile_page) Search.arxiv_selectors
           Search.arxiv_table Double.arxiv_markup 5 Double.arxiv_soup_malformed
           [Double.arxiv_full] [Double.arxiv_root_relative] Double.arxiv_malformed).
  - unfold engine_parsers. simpl. tauto.
  - reflexivity.
  - reflexivity.
  - eexists. reflexivity.
Defined.

(** The loop of a parser goes on after an element on which the
    extractor raises, whatever the extractor. *)
Lemma extract_each_skips_raising
    (extract : Element -> exc (option Search.SearchResult))
    (before after : list Element) (bad : Element) :
  (exists e, extract bad = Err e) ->
  Search.extract_each extract (before ++ bad :: after)
  = Search.extract_each extract before ++ Search.extract_each extract after.
Proof.
  intros [e He]. induction before as [| el els IH]; simpl.
  - rewrite He. reflexivity.
  - destruct (extract el) as [[r |] | e']; rewrite IH; reflexivity.
Qed.

(** * A small program logic for [M] *)

Section Returns.
Context {A B : Type}.

Lemma returns_ret (a : A) (P : A -> Prop) : P a -> returns (ret a) P.
Proof.
  intros HP w. exists (Ok a), w. split; [reflexivity |].
  intros a' H. inversion H. subst. exact HP.
Qed.

Lemma returns_raise (e : exn) (P : A -> Prop) : returns (raise e) P.
Proof.
  intros w. exists (Err e), w. split; [reflexivity |]. intros a H. discriminate.
Qed.

Lemma returns_lift (x : exc A) (P : A -> Prop) :
  (forall a, x = Ok a -> P a) -> returns (lift x) P.
Proof.
  intros HP w. exists x, w. split; [reflexivity | exact HP].
Qed.

Lemma returns_call (env : Env) (ev : event) (answer : world -> exc A) (P : A -> Prop) :
  (forall a, P a) -> returns (call env ev answer) P.
Proof.
  intros HP w. unfold call. eexists; eexists. split; [reflexivity |].
  intros a _. apply HP.
Qed.

Lemma returns_weaken (m : M A) (P Q : A -> Prop) :
  returns m P -> (forall a, P a -> Q a) -> returns m Q.
Proof.
  intros Hm HPQ w. destruct (Hm w) as (r & w' & Hrun & HP).
  exists r, w'. split; [exact Hrun |]. intros a Ha. apply HPQ, HP, Ha.
Qed.

Lemma returns_bind (m : M A) (k : A -> M B) (Q : A -> Prop) (P : B -> Prop) :
  returns m Q -> (forall a, Q a -> returns (k a) P) -> returns (bind m k) P.
Proof.
  intros Hm Hk w. unfold bind.
  destruct (Hm w) as ([a | e] & w' & Hrun & HQ); rewrite Hrun.
  - apply (Hk a (HQ a eq_refl)).
  - exists (Err e), w'. split; [reflexivity |]. intros b H. discriminate.
Qed.

Lemma returns_try (m : M A) (h : exn -> M A) (P : A -> Prop) :
  returns m P -> (forall e, returns (h e) P) -> returns (try_except m h) P.
Proof.
  intros Hm Hh w. unfold try_except.
  destruct (Hm w) as ([a | e] & w' & Hrun & HP); rewrite Hrun.
  - exists (Ok a), w'. split; [reflexivity | exact HP].
  - apply Hh.
Qed.

Lemma returns_value_ret (a : A) (P : A -> Prop) : P a -> returns_value (ret a) P.
Proof. intros HP w. exists a, w. split; [reflexivity | exact HP]. Qed.

Lemma returns_value_try (m : M A) (h : exn -> M A) (P : A -> Prop) :
  returns m P -> (forall e, returns_value (h e) P) -> returns_value (try_except m h) P.
Proof.
  intros Hm Hh w. unfold try_except.
  destruct (Hm w) as ([a | e] & w' & Hrun & HP); rewrite Hrun.
  - exists a, w'. split; [reflexivity | apply HP; reflexivity].
  - apply Hh.
Qed.

Lemma returns_value_bind (m : M A) (k : A -> M B) (Q : A -> Prop) (P : B -> Prop) :
  returns_value m Q -> (forall a, Q a -> returns_value (k a) P) ->
  returns_value (bind m k) P.
Proof.
  intros Hm Hk w. unfold bind.
  destruct (Hm w) as (a & w' & Hrun & HQ). rewrite Hrun. apply (Hk a HQ).
Qed.

Lemma returns_value_returns (m : M A) (P : A -> Prop) :
  returns_value m P -> returns m P.
Proof.
  intros Hm w. destruct (Hm w) as (a & w' & Hrun & HP).
  exists (Ok a), w'. split; [exact Hrun |]. intros a' H. inversion H. subst. exact HP.
Qed.

End Returns.

Lemma returns_value_time (P : N -> Prop) : (forall t, P t) -> returns_value time_time P.
Proof. intros HP w. exists (now w), w. split; [reflexivity | apply HP]. Qed.

Lemma returns_value_sleep (ms : N) (P : unit -> Prop) : P tt -> returns_value (sleep ms) P.
Proof. intros HP w. unfold sleep. eexists; eexists. split; [reflexivity | exact HP]. Qed.

Lemma returns_time (P : N -> Prop) : (forall t, P t) -> returns time_time P.
Proof. intros HP. apply returns_value_returns, returns_value_time, HP. Qed.

Lemma returns_sleep (ms : N) (P : unit -> Prop) : P tt -> returns (sleep ms) P.
Proof. intros HP. apply returns_value_returns, returns_value_sleep, HP. Qed.

(** * Termination of the two waits *)

Lemma wait_for_page_load_loop_unfold
    (env : Env) (fuel : nat) (driver : Driver) (end_time : N) :
  Fetch.wait_for_page_load_loop env (S fuel) driver end_time
  = (t <- time_time ;;
     if (t <? end_time)%N then
       is_complete <-
         try_except
           (ready_state <- execute_script env driver "return document.readyState" ;;
            if String.eqb ready_state "complete"
            then sleep 500 ;; ret true
            else ret false)
           (fun _ => ret false) ;;
       if (is_complete : bool) then ret tt
       else sleep 100 ;; Fetch.wait_for_page_load_loop env fuel driver end_time
     else ret tt)%M.
Proof. reflexivity. Qed.

(** The readiness loop of the page fetch comes back with a value when
    its fuel covers the time left at 100 ms per round; the clock does
    not go back. *)
Lemma wait_for_page_load_loop_returns
    (env : Env) (driver : Driver) (end_time : N) (fuel : nat) :
  forall w,
    (end_time <= now w + 100 * N.of_nat fuel)%N ->
    exists w',
      Fetch.wait_for_page_load_loop env (S fuel) driver end_time w = Some (Ok tt, w')
      /\ (now w <= now w')%N.
Proof.
  induction fuel as [| fuel IH]; intros w Hfuel; rewrite wait_for_page_load_loop_unfold;
    unfold bind at 1; unfold time_time at 1;
    destruct (N.ltb_spec (now w) end_time) as [Hlt | Hge];
    try (exists w; split; [reflexivity | lia]).
  - simpl in Hfuel. lia.
  - unfold bind, try_except, execute_script, call, ret, sleep.
    destruct (drv_execute_script env w driver "return document.readyState") as [rs | e].
    + destruct (String.eqb rs "complete").
      { eexists. split; [reflexivity |]. cbn [now]. lia. }
      match goal with
      | |- context [Fetch.wait_for_page_load_loop env (S fuel) driver end_time ?v] =>
          destruct (IH v) as (w' & Hrun & Hmono); [cbn [now]; lia |];
          rewrite Hrun; exists w'; split; [reflexivity | cbn [now] in Hmono; lia]
      end.
    + match goal with
      | |- context [Fetch.wait_for_page_load_loop env (S fuel) driver end_time ?v] =>
          destruct (IH v) as (w' & Hrun & Hmono); [cbn [now]; lia |];
          rewrite Hrun; exists w'; split; [reflexivity | cbn [now] in Hmono; lia]
      end.
Qed.

Lemma wait_for_page_load_returns (env : Env) (driver : Driver) (max_wait : N) :
  returns_value (Fetch._wait_for_page_load env driver max_wait) (fun _ => True).
Proof.
  intros w. unfold Fetch._wait_for_page_load, bind, time_time.
  replace (N.to_nat (10 * max_wait + 1)) with (S (N.to_nat (10 * max_wait))) by lia.
  destruct (wait_for_page_load_loop_returns env driver (now w + 1000 * max_wait)%N
              (N.to_nat (10 * max_wait)) w) as (w' & Hrun & _); [lia |].
  exists tt, w'. split; [exact Hrun | exact I].
Qed.

Lemma until_loop_unfold (fuel : nat) (end_time : N) (method : M bool) :
  WebDriverWait.until_loop (S fuel) end_time method
  = (value <-
       try_except method
         (fun e => if is_NoSuchElementException e then ret false else raise e) ;;
     if (value : bool) then ret value
     else
       t <- time_time ;;
       if (end_time <? t)%N then raise WebDriverWait.timeout_exception
       else sleep WebDriverWait.poll_ms ;; WebDriverWait.until_loop fuel end_time method)%M.
Proof. reflexivity. Qed.

(** The polling loop of [WebDriverWait.until] comes back (with a value
    or with an exception) when its fuel covers the time left at 500 ms
    per round, for a condition that itself comes back and does not turn
    the clock back. *)
Lemma until_loop_returns (end_time : N) (method : M bool) :
  (forall v, exists r v', method v = Some (r, v') /\ (now v <= now v')%N) ->
  forall fuel w,
    (end_time + 1 <= now w + 500 * N.of_nat fuel)%N ->
    exists r w', WebDriverWait.until_loop (S fuel) end_time method w = Some (r, w').
Proof.
  intros Hmethod. unfold WebDriverWait.poll_ms.
  assert (Hstep : forall fuel w,
             (end_time + 1 <= now w + 500 * N.of_nat fuel)%N ->
             (forall v, (end_time + 1 <= now v + 500 * N.of_nat (fuel - 1))%N ->
                        fuel <> 0 ->
                        exists r w', WebDriverWait.until_loop fuel end_time method v
                                     = Some (r, w')) ->
             exists r w', WebDriverWait.until_loop (S fuel) end_time method w = Some (r, w')).
  { intros fuel w Hfuel Hrec. rewrite until_loop_unfold.
    unfold bind at 1. unfold try_except.
    destruct (Hmethod w) as (r & v' & Hrun & Hmono). rewrite Hrun.
    assert (Hpoll : exists r' w',
               (t <- time_time ;;
                if (end_time <? t)%N then raise WebDriverWait.timeout_exception
                else sleep WebDriverWait.poll_ms ;;
                     WebDriverWait.until_loop fuel end_time method)%M v' = Some (r', w')).
    { unfold bind, time_time, raise, sleep, WebDriverWait.poll_ms.
      destruct (N.ltb_spec end_time (now v')) as [Hpast | Hnot].
      - eexists; eexists; reflexivity.
      - destruct fuel as [| fuel]; [simpl in Hfuel; lia |].
        match goal with
        | |- context [WebDriverWait.until_loop (S fuel) end_time method ?v] =>
            destruct (Hrec v) as (r' & w' & Hrun'); [cbn [now]; lia | discriminate |];
            rewrite Hrun'; eexists; eexists; reflexivity
        end. }
    destruct r as [[|] | e].
    - eexists; eexists; reflexivity.
    - exact Hpoll.
    - destruct (is_NoSuchElementException e).
      + exact Hpoll.
      + eexists; eexists; reflexivity. }
  induction fuel as [| fuel IH]; intros w Hfuel.
  - apply Hstep; [exact Hfuel |]. intros v _ Hne. contradiction.
  - apply Hstep; [exact Hfuel |]. intros v Hv _.
    apply IH. replace (S fuel - 1) with fuel in Hv by lia. exact Hv.
Qed.

Lemma until_returns (timeout : N) (method : M bool) :
  (forall v, exists r v', method v = Some (r, v') /\ (now v <= now v')%N) ->
  returns (WebDriverWait.until timeout method) (fun _ => True).
Proof.
  intros Hmethod w. unfold WebDriverWait.until, bind, time_time.
  replace (N.to_nat (2 * timeout + 2)) with (S (N.to_nat (2 * timeout + 1))) by lia.
  destruct (until_loop_returns (now w + 1000 * timeout)%N method Hmethod
              (N.to_nat (2 * timeout + 1)) w) as (r & w' & Hrun); [lia |].
  exists r, w'. split; [exact Hrun | intros; exact I].
Qed.

Lemma probe_result_indicators_returns (env : Env) (driver : Driver) (selectors : list string) :
  returns_value (Search.probe_result_indicators env driver selectors) (fun _ => True).
Proof.
  induction selectors as [| selector rest IH]; simpl.
  - apply returns_value_ret. exact I.
  - apply returns_value_bind with (Q := fun _ => True).
    + apply returns_value_try.
      * apply returns_bind with (Q := fun _ => True).
        -- apply returns_call. intros; exact I.
        -- intros n _. apply returns_ret. exact I.
      * intros e. apply returns_value_ret. exact I.
    + intros [|] _; [apply returns_value_ret; exact I | exact IH].
Qed.

Lemma wait_for_search_results_returns (env : Env) (driver : Driver) (max_wait : N) :
  returns_value (Search._wait_for_search_results env driver max_wait) (fun _ => True).
Proof.
  unfold Search._wait_for_search_results.
  apply returns_value_try.
  - apply returns_bind with (Q := fun _ => True).
    + apply until_returns. intros v.
      unfold bind, execute_script, call, ret.
      destruct (drv_execute_script env v driver "return document.readyState") as [rs | e];
        eexists; eexists; (split; [reflexivity | cbn [now]; lia]).
    + intros _ _. apply returns_bind with (Q := fun _ => True).
      * apply returns_value_returns, probe_result_indicators_returns.
      * intros _ _. apply returns_sleep. exact I.
  - intros e. destruct (is_TimeoutException e); apply returns_value_ret; exact I.
Qed.

(** A search routine always returns a list: it never raises. *)
Lemma search_engine_returns
    (env : Env) (search_url : string -> nat -> string) (max_wait : N)
    (parse : string -> nat -> list Search.SearchResult)
    (bm : BrowserManager) (query : string) (num_results : nat) :
  returns_value (Search.search_engine env search_url max_wait parse bm query num_results)
    (fun _ => True).
Proof.
  unfold Search.search_engine.
  apply returns_value_try.
  - apply returns_bind with (Q := fun _ => True); [apply returns_call; intros; exact I |].
    intros d _.
    apply returns_bind with (Q := fun _ => True); [apply returns_call; intros; exact I |].
    intros _ _.
    apply returns_bind with (Q := fun _ => True).
    { apply returns_value_returns, wait_for_search_results_returns. }
    intros _ _.
    apply returns_bind with (Q := fun _ => True); [apply returns_call; intros; exact I |].
    intros html _. apply returns_ret. exact I.
  - intros e. apply returns_value_ret. exact I.
Qed.

Lemma search_dispatch_routine (env : Env) (engine : string) routine :
  Search.search_dispatch env engine = Some routine ->
  In routine (Search.search_routines env).
Proof.
  unfold Search.search_dispatch, Search.search_routines.
  repeat match goal with
         | |- context [String.eqb engine ?s] => destruct (String.eqb engine s)
         end;
    intros H; inversion H; simpl; tauto.
Qed.

(** [web_search] always returns an output, with status "ok" or
    "error". *)
Lemma web_search_returns
    (env : Env) (get_browser_manager : Accessor) (input_data : Search.WebSearchInput) :
  returns_value (Search.web_search env get_browser_manager input_data)
    (fun out => status_ok_or_error (Search.status out)).
Proof.
  unfold Search.web_search.
  apply returns_value_bind with (Q := fun _ => True);
    [apply returns_value_time; intros; exact I |].
  intros start_time _.
  destruct (PyStr.falsy _).
  { apply returns_value_ret. right. reflexivity. }
  apply returns_value_try.
  - apply returns_bind with (Q := fun _ => True).
    { unfold lookup_manager. apply returns_call. intros; exact I. }
    intros [bm |] _.
    + destruct (Search.search_dispatch env _) as [search |] eqn:Hd.
      * apply search_dispatch_routine, search_routines_shape in Hd.
        destruct Hd as (search_url & max_wait & parse & ->).
        apply returns_bind with (Q := fun _ => True).
        { apply returns_value_returns, search_engine_returns. }
        intros results _.
        apply returns_bind with (Q := fun _ => True); [apply returns_time; intros; exact I |].
        intros t1 _.
        apply returns_bind with (Q := fun _ => True); [apply returns_time; intros; exact I |].
        intros t2 _. apply returns_ret. left. reflexivity.
      * apply returns_ret. right. reflexivity.
    + apply returns_ret. right. reflexivity.
  - intros e.
    apply returns_value_bind with (Q := fun _ => True);
      [apply returns_value_time; intros; exact I |].
    intros t _. apply returns_value_ret. right. reflexivity.
Qed.

(** The retry executor comes back whenever the operation does, and a
    value it returns is a value the operation returned. *)
Lemma retry_loop_returns {A : Type} (wait : nat -> N) (fn : M A) (P : A -> Prop)
    (retries_left attempt_number : nat) :
  returns fn P ->
  returns (Tenacity.retry_loop retries_left attempt_number wait fn) P.
Proof.
  intros Hfn. revert attempt_number.
  induction retries_left as [| remaining IH]; intros attempt_number; simpl.
  - apply returns_try; [exact Hfn |]. intros e. apply returns_raise.
  - apply returns_try; [exact Hfn |]. intros e.
    apply returns_bind with (Q := fun _ => True); [apply returns_sleep; exact I |].
    intros _ _. apply IH.
Qed.

(** The [try] block of the page fetch comes back, and with status
    "ok" when it returns. *)
Lemma fetch_page_try_returns (env : Env) (bm : BrowserManager) (url : string) :
  returns (Fetch.fetch_page_try env bm url) (fun out => Fetch.status out = "ok").
Proof.
  unfold Fetch.fetch_page_try.
  apply returns_bind with (Q := fun _ => True); [apply returns_call; intros; exact I |].
  intros d _.
  apply returns_bind with (Q := fun _ => True); [apply returns_call; intros; exact I |].
  intros _ _.
  apply returns_bind with (Q := fun _ => True).
  { apply returns_value_returns, wait_for_page_load_returns. }
  intros _ _.
  apply returns_bind with (Q := fun _ => True); [apply returns_call; intros; exact I |].
  intros final_url _.
  apply returns_bind with (Q := fun _ => True).
  { apply returns_try.
    - apply returns_bind with (Q := fun _ => True); [apply returns_call; intros; exact I |].
      intros raw _. apply returns_try; [apply returns_lift; intros; exact I |].
      intros e. apply returns_ret. exact I.
    - intros e. apply returns_ret. exact I. }
  intros title _.
  apply returns_bind with (Q := fun _ => True).
  { apply returns_try; [apply returns_call; intros; exact I |].
    intros e. apply returns_ret. exact I. }
  intros html _. apply returns_ret. reflexivity.
Qed.

Lemma fetch_page_attempt_returns (env : Env) (bm : BrowserManager) (url : string) :
  returns (Fetch.fetch_page_attempt env bm url)
    (fun out => status_ok_or_error (Fetch.status out)).
Proof.
  unfold Fetch.fetch_page_attempt.
  apply returns_try.
  - apply returns_weaken with (P := fun out => Fetch.status out = "ok").
    + apply fetch_page_try_returns.
    + intros out H. left. exact H.
  - intros e. unfold Fetch.fetch_page_except.
    destruct (is_TimeoutException e); [apply returns_ret; right; reflexivity |].
    destruct (is_WebDriverException e); [| apply returns_raise].
    destruct (Fetch.is_recoverable e); [apply returns_raise |].
    apply returns_ret. right. reflexivity.
Qed.

(** [fetch_url] always returns an output, with status "ok" or
    "error". *)
Lemma fetch_url_returns (env : Env) (url : string) (get_browser_manager : option Accessor) :
  returns_value (Fetch.fetch_url env url get_browser_manager)
    (fun out => status_ok_or_error (Fetch.status out)).
Proof.
  unfold Fetch.fetch_url.
  apply returns_value_bind with (Q := fun _ => True);
    [apply returns_value_time; intros; exact I |].
  intros start_time _.
  apply returns_value_try.
  - apply returns_bind with (Q := fun _ => True); [apply returns_lift; intros; exact I |].
    intros [is_valid error_msg] _.
    destruct (negb is_valid); [apply returns_ret; right; reflexivity |].
    apply returns_bind with (Q := fun _ => True); [apply returns_lift; intros; exact I |].
    intros normalized_url _.
    apply returns_bind with (Q := fun _ => True).
    { destruct get_browser_manager; unfold lookup_manager; apply returns_call;
        intros; exact I. }
    intros [bm |] _; [| apply returns_ret; right; reflexivity].
    apply returns_bind with (Q := fun out => status_ok_or_error (Fetch.status out)).
    { unfold Fetch._fetch_page_with_retry, Tenacity.retry.
      apply retry_loop_returns, fetch_page_attempt_returns. }
    intros result Hresult.
    apply returns_bind with (Q := fun _ => True); [apply returns_time; intros; exact I |].
    intros t1 _.
    apply returns_bind with (Q := fun _ => True); [apply returns_time; intros; exact I |].
    intros t2 _. apply returns_ret. exact Hresult.
  - intros e.
    apply returns_value_bind with (Q := fun _ => True);
      [apply returns_value_time; intros; exact I |].
    intros t _. apply returns_value_ret. right. reflexivity.
Qed.

(** C8.  Whatever the input, the collaborators and the state of the
    world, [fetch_url] and [web_search] come back with an output whose
    status is "ok" or "error": neither lets an exception through, and
    neither fails to come back. *)
Theorem tools_always_return_a_status (env : Env) :
  (forall url get_browser_manager w,
      exists out w',
        Fetch.fetch_url env url get_browser_manager w = Some (Ok out, w')
        /\ status_ok_or_error (Fetch.status out))
  /\ (forall get_browser_manager input_data w,
        exists out w',
          Search.web_search env get_browser_manager input_data w = Some (Ok out, w')
          /\ status_ok_or_error (Search.status out)).
Proof.
  split.
  - intros url gbm w. apply (fetch_url_returns env url gbm w).
  - intros gbm input_data w. apply (web_search_returns env gbm input_data w).
Qed.

(** * The readiness wait on a page that never gets ready *)

Lemma last_navigation_app (calls : list event) (ev : event) :
  last_navigation (calls ++ [ev])
  = match ev with
    | EvGet url => Some url
    | _ => last_navigation calls
    end.
Proof.
  induction calls as [| c calls IH]; simpl.
  - destruct ev; reflexivity.
  - rewrite IH. destruct ev; reflexivity.
Qed.

(** While the page the session is on does not report "complete", the
    loop ends only once the clock has reached the deadline; it ends
    without raising, and it has only polled and paused. *)
Lemma wait_for_page_load_loop_stalled
    (env : Env) (driver : Driver) (page : string) (end_time : N) :
  (forall v, current_page v = Some page ->
             drv_execute_script env v driver "return document.readyState" <> Ok "complete") ->
  forall fuel w,
    current_page w = Some page ->
    (end_time <= now w + 100 * N.of_nat fuel)%N ->
    exists w' polls,
      Fetch.wait_for_page_load_loop env (S fuel) driver end_time w = Some (Ok tt, w')
      /\ (end_time <= now w')%N
      /\ (now w <= now w')%N
      /\ calls_between w w' polls
      /\ forallb is_readiness_call polls = true.
Proof.
  intros Hnever.
  assert (Hstep : forall w t,
            current_page w = Some page ->
            current_page
              (mk_world t
                 ((trace w ++ [EvExecuteScript "return document.readyState"])
                  ++ [EvSleep 100])) = Some page).
  { intros w t Hpage. unfold current_page in *. cbn [trace].
    rewrite !last_navigation_app. exact Hpage. }
  induction fuel as [| fuel IH]; intros w Hpage Hfuel;
    rewrite wait_for_page_load_loop_unfold;
    unfold bind at 1; unfold time_time at 1;
    destruct (N.ltb_spec (now w) end_time) as [Hlt | Hge];
    try (exists w, []; split; [reflexivity |]; split; [lia |]; split; [lia |];
         split; [unfold calls_between; symmetry; apply app_nil_r | reflexivity]).
  - simpl in Hfuel. lia.
  - unfold bind, try_except, execute_script, call, ret, sleep.
    destruct (drv_execute_script env w driver "return document.readyState")
      as [rs | e] eqn:Hrs.
    + destruct (String.eqb rs "complete") eqn:Heq.
      { apply String.eqb_eq in Heq. subst rs. exfalso. exact (Hnever w Hpage Hrs). }
      match goal with
      | |- context [Fetch.wait_for_page_load_loop env (S fuel) driver end_time ?v] =>
          destruct (IH v) as (w' & polls & Hrun & Hend & Hmono & Hcalls & Hpolls);
          [apply Hstep; exact Hpage | cbn [now]; lia |];
          rewrite Hrun;
          exists w', ([EvExecuteScript "return document.readyState"; EvSleep 100] ++ polls);
          split; [reflexivity |]; split; [exact Hend |];
          split; [cbn [now] in Hmono; lia |]; split;
          [unfold calls_between in *; cbn [trace] in Hcalls; rewrite Hcalls;
           rewrite <- !app_assoc; reflexivity
          | rewrite forallb_app, Hpolls; reflexivity]
      end.
    + match goal with
      | |- context [Fetch.wait_for_page_load_loop env (S fuel) driver end_time ?v] =>
          destruct (IH v) as (w' & polls & Hrun & Hend & Hmono & Hcalls & Hpolls);
          [apply Hstep; exact Hpage | cbn [now]; lia |];
          rewrite Hrun;
          exists w', ([EvExecuteScript "return document.readyState"; EvSleep 100] ++ polls);
          split; [reflexivity |]; split; [exact Hend |];
          split; [cbn [now] in Hmono; lia |]; split;
          [unfold calls_between in *; cbn [trace] in Hcalls; rewrite Hcalls;
           rewrite <- !app_assoc; reflexivity
          | rewrite forallb_app, Hpolls; reflexivity]
      end.
Qed.

Lemma wait_for_page_load_stalled
    (env : Env) (driver : Driver) (page : string) (max_wait : N) (w : world) :
  (forall v, current_page v = Some page ->
             drv_execute_script env v driver "return document.readyState" <> Ok "complete") ->
  current_page w = Some page ->
  exists w' polls,
    Fetch._wait_for_page_load env driver max_wait w = Some (Ok tt, w')
    /\ calls_between w w' polls
    /\ (forallb is_readiness_call polls = true
        /\ (now w + 1000 * max_wait <= now w')%N).
Proof.
  intros Hnever Hpage. unfold Fetch._wait_for_page_load, bind, time_time.
  replace (N.to_nat (10 * max_wait + 1)) with (S (N.to_nat (10 * max_wait))) by lia.
  destruct (wait_for_page_load_loop_stalled env driver page (now w + 1000 * max_wait)%N
              Hnever (N.to_nat (10 * max_wait)) w Hpage)
    as (w' & polls & Hrun & Hend & _ & Hcalls & Hpolls); [lia |].
  exists w', polls. repeat split; assumption.
Qed.

(** On a page that reports "complete" at the first poll, the wait is
    that poll and the settle sleep. *)
Lemma wait_for_page_load_first_poll
    (env : Env) (driver : Driver) (max_wait : N) (w : world) :
  (0 < max_wait)%N ->
  drv_execute_script env w driver "return document.readyState" = Ok "complete" ->
  exists w',
    Fetch._wait_for_page_load env driver max_wait w = Some (Ok tt, w')
    /\ calls_between w w' [EvExecuteScript "return document.readyState"; EvSleep 500].
Proof.
  intros Hpos Hready.
  unfold Fetch._wait_for_page_load. unfold bind at 1. unfold time_time at 1.
  replace (N.to_nat (10 * max_wait + 1)) with (S (N.to_nat (10 * max_wait))) by lia.
  rewrite wait_for_page_load_loop_unfold.
  unfold bind at 1. unfold time_time at 1.
  destruct (N.ltb_spec (now w) (now w + 1000 * max_wait)) as [_ | Hge]; [| lia].
  unfold bind, try_except, execute_script, call, sleep, ret.
  rewrite Hready. cbn [String.eqb Ascii.eqb Bool.eqb].
  eexists. split; [reflexivity |].
  unfold calls_between. cbn [trace]. rewrite <- app_assoc. reflexivity.
Qed.

(** One attempt with a driver that navigates and answers the reads:
    the session is acquired and sent to the URL, the wait runs on that
    page, and the URL, the title and the markup are read; whatever the
    wait has seen, the output is "ok". *)
Lemma fetch_page_try_reads
    (env : Env) (bm : BrowserManager) (d : Driver) (url final : string)
    (title_answer source_answer : exc string)
    (Q : world -> world -> list event -> Prop) (w : world) :
  (forall v, bm_get_driver env v bm = Ok d) ->
  (forall v u, drv_get env v d u = Ok tt) ->
  (forall v, drv_current_url env v d = Ok final) ->
  (forall v, drv_title env v d = title_answer) ->
  (forall v, drv_page_source env v d = source_answer) ->
  (forall v, current_page v = Some url ->
             exists v' waited,
               Fetch._wait_for_page_load env d 30 v = Some (Ok tt, v')
               /\ calls_between v v' waited
               /\ Q v v' waited) ->
  exists out w' v v' waited,
    Fetch.fetch_page_try env bm url w = Some (Ok out, w')
    /\ Fetch.status out = "ok"
    /\ Fetch.error out = None
    /\ Fetch.final_url out = final
    /\ Fetch.title out = title_of_answer env title_answer
    /\ Fetch.html out = html_of_answer source_answer
    /\ calls_between w w'
         ([EvGetDriver bm; EvGet url] ++ waited ++ [EvCurrentUrl; EvTitle; EvPageSource])
    /\ Q v v' waited
    /\ (now w <= now v)%N
    /\ (now v' <= now w')%N.
Proof.
  intros Hdrv Hget Hcur Htitle Hsource Hwait.
  unfold Fetch.fetch_page_try.
  unfold bind at 1. unfold get_driver, call. rewrite Hdrv.
  unfold bind at 1. unfold driver_get, call. rewrite Hget.
  unfold bind at 1.
  match goal with
  | |- context [Fetch._wait_for_page_load env d 30 ?v0] =>
      destruct (Hwait v0) as (v' & waited & Hrun & Hcalls & HQ);
      [unfold current_page; cbn [trace]; rewrite last_navigation_app; reflexivity |];
      rewrite Hrun; remember v0 as v eqn:Hv
  end.
  assert (Hnow : (now w <= now v)%N) by (subst v; cbn [now]; lia).
  assert (Htrace : trace v = trace w ++ [EvGetDriver bm; EvGet url]).
  { subst v. cbn [trace]. rewrite <- app_assoc. reflexivity. }
  clear Hv.
  unfold bind, try_except, current_url, driver_title, page_source, call, lift, ret.
  rewrite Hcur. cbv beta iota. rewrite Htitle.
  unfold title_of_answer, html_of_answer.
  destruct title_answer as [raw | e]; cbv beta iota;
    [destruct (clean_text_content env raw) as [cleaned | e]; cbv beta iota |];
    rewrite Hsource;
    destruct source_answer as [source | e'];
    (eexists; eexists; exists v, v', waited;
     split; [reflexivity |];
     cbn [Fetch.status Fetch.error Fetch.final_url Fetch.title Fetch.html];
     split; [reflexivity |]; split; [reflexivity |]; split; [reflexivity |];
     split; [reflexivity |]; split; [reflexivity |];
     split;
     [unfold calls_between in *; cbn [trace]; rewrite Hcalls, Htrace;
      rewrite <- !app_assoc; reflexivity
     | split; [exact HQ |]; split; [exact Hnow | cbn [now]; lia]]).
Qed.

(** A fetch whose first attempt returns an output returns that output,
    with the timing metadata added, in the world the attempt ended in. *)
Lemma fetch_url_first_attempt
    (env : Env) (url reason normalized : string) (get_browser_manager : Accessor)
    (bm : BrowserManager) (w : world) :
  validate_url_security env (PyStr.strip url) false = Ok (true, reason) ->
  normalize_url env (PyStr.strip url) = Ok normalized ->
  get_browser_manager w = Ok (Some bm) ->
  exists w0,
    calls_between w w0 [EvLookupManager]
    /\ (now w <= now w0)%N
    /\ forall r w1,
         Fetch.fetch_page_try env bm normalized w0 = Some (Ok r, w1) ->
         exists out,
           Fetch.fetch_url env url (Some get_browser_manager) w = Some (Ok out, w1)
           /\ Fetch.status out = Fetch.status r
           /\ Fetch.error out = Fetch.error r
           /\ Fetch.final_url out = Fetch.final_url r
           /\ Fetch.title out = Fetch.title r
           /\ Fetch.html out = Fetch.html r.
Proof.
  intros Hvalid Hnorm Hacc.
  exists (mk_world (now w + latency env w EvLookupManager)%N (trace w ++ [EvLookupManager])).
  split; [reflexivity |]. split; [cbn [now]; lia |].
  intros r w1 Htry.
  unfold Fetch.fetch_url.
  unfold bind at 1. unfold time_time at 1.
  unfold try_except at 1.
  unfold bind at 1. unfold lift at 1. rewrite Hvalid. cbn [negb].
  unfold bind at 1. unfold lift at 1. rewrite Hnorm.
  unfold bind at 1. unfold lookup_manager, call. rewrite Hacc.
  unfold bind at 1.
  assert (Hretry : Fetch._fetch_page_with_retry env bm normalized
                     (mk_world (now w + latency env w EvLookupManager)%N
                        (trace w ++ [EvLookupManager])) = Some (Ok r, w1)).
  { unfold Fetch._fetch_page_with_retry, Tenacity.retry.
    apply retry_loop_returned.
    unfold Fetch.fetch_page_attempt, try_except. rewrite Htry. reflexivity. }
  rewrite Hretry.
  unfold bind, time_time, ret.
  eexists. split; [reflexivity |]. repeat split.
Qed.

(** C2, as the code has it.  When the URL is accepted, the driver
    navigates and answers the reads, and the page never reports the
    ready state "complete" while the session is on it, the readiness
    wait of [fetch_url] ends silently once its 30-second budget has
    elapsed, having only polled and paused; the fetch goes on to read the
    URL, the title and the markup, and returns them with status "ok"
    and no error.  Nothing was raised, and the session remains usable:
    the next fetch, of a page that gets ready, acquires the same session,
    navigates it, finds the page ready at the first poll and returns
    with status "ok". *)
Theorem fetch_unready_page_is_reported_ok
    (env : Env) (url reason normalized final : string) (get_browser_manager : Accessor)
    (bm : BrowserManager) (d : Driver) (title_answer source_answer : exc string)
    (next_url next_reason next_normalized : string) (w : world) :
  validate_url_security env (PyStr.strip url) false = Ok (true, reason) ->
  normalize_url env (PyStr.strip url) = Ok normalized ->
  (forall v, get_browser_manager v = Ok (Some bm)) ->
  (forall v, bm_get_driver env v bm = Ok d) ->
  (forall v u, drv_get env v d u = Ok tt) ->
  (forall v, current_page v = Some normalized ->
             drv_execute_script env v d "return document.readyState" <> Ok "complete") ->
  (forall v, drv_current_url env v d = Ok final) ->
  (forall v, drv_title env v d = title_answer) ->
  (forall v, drv_page_source env v d = source_answer) ->
  validate_url_security env (PyStr.strip next_url) false = Ok (true, next_reason) ->
  normalize_url env (PyStr.strip next_url) = Ok next_normalized ->
  (forall v, current_page v = Some next_normalized ->
             drv_execute_script env v d "return document.readyState" = Ok "complete") ->
  exists out w' polls next_out w'',
    Fetch.fetch_url env url (Some get_browser_manager) w = Some (Ok out, w')
    /\ Fetch.status out = "ok"
    /\ Fetch.error out = None
    /\ Fetch.final_url out = final
    /\ Fetch.title out = title_of_answer env title_answer
    /\ Fetch.html out = html_of_answer source_answer
    /\ calls_between w w'
         ([EvLookupManager; EvGetDriver bm; EvGet normalized] ++ polls
          ++ [EvCurrentUrl; EvTitle; EvPageSource])
    /\ forallb is_readiness_call polls = true
    /\ (now w + 30000 <= now w')%N
    /\ Fetch.fetch_url env next_url (Some get_browser_manager) w' = Some (Ok next_out, w'')
    /\ Fetch.status next_out = "ok"
    /\ Fetch.error next_out = None
    /\ Fetch.title next_out = title_of_answer env title_answer
    /\ Fetch.html next_out = html_of_answer source_answer
    /\ calls_between w' w''
         [EvLookupManager; EvGetDriver bm; EvGet next_normalized;
          EvExecuteScript "return document.readyState"; EvSleep 500;
          EvCurrentUrl; EvTitle; EvPageSource].
Proof.
  intros Hvalid Hnorm Hacc Hdrv Hget Hnever Hcur Htitle Hsource Hvalid' Hnorm' Hready.
  destruct (fetch_url_first_attempt env url reason normalized get_browser_manager bm w
              Hvalid Hnorm (Hacc w)) as (w0 & Hlookup & Hnow0 & Hfetch).
  destruct (fetch_page_try_reads env bm d normalized final title_answer source_answer
              (fun v v' waited =>
                 forallb is_readiness_call waited = true
                 /\ (now v + 1000 * 30 <= now v')%N)
              w0 Hdrv Hget Hcur Htitle Hsource
              (fun v Hpage => wait_for_page_load_stalled env d normalized 30 v Hnever Hpage))
    as (r & w' & v & v' & polls & Htry & Hst & Herr & Hfin & Ht & Hh & Hcalls
        & (Hpolls & Hbudget) & Hv & Hv').
  destruct (Hfetch r w' Htry) as (out & Hrun & Est & Eerr & Efin & Et & Eh).
  destruct (fetch_url_first_attempt env next_url next_reason next_normalized
              get_browser_manager bm w' Hvalid' Hnorm' (Hacc w'))
    as (w0' & Hlookup' & _ & Hfetch').
  destruct (fetch_page_try_reads env bm d next_normalized final title_answer source_answer
              (fun v v' waited =>
                 waited = [EvExecuteScript "return document.readyState"; EvSleep 500])
              w0' Hdrv Hget Hcur Htitle Hsource)
    as (r' & w'' & u & u' & waited & Htry' & Hst' & Herr' & _ & Ht' & Hh' & Hcalls'
        & Hwaited & _).
  { intros v0 Hpage.
    destruct (wait_for_page_load_first_poll env d 30 v0) as (v0' & Hw & Hc);
      [lia | exact (Hready v0 Hpage) |].
    exists v0', [EvExecuteScript "return document.readyState"; EvSleep 500].
    split; [exact Hw |]. split; [exact Hc | reflexivity]. }
  destruct (Hfetch' r' w'' Htry') as (out' & Hrun' & Est' & Eerr' & _ & Et' & Eh').
  exists out, w', polls, out', w''.
  split; [exact Hrun |].
  split; [congruence |]. split; [congruence |]. split; [congruence |].
  split; [congruence |]. split; [congruence |].
  split.
  { unfold calls_between in *. rewrite Hcalls, Hlookup. rewrite <- !app_assoc. reflexivity. }
  split; [exact Hpolls |].
  split; [lia |].
  split; [exact Hrun' |].
  split; [congruence |]. split; [congruence |].
  split; [congruence |]. split; [congruence |].
  unfold calls_between in *. rewrite Hcalls', Hlookup', Hwaited.
  rewrite <- !app_assoc. reflexivity.
Qed.

Lemma fetch_unready_page_witness :
  exists out w' polls next_out w'',
    Fetch.fetch_url Double.one_slow_page Double.slow_url (Some Double.accessor) Double.w0
    = Some (Ok out, w')
    /\ Fetch.status out = "ok"
    /\ Fetch.error out = None
    /\ Fetch.final_url out = "https://example.com/"
    /\ Fetch.title out = title_of_answer Double.one_slow_page (Ok "Example Domain")
    /\ Fetch.html out = html_of_answer (Ok "<html></html>")
    /\ calls_between Double.w0 w'
         ([EvLookupManager; EvGetDriver Double.manager; EvGet Double.slow_url] ++ polls
          ++ [EvCurrentUrl; EvTitle; EvPageSource])
    /\ forallb is_readiness_call polls = true
    /\ (now Double.w0 + 30000 <= now w')%N
    /\ Fetch.fetch_url Double.one_slow_page "https://example.com" (Some Double.accessor) w'
       = Some (Ok next_out, w'')
    /\ Fetch.status next_out = "ok"
    /\ Fetch.error next_out = None
    /\ Fetch.title next_out = title_of_answer Double.one_slow_page (Ok "Example Domain")
    /\ Fetch.html next_out = html_of_answer (Ok "<html></html>")
    /\ calls_between w' w''
         [EvLookupManager; EvGetDriver Double.manager; EvGet "https://example.com";
          EvExecuteScript "return document.readyState"; EvSleep 500;
          EvCurrentUrl; EvTitle; EvPageSource].
Proof.
  apply (fetch_unready_page_is_reported_ok Double.one_slow_page Double.slow_url ""
           Double.slow_url "https://example.com/" Double.accessor
           Double.manager Double.driver (Ok "Example Domain") (Ok "<html></html>")
           "https://example.com" "" "https://example.com" Double.w0).
  - reflexivity.
  - reflexivity.
  - reflexivity.
  - reflexivity.
  - reflexivity.
  - intros v Hpage. cbn. rewrite Hpage. cbn. discriminate.
  - reflexivity.
  - reflexivity.
  - reflexivity.
  - reflexivity.
  - reflexivity.
  - intros v Hpage. cbn. rewrite Hpage. reflexivity.
Defined.

(** C2, as the claim has it, fails: on a page whose ready state stays
    "loading", the fetch waits out its budget and then reports "ok",
    with no error message. *)
Lemma fetch_unready_page_counterexample :
  (forall v d s, drv_execute_script Double.stalled v d s = Ok "loading")
  /\ exists out w',
       Fetch.fetch_url Double.stalled "https://example.com" (Some Double.accessor) Double.w0
       = Some (Ok out, w')
       /\ Fetch.status out = "ok"
       /\ Fetch.status out <> "error"
       /\ Fetch.error out = None
       /\ now w' = 30020%N.
Proof.
  split; [reflexivity |].
  eexists; eexists. split; [vm_compute; reflexivity |].
  split; [reflexivity |]. split; [discriminate |]. split; reflexivity.
Qed.

(** * Facts about the stand-ins of the helpers *)










(** * Search on a page that the driver delivers *)






(** * Further properties of the page fetch *)

Lemma count_get_driver_calls (w w' : world) (calls : list event) :
  calls_between w w' calls ->
  count_get_driver w' = count_get_driver w + List.length (filter is_get_driver calls).
Proof.
  unfold calls_between, count_get_driver. intros ->.
  rewrite filter_app, length_app. reflexivity.
Qed.

(** One attempt, whatever its outcome, acquires the session exactly
    once: the [except] clauses call nothing. *)
Lemma fetch_page_attempt_one_get_driver
    (env : Env) (bm : BrowserManager) (url : string) (w w' : world)
    (r : exc Fetch.FetchUrlOutput) :
  Fetch.fetch_page_attempt env bm url w = Some (r, w') ->
  count_get_driver w' = S (count_get_driver w).
Proof.
  unfold Fetch.fetch_page_attempt, try_except.
  destruct (Fetch.fetch_page_try env bm url w) as [[[out | e] w1] |] eqn:Htry;
    [| | discriminate].
  - intros H. inversion H; subst.
    exact (fetch_page_try_one_get_driver _ _ _ _ _ _ Htry).
  - unfold Fetch.fetch_page_except, ret, raise.
    intros H.
    assert (w' = w1) as ->.
    { destruct (is_TimeoutException e); [inversion H; reflexivity |].
      destruct (is_WebDriverException e); [| inversion H; reflexivity].
      destruct (Fetch.is_recoverable e); inversion H; reflexivity. }
    exact (fetch_page_try_one_get_driver _ _ _ _ _ _ Htry).
Qed.

(** X1.  When the URL is accepted but the accessor has no browser
    manager to give, [fetch_url] returns the error "Browser manager not
    available" for the stripped URL: the manager was looked up and
    nothing else was called. *)
Theorem fetch_url_without_manager
    (env : Env) (url reason normalized : string) (get_browser_manager : option Accessor)
    (w : world) :
  validate_url_security env (PyStr.strip url) false = Ok (true, reason) ->
  normalize_url env (PyStr.strip url) = Ok normalized ->
  match get_browser_manager with
  | None => default_browser_manager env w
  | Some accessor => accessor w
  end = Ok None ->
  exists w',
    Fetch.fetch_url env url get_browser_manager w
    = Some (Ok (fetch_error_output (PyStr.strip url) "Browser manager not available"), w')
    /\ calls_between w w' [EvLookupManager]
    /\ session_calls w' = session_calls w.
Proof.
  intros Hvalid Hnorm Hacc.
  unfold Fetch.fetch_url, bind, try_except, time_time, lift, ret.
  rewrite Hvalid. cbn [negb]. rewrite Hnorm.
  destruct get_browser_manager as [accessor |]; unfold lookup_manager, call; rewrite Hacc;
    (eexists; split; [reflexivity |]; split;
     [reflexivity | apply session_calls_lookup; reflexivity]).
Qed.

Lemma fetch_url_without_manager_witness :
  exists w',
    Fetch.fetch_url Double.ready " https://example.com " (Some Double.no_manager) Double.w0
    = Some (Ok (fetch_error_output (PyStr.strip " https://example.com ")
                  "Browser manager not available"), w')
    /\ calls_between Double.w0 w' [EvLookupManager]
    /\ session_calls w' = session_calls Double.w0.
Proof.
  apply (fetch_url_without_manager Double.ready " https://example.com " ""
           "https://example.com" (Some Double.no_manager) Double.w0); reflexivity.
Defined.

(** X2.  A [TimeoutException] raised in an attempt of the page fetch
    ends the fetch with the error output "Page load timeout", after
    that single attempt, even when its message holds one of the
    keywords of a recoverable error. *)
Theorem fetch_page_timeout_not_retried
    (env : Env) (bm : BrowserManager) (url : string) (w w1 : world) (e : exn) :
  Fetch.fetch_page_try env bm url w = Some (Err e, w1) ->
  is_TimeoutException e = true ->
  Fetch._fetch_page_with_retry env bm url w
  = Some (Ok (fetch_error_output url ("Page load timeout: " +++ exn_str e)), w1)
  /\ count_get_driver w1 = count_get_driver w + 1.
Proof.
  intros Htry Hto. split.
  - unfold Fetch._fetch_page_with_retry, Tenacity.retry.
    apply retry_loop_returned.
    unfold Fetch.fetch_page_attempt, try_except. rewrite Htry.
    unfold Fetch.fetch_page_except. rewrite Hto. reflexivity.
  - rewrite (fetch_page_try_one_get_driver _ _ _ _ _ _ Htry). lia.
Qed.

Lemma fetch_page_timeout_witness :
  Fetch.is_recoverable Double.page_load_timeout = true
  /\ Fetch._fetch_page_with_retry Double.timing_out Double.manager "https://example.com"
       Double.w0
     = Some (Ok (fetch_error_output "https://example.com"
                   ("Page load timeout: " +++ exn_str Double.page_load_timeout)),
             mk_world 20 [EvGetDriver Double.manager; EvGet "https://example.com"])
  /\ count_get_driver (mk_world 20 [EvGetDriver Double.manager; EvGet "https://example.com"])
     = count_get_driver Double.w0 + 1.
Proof.
  split; [reflexivity |].
  apply (fetch_page_timeout_not_retried Double.timing_out Double.manager
           "https://example.com" Double.w0 _ Double.page_load_timeout); reflexivity.
Defined.

(** X3.  When every attempt of the page fetch raises an exception that
    the [except] clauses let through (a recoverable driver error, or
    any exception that is no driver error), [fetch_url] makes its three
    attempts, the second one second after the first and the third two
    seconds after the second, and then returns an error output for the
    stripped URL whose message is "Unexpected error: " followed by the
    text of the exception that the third attempt raised. *)
Theorem fetch_url_exhausted_retries
    (env : Env) (url reason normalized : string) (get_browser_manager : Accessor)
    (bm : BrowserManager) (w : world) :
  validate_url_security env (PyStr.strip url) false = Ok (true, reason) ->
  normalize_url env (PyStr.strip url) = Ok normalized ->
  get_browser_manager w = Ok (Some bm) ->
  (forall v, exists e v',
      Fetch.fetch_page_try env bm normalized v = Some (Err e, v')
      /\ reraised e = true) ->
  exists w0 e1 w1 e2 w2 e3 w3 out w',
    calls_between w w0 [EvLookupManager]
    /\ Fetch.fetch_page_try env bm normalized w0 = Some (Err e1, w1)
    /\ Fetch.fetch_page_try env bm normalized (after_sleep 1000 w1) = Some (Err e2, w2)
    /\ Fetch.fetch_page_try env bm normalized (after_sleep 2000 w2) = Some (Err e3, w3)
    /\ Fetch.fetch_url env url (Some get_browser_manager) w = Some (Ok out, w')
    /\ Fetch.status out = "error"
    /\ Fetch.error out = Some ("Unexpected error: " +++ exn_str e3)
    /\ Fetch.final_url out = PyStr.strip url
    /\ trace w' = trace w3
    /\ count_get_driver w' = count_get_driver w + 3.
Proof.
  intros Hvalid Hnorm Hacc Hfail.
  unfold Fetch.fetch_url.
  unfold bind at 1. unfold time_time at 1.
  unfold try_except at 1.
  unfold bind at 1. unfold lift at 1. rewrite Hvalid. cbn [negb].
  unfold bind at 1. unfold lift at 1. rewrite Hnorm.
  unfold bind at 1. unfold lookup_manager, call. rewrite Hacc.
  unfold bind at 1.
  match goal with
  | |- context [Fetch._fetch_page_with_retry env bm normalized ?v] => set (w0 := v)
  end.
  destruct (Hfail w0) as (e1 & w1 & H1 & C1).
  destruct (Hfail (after_sleep 1000 w1)) as (e2 & w2 & H2 & C2).
  destruct (Hfail (after_sleep 2000 w2)) as (e3 & w3 & H3 & C3).
  pose proof (fetch_page_try_one_get_driver _ _ _ _ _ _ H1) as N1.
  pose proof (fetch_page_try_one_get_driver _ _ _ _ _ _ H2) as N2.
  pose proof (fetch_page_try_one_get_driver _ _ _ _ _ _ H3) as N3.
  rewrite count_get_driver_after_sleep in N2, N3.
  pose proof (fetch_page_attempt_reraised _ _ _ _ _ _ H1 C1) as A1.
  pose proof (fetch_page_attempt_reraised _ _ _ _ _ _ H2 C2) as A2.
  pose proof (fetch_page_attempt_reraised _ _ _ _ _ _ H3 C3) as A3.
  assert (Hretry : Fetch._fetch_page_with_retry env bm normalized w0 = Some (Err e3, w3)).
  { unfold Fetch._fetch_page_with_retry, Tenacity.retry.
    change (3 - 1) with 2.
    rewrite (retry_loop_again _ _ _ _ _ _ _ A1).
    change (1000 * Tenacity.wait_exponential 1 1 10 1)%N with 1000%N.
    rewrite (retry_loop_again _ _ _ _ _ _ _ A2).
    change (1000 * Tenacity.wait_exponential 1 1 10 2)%N with 2000%N.
    apply retry_loop_last. exact A3. }
  rewrite Hretry.
  unfold bind, time_time, ret.
  exists w0, e1, w1, e2, w2, e3, w3. eexists; eexists.
  split; [reflexivity |].
  split; [exact H1 |]. split; [exact H2 |]. split; [exact H3 |].
  split; [reflexivity |].
  cbn [Fetch.status Fetch.error Fetch.final_url].
  repeat split.
  assert (Hw0 : count_get_driver w0 = count_get_driver w).
  { subst w0. unfold count_get_driver. cbn [trace].
    rewrite filter_app, length_app. simpl. lia. }
  lia.
Qed.

Lemma fetch_url_exhausted_retries_witness :
  exists w0 e1 w1 e2 w2 e3 w3 out w',
    calls_between Double.w0 w0 [EvLookupManager]
    /\ Fetch.fetch_page_try Double.unreachable Double.manager "https://example.com" w0
       = Some (Err e1, w1)
    /\ Fetch.fetch_page_try Double.unreachable Double.manager "https://example.com"
         (after_sleep 1000 w1) = Some (Err e2, w2)
    /\ Fetch.fetch_page_try Double.unreachable Double.manager "https://example.com"
         (after_sleep 2000 w2) = Some (Err e3, w3)
    /\ Fetch.fetch_url Double.unreachable "https://example.com" (Some Double.accessor)
         Double.w0 = Some (Ok out, w')
    /\ Fetch.status out = "error"
    /\ Fetch.error out = Some ("Unexpected error: " +++ exn_str e3)
    /\ Fetch.final_url out = PyStr.strip "https://example.com"
    /\ trace w' = trace w3
    /\ count_get_driver w' = count_get_driver Double.w0 + 3.
Proof.
  apply (fetch_url_exhausted_retries Double.unreachable "https://example.com" ""
           "https://example.com" Double.accessor Double.manager Double.w0).
  - reflexivity.
  - reflexivity.
  - reflexivity.
  - intros v. exists Double.net_error. eexists. split; reflexivity.
Defined.

(** The title read: the cleaned title, the raw title when cleaning
    raises, the empty string when the driver raises. *)
Lemma fetch_title_read_spec (env : Env) (driver : Driver) (w : world) :
  exists title w',
    try_except
      (raw <- driver_title env driver ;;
       try_except (lift (clean_text_content env raw)) (fun _ => ret raw))%M
      (fun _ => ret "") w = Some (Ok title, w')
    /\ title = match drv_title env w driver with
               | Ok raw =>
                   match clean_text_content env raw with
                   | Ok cleaned => cleaned
                   | Err _ => raw
                   end
               | Err _ => ""
               end.
Proof.
  unfold try_except, bind, driver_title, call, lift, ret.
  destruct (drv_title env w driver) as [raw | e].
  - destruct (clean_text_content env raw) as [cleaned | e];
      eexists; eexists; split; reflexivity.
  - eexists; eexists; split; reflexivity.
Qed.

(** The markup read: the page source, or the empty string when the
    driver raises. *)
Lemma fetch_html_read_spec (env : Env) (driver : Driver) (w : world) :
  exists html w',
    try_except (page_source env driver) (fun _ => ret "") w = Some (Ok html, w')
    /\ html = match drv_page_source env w driver with
              | Ok source => source
              | Err _ => ""
              end.
Proof.
  unfold try_except, page_source, call, ret.
  destruct (drv_page_source env w driver) as [html | e];
    eexists; eexists; split; reflexivity.
Qed.

(** X4.  When the driver navigates and reports its URL, the page fetch
    succeeds at the first attempt with status "ok" whatever becomes of
    the two other reads: a title that cannot be read is returned empty,
    a title that cannot be cleaned is returned as read, a page source
    that cannot be read is returned empty; the metadata give the
    lengths of what is returned and whether the final URL differs from
    the one asked for. *)
Theorem fetch_page_reads_degrade
    (env : Env) (bm : BrowserManager) (d : Driver) (url final : string) (w : world) :
  (forall v, bm_get_driver env v bm = Ok d) ->
  (forall v u, drv_get env v d u = Ok tt) ->
  (forall v, drv_current_url env v d = Ok final) ->
  exists out w',
    Fetch._fetch_page_with_retry env bm url w = Some (Ok out, w')
    /\ Fetch.status out = "ok"
    /\ Fetch.final_url out = final
    /\ Fetch.metadata out
       = [("redirected", MBool (negb (String.eqb final url)));
          ("title_length", MInt (String.length (Fetch.title out)));
          ("html_length", MInt (String.length (Fetch.html out)))]
    /\ ((forall v, exists e, drv_title env v d = Err e) -> Fetch.title out = "")
    /\ (forall raw,
          (forall v, drv_title env v d = Ok raw) ->
          (exists e, clean_text_content env raw = Err e) ->
          Fetch.title out = raw)
    /\ ((forall v, exists e, drv_page_source env v d = Err e) -> Fetch.html out = "")
    /\ count_get_driver w' = count_get_driver w + 1.
Proof.
  intros Hdrv Hget Hcur.
  assert (Htry : exists out w',
             Fetch.fetch_page_try env bm url w = Some (Ok out, w')
             /\ Fetch.status out = "ok"
             /\ Fetch.final_url out = final
             /\ Fetch.metadata out
                = [("redirected", MBool (negb (String.eqb final url)));
                   ("title_length", MInt (String.length (Fetch.title out)));
                   ("html_length", MInt (String.length (Fetch.html out)))]
             /\ (exists v, Fetch.title out
                           = match drv_title env v d with
                             | Ok raw =>
                                 match clean_text_content env raw with
                                 | Ok cleaned => cleaned
                                 | Err _ => raw
                                 end
                             | Err _ => ""
                             end)
             /\ (exists v, Fetch.html out
                           = match drv_page_source env v d with
                             | Ok source => source
                             | Err _ => ""
                             end)).
  { unfold Fetch.fetch_page_try.
    unfold bind at 1. unfold get_driver, call. rewrite Hdrv.
    unfold bind at 1. unfold driver_get, call. rewrite Hget.
    unfold bind at 1.
    match goal with
    | |- context [Fetch._wait_for_page_load env d 30 ?v] =>
        destruct (wait_for_page_load_returns env d 30 v) as ([] & w3 & Hwait & _);
        rewrite Hwait
    end.
    unfold bind at 1. unfold current_url, call. rewrite Hcur.
    unfold bind at 1.
    match goal with
    | |- context [try_except _ _ ?v] =>
        destruct (fetch_title_read_spec env d v) as (title & w5 & Htitle & Etitle);
        rewrite Htitle
    end.
    unfold bind at 1.
    destruct (fetch_html_read_spec env d w5) as (html & w6 & Hhtml & Ehtml). rewrite Hhtml.
    unfold ret. eexists; eexists. split; [reflexivity |].
    cbn [Fetch.status Fetch.final_url Fetch.metadata Fetch.title Fetch.html].
    repeat split; eexists; eassumption. }
  destruct Htry as (out & w' & Hrun & Hst & Hfin & Hmeta & (v1 & Htitle) & (v2 & Hhtml)).
  exists out, w'.
  split.
  { unfold Fetch._fetch_page_with_retry, Tenacity.retry. apply retry_loop_returned.
    unfold Fetch.fetch_page_attempt, try_except. rewrite Hrun. reflexivity. }
  split; [exact Hst |]. split; [exact Hfin |]. split; [exact Hmeta |].
  split; [| split; [| split]].
  - intros Hno. destruct (Hno v1) as [e He]. rewrite He in Htitle. exact Htitle.
  - intros raw Hraw [e He]. rewrite Hraw, He in Htitle. exact Htitle.
  - intros Hno. destruct (Hno v2) as [e He]. rewrite He in Hhtml. exact Hhtml.
  - rewrite (fetch_page_try_one_get_driver _ _ _ _ _ _ Hrun). lia.
Qed.

Lemma fetch_page_reads_degrade_witness :
  exists out w',
    Fetch._fetch_page_with_retry Double.unreadable Double.manager "https://example.com"
      Double.w0 = Some (Ok out, w')
    /\ Fetch.status out = "ok"
    /\ Fetch.final_url out = "https://example.com/"
    /\ Fetch.metadata out
       = [("redirected", MBool (negb (String.eqb "https://example.com/" "https://example.com")));
          ("title_length", MInt (String.length (Fetch.title out)));
          ("html_length", MInt (String.length (Fetch.html out)))]
    /\ ((forall v, exists e, drv_title Double.unreadable v Double.driver = Err e) ->
        Fetch.title out = "")
    /\ (forall raw,
          (forall v, drv_title Double.unreadable v Double.driver = Ok raw) ->
          (exists e, clean_text_content Double.unreadable raw = Err e) ->
          Fetch.title out = raw)
    /\ ((forall v, exists e, drv_page_source Double.unreadable v Double.driver = Err e) ->
        Fetch.html out = "")
    /\ count_get_driver w' = count_get_driver Double.w0 + 1.
Proof.
  apply (fetch_page_reads_degrade Double.unreadable Double.manager Double.driver
           "https://example.com" "https://example.com/" Double.w0); reflexivity.
Defined.

(** The retry executor hands on what the operation guarantees of its
    values. *)
Lemma fetch_page_attempt_coherent (env : Env) (bm : BrowserManager) (url : string) :
  returns (Fetch.fetch_page_attempt env bm url) fetch_output_coherent.
Proof.
  unfold Fetch.fetch_page_attempt.
  apply returns_try.
  - intros w. destruct (fetch_page_try_returns env bm url w) as (r & w' & Hrun & Hst).
    exists r, w'. split; [exact Hrun |].
    intros out ->. left. split; [apply Hst; reflexivity |].
    revert Hrun. unfold Fetch.fetch_page_try, bind, ret.
    repeat match goal with
           | |- context [match ?m ?v with _ => _ end] =>
               destruct (m v) as [[[? | ?] ?] |]; try discriminate
           end.
    intros H. inversion H. reflexivity.
  - intros e. unfold Fetch.fetch_page_except.
    destruct (is_TimeoutException e).
    { apply returns_ret. right. simpl. repeat split. discriminate. }
    destruct (is_WebDriverException e); [| apply returns_raise].
    destruct (Fetch.is_recoverable e); [apply returns_raise |].
    apply returns_ret. right. simpl. repeat split. discriminate.
Qed.

(** X5.  Every output of [fetch_url] has one of two shapes: status
    "ok" without an error message, or status "error" with an error
    message and with empty title and markup. *)
Theorem fetch_url_output_coherent
    (env : Env) (url : string) (get_browser_manager : option Accessor) (w : world) :
  exists out w',
    Fetch.fetch_url env url get_browser_manager w = Some (Ok out, w')
    /\ fetch_output_coherent out.
Proof.
  revert w. change (returns_value (Fetch.fetch_url env url get_browser_manager)
                      fetch_output_coherent).
  unfold Fetch.fetch_url.
  apply returns_value_bind with (Q := fun _ => True);
    [apply returns_value_time; intros; exact I |].
  intros start_time _.
  apply returns_value_try.
  - apply returns_bind with (Q := fun _ => True); [apply returns_lift; intros; exact I |].
    intros [is_valid error_msg] _.
    destruct (negb is_valid).
    { apply returns_ret. right. simpl. repeat split. discriminate. }
    apply returns_bind with (Q := fun _ => True); [apply returns_lift; intros; exact I |].
    intros normalized_url _.
    apply returns_bind with (Q := fun _ => True).
    { destruct get_browser_manager; unfold lookup_manager; apply returns_call;
        intros; exact I. }
    intros [bm |] _.
    2: { apply returns_ret. right. simpl. repeat split. discriminate. }
    apply returns_bind with (Q := fetch_output_coherent).
    { unfold Fetch._fetch_page_with_retry, Tenacity.retry.
      apply retry_loop_returns, fetch_page_attempt_coherent. }
    intros result Hresult.
    apply returns_bind with (Q := fun _ => True); [apply returns_time; intros; exact I |].
    intros t1 _.
    apply returns_bind with (Q := fun _ => True); [apply returns_time; intros; exact I |].
    intros t2 _. apply returns_ret. exact Hresult.
  - intros e.
    apply returns_value_bind with (Q := fun _ => True);
      [apply returns_value_time; intros; exact I |].
    intros t _. apply returns_value_ret. right. simpl. repeat split. discriminate.
Qed.

(** X6.  When the first readiness poll reports "complete", the wait
    for the page load ends after that one poll and the settle sleep of
    500 ms, whatever its budget. *)
Theorem wait_for_page_load_ready_at_once
    (env : Env) (driver : Driver) (max_wait : N) (w : world) :
  (0 < max_wait)%N ->
  drv_execute_script env w driver "return document.readyState" = Ok "complete" ->
  exists w',
    Fetch._wait_for_page_load env driver max_wait w = Some (Ok tt, w')
    /\ calls_between w w' [EvExecuteScript "return document.readyState"; EvSleep 500]
    /\ now w'
       = (now w + latency env w (EvExecuteScript "return document.readyState") + 500)%N.
Proof.
  intros Hpos Hready.
  unfold Fetch._wait_for_page_load. unfold bind at 1. unfold time_time at 1.
  replace (N.to_nat (10 * max_wait + 1)) with (S (N.to_nat (10 * max_wait))) by lia.
  rewrite wait_for_page_load_loop_unfold.
  unfold bind at 1. unfold time_time at 1.
  destruct (N.ltb_spec (now w) (now w + 1000 * max_wait)) as [_ | Hge]; [| lia].
  unfold bind, try_except, execute_script, call, sleep, ret.
  rewrite Hready. cbn [String.eqb Ascii.eqb Bool.eqb].
  eexists. split; [reflexivity |]. split.
  - unfold calls_between. cbn [trace]. rewrite <- app_assoc. reflexivity.
  - reflexivity.
Qed.

Lemma wait_for_page_load_ready_at_once_witness :
  exists w',
    Fetch._wait_for_page_load Double.ready Double.driver 30 Double.w0 = Some (Ok tt, w')
    /\ calls_between Double.w0 w'
         [EvExecuteScript "return document.readyState"; EvSleep 500]
    /\ now w'
       = (now Double.w0
          + latency Double.ready Double.w0 (EvExecuteScript "return document.readyState")
          + 500)%N.
Proof.
  apply (wait_for_page_load_ready_at_once Double.ready Double.driver 30 Double.w0).
  - reflexivity.
  - reflexivity.
Defined.

(** The readiness loop polls at most once per 100 ms of the time
    left. *)
Lemma wait_for_page_load_loop_polls
    (env : Env) (driver : Driver) (end_time : N) (fuel : nat) :
  forall w r w',
    (end_time <= now w + 100 * N.of_nat fuel)%N ->
    Fetch.wait_for_page_load_loop env (S fuel) driver end_time w = Some (r, w') ->
    count_polls w' <= count_polls w + fuel.
Proof.
  induction fuel as [| fuel IH]; intros w r w' Hfuel; rewrite wait_for_page_load_loop_unfold;
    unfold bind at 1; unfold time_time at 1;
    destruct (N.ltb_spec (now w) end_time) as [Hlt | Hge];
    try (unfold ret; intros H; inversion H; subst; lia).
  unfold bind, try_except, execute_script, call, ret, sleep.
  destruct (drv_execute_script env w driver "return document.readyState") as [rs | e].
  - destruct (String.eqb rs "complete").
    { intros H. inversion H; subst. unfold count_polls. cbn [trace].
      rewrite !filter_app, !length_app. simpl. lia. }
    intros H. apply IH in H; [| cbn [now]; lia].
    unfold count_polls in *. cbn [trace] in H.
    rewrite !filter_app, !length_app in H. simpl in H. lia.
  - intros H. apply IH in H; [| cbn [now]; lia].
    unfold count_polls in *. cbn [trace] in H.
    rewrite !filter_app, !length_app in H. simpl in H. lia.
Qed.

(** X7.  A wait for the page load with a budget of [max_wait] seconds
    polls the ready state at most [10 * max_wait] times. *)
Theorem wait_for_page_load_poll_bound
    (env : Env) (driver : Driver) (max_wait : N) (w w' : world) (r : exc unit) :
  Fetch._wait_for_page_load env driver max_wait w = Some (r, w') ->
  count_polls w' <= count_polls w + N.to_nat (10 * max_wait).
Proof.
  unfold Fetch._wait_for_page_load. unfold bind at 1. unfold time_time at 1.
  replace (N.to_nat (10 * max_wait + 1)) with (S (N.to_nat (10 * max_wait))) by lia.
  apply wait_for_page_load_loop_polls. lia.
Qed.

Lemma wait_for_page_load_poll_bound_witness :
  count_polls (mk_world 500 [EvExecuteScript "return document.readyState"; EvSleep 500])
  <= count_polls Double.w0 + N.to_nat (10 * 30).
Proof.
  apply (wait_for_page_load_poll_bound Double.ready Double.driver 30 Double.w0 _ (Ok tt)).
  reflexivity.
Defined.

(** The retry executor makes between one and [retries_left + 1]
    attempts. *)
Lemma retry_loop_attempts
    (env : Env) (bm : BrowserManager) (url : string) (wait : nat -> N)
    (retries_left : nat) :
  forall attempt_number w r w',
    Tenacity.retry_loop retries_left attempt_number wait
      (Fetch.fetch_page_attempt env bm url) w = Some (r, w') ->
    count_get_driver w + 1 <= count_get_driver w'
    /\ count_get_driver w' <= count_get_driver w + S retries_left.
Proof.
  induction retries_left as [| n IH]; intros k w r w'; simpl; unfold try_except;
    destruct (Fetch.fetch_page_attempt env bm url w) as [[[out | e] w1] |] eqn:Hatt;
    try discriminate;
    pose proof (fetch_page_attempt_one_get_driver _ _ _ _ _ _ Hatt) as N1.
  - intros H. inversion H; subst. lia.
  - unfold raise. intros H. inversion H; subst. lia.
  - intros H. inversion H; subst. lia.
  - unfold bind, sleep. intros H. apply IH in H.
    unfold count_get_driver in *. cbn [trace] in H.
    rewrite filter_app, length_app in H. simpl in H. lia.
Qed.

(** X8.  However its attempts end, a fetch acquires the session at
    most three times. *)
Theorem fetch_attempts_bounded
    (env : Env) (url : string) (get_browser_manager : option Accessor)
    (w w' : world) (r : exc Fetch.FetchUrlOutput) :
  Fetch.fetch_url env url get_browser_manager w = Some (r, w') ->
  count_get_driver w' <= count_get_driver w + 3.
Proof.
  unfold Fetch.fetch_url, bind, try_except, time_time, lift, ret.
  destruct (validate_url_security env (PyStr.strip url) false) as [[is_valid msg] | e].
  2: { intros H. inversion H; subst. lia. }
  destruct (negb is_valid).
  { intros H. inversion H; subst. lia. }
  destruct (normalize_url env (PyStr.strip url)) as [normalized | e].
  2: { intros H. inversion H; subst. lia. }
  assert (Hlookup : count_get_driver
                      (mk_world (now w + latency env w EvLookupManager)%N
                         (trace w ++ [EvLookupManager]))
                    = count_get_driver w).
  { unfold count_get_driver. cbn [trace].
    rewrite filter_app, length_app. simpl. lia. }
  destruct get_browser_manager as [acc |]; unfold lookup_manager, call;
    match goal with
    | |- context [match ?a w with _ => _ end] => destruct (a w) as [[bm |] | e]
    end;
    try (intros H; inversion H; subst; rewrite Hlookup; lia);
    match goal with
    | |- context [Fetch._fetch_page_with_retry env ?b normalized ?v] =>
        destruct (Fetch._fetch_page_with_retry env b normalized v)
          as [[[out | e] w1] |] eqn:Hretry; try discriminate;
        unfold Fetch._fetch_page_with_retry, Tenacity.retry in Hretry;
        apply retry_loop_attempts in Hretry; simpl in Hretry;
        rewrite Hlookup in Hretry;
        intros H; inversion H; subst; lia
    end.
Qed.

Lemma fetch_attempts_bounded_witness :
  exists r w',
    Fetch.fetch_url Double.unreachable "https://example.com" (Some Double.accessor) Double.w0
    = Some (r, w')
    /\ count_get_driver w' = 3
    /\ count_get_driver w' <= count_get_driver Double.w0 + 3.
Proof.
  eexists; eexists. split; [vm_compute; reflexivity |]. split; [reflexivity |].
  eapply (fetch_attempts_bounded Double.unreachable "https://example.com"
            (Some Double.accessor) Double.w0).
  vm_compute. reflexivity.
Defined.

(** X9.  When the first attempt of the page fetch fails with an
    exception that the [except] clauses let through (a transient driver
    error, or an exception that is no driver error) and the second
    attempt succeeds, the fetch returns the output of the second
    attempt, after one back-off sleep of one second and two acquisitions
    of the session. *)
Theorem fetch_recovers_on_second_attempt
    (env : Env) (bm : BrowserManager) (url : string) (w w1 w2 : world) (e : exn)
    (out : Fetch.FetchUrlOutput) :
  Fetch.fetch_page_try env bm url w = Some (Err e, w1) ->
  reraised e = true ->
  Fetch.fetch_page_try env bm url (after_sleep 1000 w1) = Some (Ok out, w2) ->
  Fetch._fetch_page_with_retry env bm url w = Some (Ok out, w2)
  /\ Fetch.status out = "ok"
  /\ count_get_driver w2 = count_get_driver w + 2.
Proof.
  intros H1 C1 H2.
  pose proof (fetch_page_try_one_get_driver _ _ _ _ _ _ H1) as N1.
  pose proof (fetch_page_try_one_get_driver _ _ _ _ _ _ H2) as N2.
  rewrite count_get_driver_after_sleep in N2.
  destruct (fetch_page_try_returns env bm url (after_sleep 1000 w1))
    as (r & v & Hrun & Hst).
  rewrite H2 in Hrun. inversion Hrun; subst r v.
  apply fetch_page_attempt_reraised in H1; [| exact C1].
  split; [| split; [apply Hst; reflexivity | lia]].
  unfold Fetch._fetch_page_with_retry, Tenacity.retry.
  change (3 - 1) with 2.
  rewrite (retry_loop_again _ _ _ _ _ _ _ H1).
  change (1000 * Tenacity.wait_exponential 1 1 10 1)%N with 1000%N.
  apply retry_loop_returned.
  unfold Fetch.fetch_page_attempt, try_except. rewrite H2. reflexivity.
Qed.

Lemma fetch_recovers_witness :
  exists w1 w2 out,
    Fetch.fetch_page_try Double.flaky Double.manager "https://example.com" Double.w0
    = Some (Err Double.net_error, w1)
    /\ Fetch.fetch_page_try Double.flaky Double.manager "https://example.com"
         (after_sleep 1000 w1) = Some (Ok out, w2)
    /\ Fetch._fetch_page_with_retry Double.flaky Double.manager "https://example.com"
         Double.w0 = Some (Ok out, w2)
    /\ Fetch.status out = "ok"
    /\ count_get_driver w2 = count_get_driver Double.w0 + 2.
Proof.
  eexists; eexists; eexists.
  split; [vm_compute; reflexivity |]. split; [vm_compute; reflexivity |].
  eapply (fetch_recovers_on_second_attempt Double.flaky Double.manager
            "https://example.com" Double.w0).
  - vm_compute. reflexivity.
  - reflexivity.
  - vm_compute. reflexivity.
Defined.

(** * Further properties of the search *)

(** A parser never returns more than [max_results] results. *)
Lemma parse_results_length
    (env : Env) (result_selectors : list string) (t : Search.extract_table)
    (html : string) (max_results : nat) :
  List.length
    (Search.parse_results env result_selectors (Search.extract_result env t) html max_results)
  <= max_results.
Proof.
  unfold Search.parse_results.
  destruct (parse_html_with_soup env html) as [soup | e]; [| simpl; lia].
  destruct (Search.find_result_elements soup result_selectors) as [| el els]; [simpl; lia |].
  rewrite extract_each_keep_some.
  etransitivity; [apply keep_some_length |].
  rewrite length_firstn. lia.
Qed.

(** Every routine of the dispatch is the shared body around one of
    the parsers. *)
Lemma search_dispatch_shape (env : Env) (engine : string) routine :
  Search.search_dispatch env engine = Some routine ->
  exists search_url max_wait result_selectors t,
    routine
    = Search.search_engine env search_url max_wait
        (Search.parse_results env result_selectors (Search.extract_result env t)).
Proof.
  unfold Search.search_dispatch.
  repeat match goal with
         | |- context [String.eqb engine ?s] => destruct (String.eqb engine s)
         end;
    intros H; inversion H; do 4 eexists; reflexivity.
Qed.

(** A search routine returns the empty list or a parse. *)
Lemma search_engine_returns_parse
    (env : Env) (search_url : string -> nat -> string) (max_wait : N)
    (parse : string -> nat -> list Search.SearchResult)
    (bm : BrowserManager) (query : string) (num_results : nat) :
  returns_value (Search.search_engine env search_url max_wait parse bm query num_results)
    (fun results => results = [] \/ exists html, results = parse html num_results).
Proof.
  unfold Search.search_engine.
  apply returns_value_try.
  - apply returns_bind with (Q := fun _ => True); [apply returns_call; intros; exact I |].
    intros d _.
    apply returns_bind with (Q := fun _ => True); [apply returns_call; intros; exact I |].
    intros _ _.
    apply returns_bind with (Q := fun _ => True).
    { apply returns_value_returns, wait_for_search_results_returns. }
    intros _ _.
    apply returns_bind with (Q := fun _ => True); [apply returns_call; intros; exact I |].
    intros html _. apply returns_ret. right. exists html. reflexivity.
  - intros e. apply returns_value_ret. left. reflexivity.
Qed.

(** X10.  Every output of [web_search] repeats the stripped query and
    the lower-cased engine, holds at most [min(num_results, 20)]
    results, and has one of two shapes: status "ok" without an error
    message, or status "error" with an error message and no result. *)
Theorem web_search_output_coherent
    (env : Env) (get_browser_manager : Accessor) (input_data : Search.WebSearchInput)
    (w : world) :
  exists out w',
    Search.web_search env get_browser_manager input_data w = Some (Ok out, w')
    /\ search_output_coherent input_data out.
Proof.
  revert w. change (returns_value (Search.web_search env get_browser_manager input_data)
                      (search_output_coherent input_data)).
  assert (Herror : forall message metadata,
             search_output_coherent input_data
               {| Search.results := [];
                  Search.query := PyStr.strip (Search.in_query input_data);
                  Search.engine := PyStr.lower (Search.in_engine input_data);
                  Search.status := "error";
                  Search.error := Some message;
                  Search.metadata := metadata |}).
  { intros message metadata. unfold search_output_coherent. simpl.
    repeat split; try lia. right. repeat split. discriminate. }
  unfold Search.web_search.
  apply returns_value_bind with (Q := fun _ => True);
    [apply returns_value_time; intros; exact I |].
  intros start_time _.
  destruct (PyStr.falsy _).
  { apply returns_value_ret. apply Herror. }
  apply returns_value_try.
  - apply returns_bind with (Q := fun _ => True).
    { unfold lookup_manager. apply returns_call. intros; exact I. }
    intros [bm |] _; [| apply returns_ret; apply Herror].
    destruct (Search.search_dispatch env _) as [search |] eqn:Hd;
      [| apply returns_ret; apply Herror].
    apply search_dispatch_shape in Hd.
    destruct Hd as (search_url & max_wait & sels & t & ->).
    apply returns_bind
      with (Q := fun results =>
                   List.length results <= Nat.min (Search.in_num_results input_data) 20).
    { apply returns_value_returns.
      intros v. destruct (search_engine_returns_parse env search_url max_wait
                            (Search.parse_results env sels (Search.extract_result env t))
                            bm (PyStr.strip (Search.in_query input_data))
                            (Nat.min (Search.in_num_results input_data) 20) v)
        as (results & v' & Hrun & Hres).
      exists results, v'. split; [exact Hrun |].
      destruct Hres as [-> | [html ->]]; [simpl; lia | apply parse_results_length]. }
    intros results Hlen.
    apply returns_bind with (Q := fun _ => True); [apply returns_time; intros; exact I |].
    intros t1 _.
    apply returns_bind with (Q := fun _ => True); [apply returns_time; intros; exact I |].
    intros t2 _. apply returns_ret.
    unfold search_output_coherent. simpl.
    split; [reflexivity |]. split; [reflexivity |]. split; [exact Hlen |].
    left. split; reflexivity.
  - intros e.
    apply returns_value_bind with (Q := fun _ => True);
      [apply returns_value_time; intros; exact I |].
    intros t _. apply returns_value_ret. apply Herror.
Qed.

(** X11.  A search with a non-empty query whose accessor yields no
    browser manager, or raises, returns status "error" ("Browser
    manager not available", or "Search error: " and the text of the
    exception) with no result; the manager was looked up and no session
    or driver call was made. *)
Theorem web_search_without_manager
    (env : Env) (get_browser_manager : Accessor) (input_data : Search.WebSearchInput)
    (w : world) :
  PyStr.strip (Search.in_query input_data) <> "" ->
  get_browser_manager w = Ok None \/ (exists e, get_browser_manager w = Err e) ->
  exists out w',
    Search.web_search env get_browser_manager input_data w = Some (Ok out, w')
    /\ Search.status out = "error"
    /\ Search.results out = []
    /\ Search.error out
       = Some (match get_browser_manager w with
               | Err e => "Search error: " +++ exn_str e
               | Ok _ => "Browser manager not available"
               end)
    /\ calls_between w w' [EvLookupManager]
    /\ session_calls w' = session_calls w.
Proof.
  intros Hq Hacc. apply falsy_false_iff in Hq.
  unfold Search.web_search, bind, try_except, time_time, ret, lookup_manager, call.
  rewrite Hq.
  destruct Hacc as [Hnone | [e He]]; [rewrite Hnone | rewrite He];
    (eexists; eexists; split; [reflexivity |]; simpl;
     repeat split; apply session_calls_lookup; reflexivity).
Qed.

Lemma web_search_without_manager_witness :
  exists out w',
    Search.web_search Double.arxiv Double.raising_accessor
      (Search.mk_input "quantum computing" "arxiv" 5) Double.w0 = Some (Ok out, w')
    /\ Search.status out = "error"
    /\ Search.results out = []
    /\ Search.error out
       = Some (match Double.raising_accessor Double.w0 with
               | Err e => "Search error: " +++ exn_str e
               | Ok _ => "Browser manager not available"
               end)
    /\ calls_between Double.w0 w' [EvLookupManager]
    /\ session_calls w' = session_calls Double.w0.
Proof.
  apply (web_search_without_manager Double.arxiv Double.raising_accessor
           (Search.mk_input "quantum computing" "arxiv" 5) Double.w0).
  - discriminate.
  - right. eexists. reflexivity.
Defined.

(** A condition that never holds makes [until] end with an
    exception. *)
Lemma until_loop_never_true (end_time : N) (method : M bool) :
  (forall v v', method v <> Some (Ok true, v')) ->
  forall fuel w r w',
    WebDriverWait.until_loop fuel end_time method w = Some (r, w') ->
    exists e, r = Err e.
Proof.
  intros Hnever. induction fuel as [| fuel IH]; intros w r w'.
  - discriminate.
  - rewrite until_loop_unfold. unfold bind at 1. unfold try_except.
    assert (Hpoll : forall v,
               (t <- time_time ;;
                if (end_time <? t)%N then raise WebDriverWait.timeout_exception
                else sleep WebDriverWait.poll_ms ;;
                     WebDriverWait.until_loop fuel end_time method)%M v = Some (r, w') ->
               exists e, r = Err e).
    { intros v. unfold bind, time_time, raise, sleep.
      destruct (end_time <? now v)%N.
      - intros H. inversion H. eexists. reflexivity.
      - apply IH. }
    destruct (method w) as [[[[|] | e] v] |] eqn:Hm; [| | | discriminate].
    + exfalso. exact (Hnever _ _ Hm).
    + apply Hpoll.
    + destruct (is_NoSuchElementException e).
      * apply Hpoll.
      * unfold raise. intros H. inversion H. eexists. reflexivity.
Qed.

(** [until] logs what its condition logs, and its poll intervals. *)
Lemma until_logs (timeout : N) (method : M bool) :
  logs_only is_wait_call method ->
  logs_only is_wait_call (WebDriverWait.until timeout method).
Proof.
  intros Hmethod. unfold WebDriverWait.until.
  apply logs_only_bind; [apply logs_only_time |]. intros t.
  generalize (t + 1000 * timeout)%N as end_time. intros end_time.
  induction (N.to_nat (2 * timeout + 2)) as [| fuel IH].
  - apply logs_only_out_of_fuel.
  - rewrite until_loop_unfold.
    apply logs_only_bind.
    + apply logs_only_try; [exact Hmethod |]. intros e.
      destruct (is_NoSuchElementException e); [apply logs_only_ret | apply logs_only_raise].
    + intros [|]; [apply logs_only_ret |].
      apply logs_only_bind; [apply logs_only_time |]. intros t'.
      destruct (end_time <? t')%N; [apply logs_only_raise |].
      apply logs_only_bind; [apply logs_only_sleep; reflexivity | intros _; exact IH].
Qed.

(** The run of the wait on a page that never becomes ready. *)
Lemma wait_for_search_results_polls_only
    (env : Env) (driver : Driver) (max_wait : N) (w : world) :
  (forall v, drv_execute_script env v driver "return document.readyState" <> Ok "complete") ->
  exists w' calls,
    Search._wait_for_search_results env driver max_wait w = Some (Ok tt, w')
    /\ trace w' = trace w ++ calls
    /\ forallb is_wait_call calls = true.
Proof.
  intros Hnever.
  set (method := (ready_state <- execute_script env driver "return document.readyState" ;;
                  ret (String.eqb ready_state "complete"))%M).
  assert (Hfalse : forall v v', method v <> Some (Ok true, v')).
  { intros v v'. unfold method, bind, execute_script, call, ret.
    destruct (drv_execute_script env v driver "return document.readyState")
      as [rs | e] eqn:Hrs; [| discriminate].
    destruct (String.eqb rs "complete") eqn:Heq; [| discriminate].
    apply String.eqb_eq in Heq. subst rs. exfalso. exact (Hnever v Hrs). }
  assert (Hlogs : logs_only is_wait_call (WebDriverWait.until max_wait method)).
  { apply until_logs. unfold method.
    apply logs_only_bind; [apply logs_only_call; reflexivity |].
    intros rs. apply logs_only_ret. }
  destruct (wait_for_search_results_returns env driver max_wait w)
    as ([] & w' & Hrun & _).
  exists w'.
  unfold Search._wait_for_search_results in Hrun. fold method in Hrun.
  unfold try_except in Hrun. unfold bind at 1 in Hrun.
  destruct (WebDriverWait.until max_wait method w) as [[[b | e] v] |] eqn:Huntil;
    [| | discriminate].
  - exfalso. unfold WebDriverWait.until, bind, time_time in Huntil.
    destruct (until_loop_never_true _ method Hfalse _ _ _ _ Huntil) as [e He].
    discriminate.
  - destruct (Hlogs _ _ _ Huntil) as (calls & Hcalls & Hall).
    assert (w' = v) as ->.
    { unfold ret in Hrun. destruct (is_TimeoutException e); inversion Hrun; reflexivity. }
    exists calls. split; [| split; assumption].
    unfold Search._wait_for_search_results. fold method.
    unfold try_except. unfold bind at 1. rewrite Huntil.
    destruct (is_TimeoutException e); reflexivity.
Qed.

(** X12.  When the ready state of a search page is never reported as
    "complete", the wait for the search results still ends normally:
    the timeout (or the failure of the poll) is dropped, and the wait
    has only polled and slept its poll intervals, skipping the probe
    for result elements and the final settle sleep. *)
Theorem wait_for_search_results_unready
    (env : Env) (driver : Driver) (max_wait : N) (w : world) :
  (forall v, drv_execute_script env v driver "return document.readyState" <> Ok "complete") ->
  exists w' calls,
    Search._wait_for_search_results env driver max_wait w = Some (Ok tt, w')
    /\ calls_between w w' calls
    /\ forallb is_wait_call calls = true.
Proof.
  exact (wait_for_search_results_polls_only env driver max_wait w).
Qed.

Lemma wait_for_search_results_unready_witness :
  exists w' calls,
    Search._wait_for_search_results Double.stalled Double.driver 15 Double.w0
    = Some (Ok tt, w')
    /\ calls_between Double.w0 w' calls
    /\ forallb is_wait_call calls = true.
Proof.
  apply (wait_for_search_results_unready Double.stalled Double.driver 15 Double.w0).
  intros v. simpl. discriminate.
Defined.

(** The container selectors are tried in order: the first one that
    matches anything gives the result elements. *)
Lemma find_result_elements_first_match
    (soup : Soup) (before after : list string) (selector : string) :
  (forall s, In s before -> select soup s = []) ->
  select soup selector <> [] ->
  Search.find_result_elements soup (before ++ selector :: after) = select soup selector.
Proof.
  intros Hbefore Hsel. induction before as [| s before IH]; simpl.
  - destruct (select soup selector); [contradiction | reflexivity].
  - rewrite (Hbefore s (or_introl eq_refl)). apply IH.
    intros s' Hs'. apply Hbefore. right. exact Hs'.
Qed.

Lemma find_result_elements_none (soup : Soup) (selectors : list string) :
  (forall s, In s selectors -> select soup s = []) ->
  Search.find_result_elements soup selectors = [].
Proof.
  intros Hall. induction selectors as [| s selectors IH]; simpl; [reflexivity |].
  rewrite (Hall s (or_introl eq_refl)). apply IH.
  intros s' Hs'. apply Hall. right. exact Hs'.
Qed.

(** X13.  For each of the six parsers, the container selectors are a
    fallback chain: when the selectors before one match nothing and
    that one matches some elements, the results are extracted from the
    elements of that selector (the first [max_results] of them), and
    the selectors after it are not consulted. *)
Theorem parser_container_fallback
    (env : Env) parse (result_selectors : list string) (t : Search.extract_table)
    (html : string) (n : nat) (soup : Soup)
    (before after : list string) (selector : string) :
  In (parse, result_selectors, t) (engine_parsers env) ->
  parse_html_with_soup env html = Ok soup ->
  result_selectors = before ++ selector :: after ->
  (forall s, In s before -> select soup s = []) ->
  select soup selector <> [] ->
  parse html n = keep_some (extracted env t) (firstn n (select soup selector)).
Proof.
  intros Hin Hsoup Hsels Hbefore Hsel.
  apply engine_parsers_shape in Hin. subst parse.
  rewrite (parse_results_keep_some env result_selectors t html n soup Hsoup).
  rewrite Hsels, (find_result_elements_first_match soup before after selector Hbefore Hsel).
  reflexivity.
Qed.

Lemma parser_container_fallback_witness :
  Search._parse_arxiv_results Double.arxiv_fallback Double.arxiv_markup 5
  = keep_some (extracted Double.arxiv_fallback Search.arxiv_table)
      (firstn 5 (select Double.arxiv_soup_fallback ".list-item")).
Proof.
  apply (parser_container_fallback Double.arxiv_fallback
           (Search._parse_arxiv_results Double.arxiv_fallback)
           Search.arxiv_selectors Search.arxiv_table Double.arxiv_markup 5
           Double.arxiv_soup_fallback ["li.arxiv-result"] ["ol li"] ".list-item").
  - unfold engine_parsers. simpl. tauto.
  - reflexivity.
  - reflexivity.
  - intros s [<- | []]. reflexivity.
  - discriminate.
Defined.

(** X14.  For each of the six parsers, markup that cannot be parsed,
    or in which none of the container selectors matches anything,
    gives the empty list of results, not an error. *)
Theorem parser_nothing_found
    (env : Env) parse (result_selectors : list string) (t : Search.extract_table)
    (html : string) (n : nat) :
  In (parse, result_selectors, t) (engine_parsers env) ->
  (exists e, parse_html_with_soup env html = Err e)
  \/ (exists soup, parse_html_with_soup env html = Ok soup
                   /\ forall s, In s result_selectors -> select soup s = []) ->
  parse html n = [].
Proof.
  intros Hin Hnothing.
  apply engine_parsers_shape in Hin. subst parse.
  unfold Search.parse_results.
  destruct Hnothing as [[e He] | (soup & Hsoup & Hall)].
  - rewrite He. reflexivity.
  - rewrite Hsoup, (find_result_elements_none soup result_selectors Hall). reflexivity.
Qed.

Lemma parser_nothing_found_witness :
  Search._parse_pubmed_results Double.arxiv "<html><body>No results</body></html>" 10 = [].
Proof.
  apply (parser_nothing_found Double.arxiv (Search._parse_pubmed_results Double.arxiv)
           Search.pubmed_selectors Search.pubmed_table).
  - unfold engine_parsers. simpl. tauto.
  - right. exists (mk_soup []). split; [reflexivity |]. intros s _. reflexivity.
Defined.

(** The text of a field is read off the first selector that matches
    a tag. *)
Lemma first_text_first_match
    (env : Env) (element : Element) (before after : list string) (selector : string)
    (tag : Tag) :
  (forall s, In s before -> select_one element s = None) ->
  select_one element selector = Some tag ->
  Search.first_text env element (before ++ selector :: after) = extract_element_text env tag.
Proof.
  intros Hbefore Hsel. induction before as [| s before IH]; simpl.
  - rewrite Hsel. reflexivity.
  - rewrite (Hbefore s (or_introl eq_refl)). apply IH.
    intros s' Hs'. apply Hbefore. right. exact Hs'.
Qed.

Lemma first_text_no_match (env : Env) (element : Element) (selectors : list string) :
  (forall s, In s selectors -> select_one element s = None) ->
  Search.first_text env element selectors = Ok "".
Proof.
  intros Hall. induction selectors as [| s selectors IH]; simpl; [reflexivity |].
  rewrite (Hall s (or_introl eq_refl)). apply IH.
  intros s' Hs'. apply Hall. right. exact Hs'.
Qed.

Lemma first_href_no_match (element : Element) (selectors : list string) :
  (forall s, In s selectors -> select_one element s = None) ->
  Search.first_href element selectors = "".
Proof.
  intros Hall. induction selectors as [| s selectors IH]; simpl; [reflexivity |].
  rewrite (Hall s (or_introl eq_refl)). apply IH.
  intros s' Hs'. apply Hall. right. exact Hs'.
Qed.

(** X15.  The title of a result is read off the first title selector
    that matches a tag, and off no other: when the text of that tag is
    empty, or reading it raises, the element is discarded even if a
    later title selector would match a tag with a title. *)
Theorem title_stops_at_first_match
    (env : Env) (t : Search.extract_table) (element : Element)
    (before after : list string) (selector : string) (tag : Tag) :
  Search.title_selectors t = before ++ selector :: after ->
  (forall s, In s before -> select_one element s = None) ->
  select_one element selector = Some tag ->
  extract_element_text env tag = Ok "" \/ (exists e, extract_element_text env tag = Err e) ->
  Search.extract_result env t element = Ok None.
Proof.
  intros Hsels Hbefore Hsel Htext.
  unfold Search.extract_result, Search.extract_try, exc_bind.
  rewrite Hsels, (first_text_first_match env element before after selector tag Hbefore Hsel).
  destruct Htext as [-> | [e ->]]; reflexivity.
Qed.

Lemma title_stops_at_first_match_witness :
  select_one Double.arxiv_blank_first "p.title a"
  = Some (mk_tag "A title under the second selector" [("href", "/abs/2301.00005")])
  /\ Search.extract_result Double.arxiv Search.arxiv_table Double.arxiv_blank_first = Ok None.
Proof.
  split; [reflexivity |].
  apply (title_stops_at_first_match Double.arxiv Search.arxiv_table Double.arxiv_blank_first
           [] ["p.title a"; ".title a"] ".list-title a"
           (mk_tag "  " [("href", "/abs/2301.00005")])).
  - reflexivity.
  - intros s [].
  - reflexivity.
  - left. reflexivity.
Defined.

(** X16.  A Google Scholar result is kept only if one of the first
    two title selectors matches: the link is looked up under these two
    alone, so an element that "h3.gs_rt a" and ".gs_rt a" do not match
    is discarded, whatever "h3 a" and ".gs_rt" would give. *)
Theorem google_scholar_needs_first_two_selectors (env : Env) (element : Element) :
  select_one element "h3.gs_rt a" = None ->
  select_one element ".gs_rt a" = None ->
  Search._extract_google_scholar_result env element = Ok None.
Proof.
  intros H1 H2.
  unfold Search._extract_google_scholar_result, Search.extract_result, Search.extract_try,
    exc_bind.
  destruct (Search.first_text env element
              (Search.title_selectors Search.google_scholar_table)) as [title | e];
    [| reflexivity].
  destruct (PyStr.falsy title); [reflexivity |].
  assert (Hhref : Search.first_href element
                    (Search.url_selectors Search.google_scholar_table) = "").
  { apply first_href_no_match. simpl. intros s [<- | [<- | []]]; assumption. }
  rewrite Hhref. reflexivity.
Qed.

Lemma google_scholar_needs_first_two_selectors_witness :
  select_one Double.scholar_third_selector "h3 a"
  = Some (mk_tag "Attention is all you need" [("href", "https://arxiv.org/abs/1706.03762")])
  /\ Search._extract_google_scholar_result Double.arxiv Double.scholar_third_selector
     = Ok None.
Proof.
  split; [reflexivity |].
  apply (google_scholar_needs_first_two_selectors Double.arxiv Double.scholar_third_selector);
    reflexivity.
Defined.

(** X17.  A result without a snippet is kept: when an element has a
    title and a link, a link that begins with a slash can be joined
    with the base URL, and none of the snippet selectors matches, the
    result is returned with the snippet that cleaning and truncating
    the empty string give. *)
Theorem missing_snippet_is_tolerated
    (env : Env) (t : Search.extract_table) (element : Element)
    (raw_title title joined cleaned snippet : string) :
  Search.first_text env element (Search.title_selectors t) = Ok raw_title ->
  raw_title <> "" ->
  Search.first_href element (Search.url_selectors t) <> "" ->
  (PyStr.startswith "/" (Search.first_href element (Search.url_selectors t)) = true ->
   urljoin env (Search.base_url t) (Search.first_href element (Search.url_selectors t))
   = Ok joined) ->
  (forall s, In s (Search.snippet_selectors t) -> select_one element s = None) ->
  clean_text_content env raw_title = Ok title ->
  clean_text_content env "" = Ok cleaned ->
  truncate_text env cleaned 300 = Ok snippet ->
  Search.extract_result env t element
  = Ok (Some {| Search.title := title;
                Search.url :=
                  (let href := Search.first_href element (Search.url_selectors t) in
                   if PyStr.startswith "/" href then joined else href);
                Search.snippet := snippet |}).
Proof.
  intros Htitle Hraw Hhref Hjoin Hsnippet Hclean Hempty Htrunc.
  apply falsy_false_iff in Hraw. apply falsy_false_iff in Hhref.
  unfold Search.extract_result, Search.extract_try, exc_bind.
  rewrite Htitle, Hraw, Hhref, (first_text_no_match env element _ Hsnippet).
  destruct (PyStr.startswith "/" (Search.first_href element (Search.url_selectors t)));
    [rewrite (Hjoin eq_refl) |]; rewrite Hclean, Hempty, Htrunc; reflexivity.
Qed.

Lemma missing_snippet_witness :
  Search.extract_result Double.arxiv Search.arxiv_table Double.arxiv_root_relative
  = Ok (Some {| Search.title := "Quantum error correction";
                Search.url :=
                  (let href := Search.first_href Double.arxiv_root_relative
                                 (Search.url_selectors Search.arxiv_table) in
                   if PyStr.startswith "/" href
                   then "https://arxiv.org/abs/2301.00003"
                   else href);
                Search.snippet := "" |}).
Proof.
  apply (missing_snippet_is_tolerated Double.arxiv Search.arxiv_table
           Double.arxiv_root_relative "Quantum error correction"
           "Quantum error correction" "https://arxiv.org/abs/2301.00003" "" "").
  - reflexivity.
  - discriminate.
  - discriminate.
  - intros _. reflexivity.
  - simpl. intros s [<- | [<- | [<- | []]]]; reflexivity.
  - reflexivity.
  - reflexivity.
  - reflexivity.
Defined.

(** X28.  A link that begins with a slash and that [urljoin] refuses
    costs the result: the exception is dropped inside the extraction
    and the element is discarded, whatever its title. *)
Theorem unjoinable_link_discards_element
    (env : Env) (t : Search.extract_table) (element : Element) (e : exn) :
  PyStr.startswith "/" (Search.first_href element (Search.url_selectors t)) = true ->
  urljoin env (Search.base_url t) (Search.first_href element (Search.url_selectors t))
  = Err e ->
  Search.extract_result env t element = Ok None.
Proof.
  intros Hrooted Hjoin.
  destruct (extract_result_spec env t element) as [(Hy & _) | (_ & H)]; [| exact H].
  destruct Hy as (raw & sn & cl & _ & _ & _ & Hj & _).
  destruct (Hj Hrooted) as [joined Hjoined].
  unfold link_of in Hjoined. congruence.
Qed.

Lemma unjoinable_link_witness :
  Search.extract_result Double.arxiv Search.arxiv_table Double.arxiv_bad_host = Ok None.
Proof.
  apply (unjoinable_link_discards_element Double.arxiv Search.arxiv_table
           Double.arxiv_bad_host Double.invalid_ipv6); reflexivity.
Defined.

(** * The two debugging helpers *)

(** X18.  [_get_page_info] never raises.  Its dictionary keeps what
    was read before the first failing read and then holds the error
    text: its keys are, in order, "error"; or "ready_state", "error";
    or "ready_state", "url", "error"; or, when the three reads succeed,
    "ready_state", "url", "title", "loading_elements_count" with no
    "error", the count being 0 when the lookup of loading indicators
    raises. *)
Theorem get_page_info_shape (env : Env) (driver : Driver) (w : world) :
  exists info w',
    Fetch._get_page_info env driver w = Some (Ok info, w')
    /\ (map fst info = ["error"]
        \/ map fst info = ["ready_state"; "error"]
        \/ map fst info = ["ready_state"; "url"; "error"]
        \/ (map fst info = ["ready_state"; "url"; "title"; "loading_elements_count"]
            /\ exists v,
                 assoc "loading_elements_count" info
                 = Some (IInt match drv_find_elements env v driver "css selector"
                                      Fetch.loading_selector with
                              | Ok elements => elements
                              | Err _ => 0
                              end))).
Proof.
  unfold Fetch._get_page_info, or_error, try_except, bind, ret,
    execute_script, current_url, driver_title, find_elements, call.
  destruct (drv_execute_script env w driver "return document.readyState") as [rs | e].
  2: { eexists; eexists. split; [reflexivity |]. left. reflexivity. }
  match goal with
  | |- context [drv_current_url env ?v driver] => destruct (drv_current_url env v driver)
  end.
  2: { eexists; eexists. split; [reflexivity |]. right. left. reflexivity. }
  match goal with
  | |- context [drv_title env ?v driver] => destruct (drv_title env v driver)
  end.
  2: { eexists; eexists. split; [reflexivity |]. right. right. left. reflexivity. }
  match goal with
  | |- context [drv_find_elements env ?v driver ?b ?s] =>
      destruct (drv_find_elements env v driver b s) eqn:Hfind
  end;
    (eexists; eexists; split; [reflexivity |]; right; right; right;
     split; [reflexivity |]; eexists; rewrite Hfind; reflexivity).
Qed.

(** The counting loop never raises; it adds one key per selector. *)
Lemma count_result_elements_keys
    (env : Env) (driver : Driver) (selectors : list string) :
  forall info w,
    (forall s, In s selectors -> assoc ("elements_" +++ s) info = None) ->
    NoDup selectors ->
    exists info' w',
      Search.count_result_elements env driver selectors info w = Some (Ok info', w')
      /\ map fst info' = map fst info ++ map (fun s => "elements_" +++ s) selectors.
Proof.
  assert (Hset : forall (k : string) (v : info_value) (d : list (string * info_value)),
             assoc k d = None -> map fst (dict_set k v d) = map fst d ++ [k]).
  { intros k v d. induction d as [| [k' v'] d IH]; simpl; [reflexivity |].
    destruct (String.eqb k k'); [discriminate |].
    intros H. simpl. f_equal. apply IH. exact H. }
  assert (Hother : forall (k k' : string) (v : info_value) (d : list (string * info_value)),
             k <> k' -> assoc k d = None -> assoc k (dict_set k' v d) = None).
  { intros k k' v d Hne. induction d as [| [k'' v''] d IH]; simpl.
    - intros _. destruct (String.eqb_spec k k'); [contradiction | reflexivity].
    - destruct (String.eqb_spec k k'') as [-> | Hne'']; [discriminate |].
      intros H. destruct (String.eqb k' k''); simpl.
      + destruct (String.eqb_spec k k'); [contradiction | exact H].
      + destruct (String.eqb_spec k k''); [contradiction | apply IH; exact H]. }
  assert (Hinj : forall a b : string, "elements_" +++ a = "elements_" +++ b -> a = b).
  { intros a b H. simpl in H. inversion H. reflexivity. }
  induction selectors as [| s selectors IH]; intros info w Hfresh Hnodup.
  - exists info, w. split; [reflexivity | simpl; rewrite app_nil_r; reflexivity].
  - inversion Hnodup as [| ? ? Hnotin Hnodup']; subst.
    simpl. unfold bind at 1. unfold try_except, bind, find_elements, call, ret.
    destruct (drv_find_elements env w driver "css selector" s) as [n | e];
      match goal with
      | |- context [Search.count_result_elements env driver selectors ?i ?v] =>
          destruct (IH i v) as (info' & w' & Hrun & Hkeys);
          [ intros s' Hs'; apply Hother;
            [ intros Heq; apply Hinj in Heq; subst s'; contradiction
            | apply Hfresh; right; exact Hs' ]
          | exact Hnodup'
          | exists info', w'; split; [exact Hrun |];
            rewrite Hkeys, Hset, <- app_assoc;
            [reflexivity | apply Hfresh; left; reflexivity] ]
      end.
Qed.

(** X19.  [_get_search_page_info] never raises.  Its keys are, in
    order, "error" when the title cannot be read; "title", "error" when
    the URL cannot be read; and otherwise "title", "url" and one
    "elements_<selector>" key for each of the three result indicators,
    with no "error": a lookup of an indicator that raises still gets
    its key and does not end the loop. *)
Theorem get_search_page_info_shape (env : Env) (driver : Driver) (w : world) :
  exists info w',
    Search._get_search_page_info env driver w = Some (Ok info, w')
    /\ (map fst info = ["error"]
        \/ map fst info = ["title"; "error"]
        \/ map fst info
           = ["title"; "url"] ++ map (fun s => "elements_" +++ s) Search.result_indicators).
Proof.
  unfold Search._get_search_page_info, or_error, driver_title, current_url, call.
  destruct (drv_title env w driver) as [title | e].
  2: { eexists; eexists. split; [reflexivity |]. left. reflexivity. }
  match goal with
  | |- context [drv_current_url env ?v driver] => destruct (drv_current_url env v driver)
  end.
  2: { eexists; eexists. split; [reflexivity |]. right. left. reflexivity. }
  match goal with
  | |- context [Search.count_result_elements env driver ?sels ?i ?v] =>
      destruct (count_result_elements_keys env driver sels i v) as (info' & w' & Hrun & Hkeys)
  end.
  - intros s Hs. unfold Search.result_indicators in Hs. simpl in Hs.
    repeat (destruct Hs as [<- | Hs]; [reflexivity |]). contradiction.
  - unfold Search.result_indicators.
    repeat constructor; simpl; intuition discriminate.
  - exists info', w'. split; [exact Hrun |]. right. right. exact Hkeys.
Qed.

(** * Properties of the conversion tool *)

(** X20.  A content type other than "url", "html" and "pdf_url" is
    refused at once: the output has status "error" and original format
    "unknown", names the three valid types, and nothing was called, not
    even the constructor of the converter. *)
Theorem convert_invalid_content_type
    (env : Env) (tools : Convert.Tools) (content_type content : string)
    (st : Convert.state) :
  ~ In content_type Convert.valid_types ->
  Convert.convert_to_markdown env tools content_type content st
  = (Ok {| Convert.markdown := "";
           Convert.original_format := "unknown";
           Convert.conversion_success := false;
           Convert.status := "error";
           Convert.error := Some Convert.invalid_type_message;
           Convert.metadata := [] |}, st).
Proof.
  intros Hnot.
  assert (Hex : existsb (String.eqb content_type) Convert.valid_types = false).
  { apply not_true_is_false. intros H. apply existsb_exists in H as (x & Hin & Heq).
    apply String.eqb_eq in Heq. subst x. contradiction. }
  unfold Convert.convert_to_markdown, Convert.bind, Convert.try_except, Convert.time_time,
    Convert.ret.
  rewrite Hex. reflexivity.
Qed.

Lemma convert_invalid_content_type_witness :
  Convert.convert_to_markdown Double.ready ConvertDouble.working "markdown" "# Title"
    ConvertDouble.st0
  = (Ok {| Convert.markdown := "";
           Convert.original_format := "unknown";
           Convert.conversion_success := false;
           Convert.status := "error";
           Convert.error := Some Convert.invalid_type_message;
           Convert.metadata := [] |}, ConvertDouble.st0).
Proof.
  apply (convert_invalid_content_type Double.ready ConvertDouble.working "markdown").
  simpl. intuition discriminate.
Defined.

(** X21.  For the content types "url" and "pdf_url", a URL that the
    security validator rejects is not converted: the output has status
    "error", original format "url" and the validator's reason, and the
    converter was constructed but never asked to convert. *)
Theorem convert_rejected_url
    (env : Env) (tools : Convert.Tools) (content_type content reason : string)
    (st : Convert.state) :
  content_type = "url" \/ content_type = "pdf_url" ->
  Convert.new_converter tools st = Ok tt ->
  validate_url_security env content false = Ok (false, reason) ->
  exists st',
    Convert.convert_to_markdown env tools content_type content st
    = (Ok {| Convert.markdown := "";
             Convert.original_format := "url";
             Convert.conversion_success := false;
             Convert.status := "error";
             Convert.error := Some ("URL validation failed: " +++ reason);
             Convert.metadata := [] |}, st')
    /\ convert_calls st st' [Convert.CallMarkItDown].
Proof.
  intros Htype Hnew Hrej.
  destruct Htype as [-> | ->];
    unfold Convert.convert_to_markdown, Convert.bind, Convert.try_except,
      Convert.time_time, Convert.ret, Convert.perform, Convert.lift;
    simpl; rewrite Hnew, Hrej; simpl;
    (eexists; split; reflexivity).
Qed.

Lemma convert_rejected_url_witness :
  exists st',
    Convert.convert_to_markdown Double.ready ConvertDouble.working "pdf_url"
      "http://127.0.0.1/report.pdf" ConvertDouble.st0
    = (Ok {| Convert.markdown := "";
             Convert.original_format := "url";
             Convert.conversion_success := false;
             Convert.status := "error";
             Convert.error :=
               Some ("URL validation failed: " +++ "Private addresses are not allowed");
             Convert.metadata := [] |}, st')
    /\ convert_calls ConvertDouble.st0 st' [Convert.CallMarkItDown].
Proof.
  apply (convert_rejected_url Double.ready ConvertDouble.working "pdf_url"
           "http://127.0.0.1/report.pdf" "Private addresses are not allowed"
           ConvertDouble.st0).
  - right. reflexivity.
  - reflexivity.
  - reflexivity.
Defined.

(** X22.  Once the HTML has been written to its temporary file, the
    file is removed whether the conversion succeeds or fails: the calls
    are the creation of the file, the write, the conversion and the
    removal, in this order, and the output is the markdown with status
    "ok" or the error "HTML conversion failed". *)
Theorem convert_html_removes_temp_file
    (tools : Convert.Tools) (html_content path : string) (st : Convert.state) :
  (forall s, Convert.temp_file tools s = Ok path) ->
  (forall s p c, Convert.write_file tools s p c = Ok tt) ->
  exists out st' s,
    Convert._convert_html_content tools html_content st = (Ok out, st')
    /\ convert_calls st st'
         [Convert.CallTempFile; Convert.CallWrite path html_content;
          Convert.CallConvertLocal path; Convert.CallUnlink path]
    /\ out = match Convert.convert_local tools s path with
             | Ok text_content =>
                 {| Convert.markdown := text_content;
                    Convert.original_format := "html";
                    Convert.conversion_success := true;
                    Convert.status := "ok";
                    Convert.error := None;
                    Convert.metadata :=
                      [("source", Convert.MStr "html_string");
                       ("file_size", Convert.MInt (String.length html_content))] |}
             | Err e =>
                 {| Convert.markdown := "";
                    Convert.original_format := "html";
                    Convert.conversion_success := false;
                    Convert.status := "error";
                    Convert.error := Some ("HTML conversion failed: " +++ exn_str e);
                    Convert.metadata := [] |}
             end.
Proof.
  intros Htemp Hwrite.
  unfold Convert._convert_html_content, Convert.try_except, Convert.try_finally,
    Convert.bind, Convert.perform, Convert.unlink_quietly, Convert.ret.
  rewrite Htemp, Hwrite.
  match goal with
  | |- context [Convert.convert_local tools ?s path] =>
      destruct (Convert.convert_local tools s path) as [text | e] eqn:Hlocal;
      (eexists; eexists; exists s; split; [reflexivity |]; split;
       [unfold convert_calls; simpl; rewrite <- !app_assoc; reflexivity
       | rewrite Hlocal; reflexivity])
  end.
Qed.

Lemma convert_html_removes_temp_file_witness :
  exists out st' s,
    Convert._convert_html_content ConvertDouble.rejecting "<h1>Hello World</h1>"
      ConvertDouble.st0 = (Ok out, st')
    /\ convert_calls ConvertDouble.st0 st'
         [Convert.CallTempFile; Convert.CallWrite ConvertDouble.path "<h1>Hello World</h1>";
          Convert.CallConvertLocal ConvertDouble.path; Convert.CallUnlink ConvertDouble.path]
    /\ out = match Convert.convert_local ConvertDouble.rejecting s ConvertDouble.path with
             | Ok text_content =>
                 {| Convert.markdown := text_content;
                    Convert.original_format := "html";
                    Convert.conversion_success := true;
                    Convert.status := "ok";
                    Convert.error := None;
                    Convert.metadata :=
                      [("source", Convert.MStr "html_string");
                       ("file_size", Convert.MInt (String.length "<h1>Hello World</h1>"))] |}
             | Err e =>
                 {| Convert.markdown := "";
                    Convert.original_format := "html";
                    Convert.conversion_success := false;
                    Convert.status := "error";
                    Convert.error := Some ("HTML conversion failed: " +++ exn_str e);
                    Convert.metadata := [] |}
             end.
Proof.
  apply (convert_html_removes_temp_file ConvertDouble.rejecting "<h1>Hello World</h1>"
           ConvertDouble.path ConvertDouble.st0); reflexivity.
Defined.

(** X23.  When the write to the temporary file raises, the conversion
    of HTML reports "HTML conversion failed" and stops there: the
    converter is not called, and the file that was created is not
    removed. *)
Theorem convert_html_write_failure
    (tools : Convert.Tools) (html_content path : string) (e : exn) (st : Convert.state) :
  (forall s, Convert.temp_file tools s = Ok path) ->
  (forall s p c, Convert.write_file tools s p c = Err e) ->
  exists st',
    Convert._convert_html_content tools html_content st
    = (Ok {| Convert.markdown := "";
             Convert.original_format := "html";
             Convert.conversion_success := false;
             Convert.status := "error";
             Convert.error := Some ("HTML conversion failed: " +++ exn_str e);
             Convert.metadata := [] |}, st')
    /\ convert_calls st st' [Convert.CallTempFile; Convert.CallWrite path html_content].
Proof.
  intros Htemp Hwrite.
  unfold Convert._convert_html_content, Convert.try_except, Convert.try_finally,
    Convert.bind, Convert.perform, Convert.ret.
  rewrite Htemp, Hwrite.
  eexists. split; [reflexivity |].
  unfold convert_calls. simpl. rewrite <- app_assoc. reflexivity.
Qed.

Lemma convert_html_write_failure_witness :
  exists st',
    Convert._convert_html_content ConvertDouble.unwritable "<h1>Hello World</h1>"
      ConvertDouble.st0
    = (Ok {| Convert.markdown := "";
             Convert.original_format := "html";
             Convert.conversion_success := false;
             Convert.status := "error";
             Convert.error :=
               Some ("HTML conversion failed: " +++ exn_str ConvertDouble.disk_full);
             Convert.metadata := [] |}, st')
    /\ convert_calls ConvertDouble.st0 st'
         [Convert.CallTempFile; Convert.CallWrite ConvertDouble.path "<h1>Hello World</h1>"].
Proof.
  apply (convert_html_write_failure ConvertDouble.unwritable "<h1>Hello World</h1>"
           ConvertDouble.path ConvertDouble.disk_full ConvertDouble.st0); reflexivity.
Defined.

(** A key just set is read back. *)
Lemma assoc_dict_set_same {V} (k : string) (v : V) (d : list (string * V)) :
  assoc k (dict_set k v d) = Some v.
Proof.
  induction d as [| [k' v'] d IH]; simpl.
  - rewrite String.eqb_refl. reflexivity.
  - destruct (String.eqb k k') eqn:Hk; simpl.
    + rewrite String.eqb_refl. reflexivity.
    + rewrite Hk. exact IH.
Qed.

(** The HTML conversion never raises, and its output is coherent. *)
Lemma convert_html_content_coherent
    (tools : Convert.Tools) (html_content : string) (st : Convert.state) :
  exists out st',
    Convert._convert_html_content tools html_content st = (Ok out, st')
    /\ convert_output_coherent out
    /\ Convert.original_format out = "html".
Proof.
  unfold Convert._convert_html_content, Convert.try_except, Convert.try_finally,
    Convert.bind, Convert.perform, Convert.unlink_quietly, Convert.ret.
  destruct (Convert.temp_file tools st) as [p | e1]; cbn [fst snd].
  - match goal with
    | |- context [Convert.write_file tools ?s p html_content] =>
        destruct (Convert.write_file tools s p html_content) as [[] | e2]
    end.
    + match goal with
      | |- context [Convert.convert_local tools ?s p] =>
          destruct (Convert.convert_local tools s p) as [text | e3]
      end.
      * eexists; eexists; split; [reflexivity |]. split; [| reflexivity].
        left. repeat split.
      * eexists; eexists; split; [reflexivity |]. split; [| reflexivity].
        right. repeat split. discriminate.
    + eexists; eexists; split; [reflexivity |]. split; [| reflexivity].
      right. repeat split. discriminate.
  - eexists; eexists; split; [reflexivity |]. split; [| reflexivity].
    right. repeat split. discriminate.
Qed.

(** The URL conversion never raises, makes the single call
    [convert_url url], and its output is coherent, with the format
    derived from the content type. *)
Lemma convert_url_content_coherent
    (tools : Convert.Tools) (url content_type : string) (st : Convert.state) :
  exists out st',
    Convert._convert_url_content tools url content_type st = (Ok out, st')
    /\ convert_output_coherent out
    /\ Convert.original_format out = Convert.format_of content_type
    /\ convert_calls st st' [Convert.CallConvertUrl url].
Proof.
  unfold Convert._convert_url_content, Convert.try_except, Convert.bind, Convert.perform,
    Convert.ret.
  destruct (Convert.convert_url tools st url) as [[text title] | e].
  - eexists; eexists; split; [reflexivity |]. split; [| split; reflexivity].
    left. repeat split.
  - eexists; eexists; split; [reflexivity |]. split; [| split; reflexivity].
    right. repeat split. discriminate.
Qed.

(** Adding the timing metadata keeps an output coherent. *)
Lemma with_timing_coherent
    (out : Convert.ConvertToMarkdownOutput) (d t : N) (content_type : string) :
  convert_output_coherent out ->
  convert_output_coherent (Convert.with_timing out d t content_type).
Proof.
  unfold convert_output_coherent, Convert.with_timing. simpl. tauto.
Qed.

(** X24.  [convert_to_markdown] never raises, whatever the converter,
    the file system and the URL helpers do, and its output has one of
    two shapes: status "ok" with [conversion_success] set and no error
    message, or status "error" with [conversion_success] unset, an
    error message and no markdown. *)
Theorem convert_to_markdown_output_coherent
    (env : Env) (tools : Convert.Tools) (content_type content : string)
    (st : Convert.state) :
  exists out st',
    Convert.convert_to_markdown env tools content_type content st = (Ok out, st')
    /\ convert_output_coherent out.
Proof.
  unfold Convert.convert_to_markdown.
  unfold Convert.bind at 1. unfold Convert.time_time at 1.
  unfold Convert.try_except.
  destruct (negb (existsb (String.eqb content_type) Convert.valid_types)).
  { eexists; eexists; split; [reflexivity |].
    right. repeat split. discriminate. }
  unfold Convert.bind at 1. unfold Convert.perform at 1.
  destruct (Convert.new_converter tools st) as [[] | e0].
  2: { eexists; eexists; split; [reflexivity |]. right. repeat split. discriminate. }
  destruct (String.eqb content_type "html").
  - unfold Convert.bind at 1.
    match goal with
    | |- context [Convert._convert_html_content tools content ?s] =>
        destruct (convert_html_content_coherent tools content s)
          as (out & st' & -> & Hco & _)
    end.
    eexists; eexists; split; [reflexivity |].
    apply with_timing_coherent. exact Hco.
  - unfold Convert.bind at 1. unfold Convert.lift at 1.
    destruct (validate_url_security env content false) as [[is_valid msg] | e1].
    2: { eexists; eexists; split; [reflexivity |]. right. repeat split. discriminate. }
    destruct is_valid; cbn [negb].
    2: { eexists; eexists; split; [reflexivity |]. right. repeat split. discriminate. }
    unfold Convert.bind at 1. unfold Convert.lift at 1.
    destruct (normalize_url env content) as [normalized | e2].
    2: { eexists; eexists; split; [reflexivity |]. right. repeat split. discriminate. }
    unfold Convert.bind at 1.
    match goal with
    | |- context [Convert._convert_url_content tools normalized content_type ?s] =>
        destruct (convert_url_content_coherent tools normalized content_type s)
          as (out & st' & -> & Hco & _)
    end.
    eexists; eexists; split; [reflexivity |].
    apply with_timing_coherent. exact Hco.
Qed.

(** X25.  For the content types "url" and "pdf_url" with a URL that
    passes validation, the converter is given the normalised URL, once,
    and the conversion is not retried; in both outcomes the original
    format is "pdf" for "pdf_url" and "html" for "url", and the
    metadata record the content type as it was given. *)
Theorem convert_url_uses_normalized_url
    (env : Env) (tools : Convert.Tools) (content_type content reason normalized : string)
    (st : Convert.state) :
  content_type = "url" \/ content_type = "pdf_url" ->
  Convert.new_converter tools st = Ok tt ->
  validate_url_security env content false = Ok (true, reason) ->
  normalize_url env content = Ok normalized ->
  exists out st',
    Convert.convert_to_markdown env tools content_type content st = (Ok out, st')
    /\ convert_calls st st' [Convert.CallMarkItDown; Convert.CallConvertUrl normalized]
    /\ Convert.original_format out
       = (if String.eqb content_type "pdf_url" then "pdf" else "html")
    /\ assoc "content_type" (Convert.metadata out) = Some (Convert.MStr content_type).
Proof.
  intros Htype Hnew Hvalid Hnorm.
  assert (Hrun : forall s,
    exists out st',
      (Convert.bind (Convert._convert_url_content tools normalized content_type)
         (fun result =>
            Convert.bind Convert.time_time (fun t1 =>
            Convert.bind Convert.time_time (fun t2 =>
            Convert.ret (Convert.with_timing result (t1 - Convert.clock st)%N t2
                           content_type))))) s = (Ok out, st')
      /\ convert_calls s st' [Convert.CallConvertUrl normalized]
      /\ Convert.original_format out = Convert.format_of content_type
      /\ assoc "content_type" (Convert.metadata out) = Some (Convert.MStr content_type)).
  { intros s. unfold Convert.bind at 1.
    destruct (convert_url_content_coherent tools normalized content_type s)
      as (out & st' & -> & _ & Hfmt & Hcalls).
    eexists; eexists; split; [reflexivity |].
    split; [exact Hcalls |]. split; [exact Hfmt |].
    unfold Convert.with_timing. cbn [Convert.metadata].
    apply assoc_dict_set_same. }
  destruct Htype as [-> | ->];
    unfold Convert.convert_to_markdown;
    unfold Convert.bind at 1; unfold Convert.time_time at 1;
    unfold Convert.try_except;
    cbn [existsb Convert.valid_types negb String.eqb Ascii.eqb Bool.eqb orb andb];
    unfold Convert.bind at 1; unfold Convert.perform at 1; rewrite Hnew;
    unfold Convert.bind at 1; unfold Convert.lift at 1; rewrite Hvalid; cbn [negb];
    unfold Convert.bind at 1; unfold Convert.lift at 1; rewrite Hnorm;
    match goal with
    | |- context [Convert.bind _ _ ?s] =>
        destruct (Hrun s) as (out & st' & Heq & Hcalls & Hfmt & Hmeta)
    end;
    cbn [Convert.clock] in *; rewrite Heq;
    exists out, st'; (split; [reflexivity |]); (split; [| split; [exact Hfmt | exact Hmeta]]);
    unfold convert_calls in *; rewrite Hcalls; cbn [Convert.log];
    rewrite <- app_assoc; reflexivity.
Qed.

Lemma convert_url_uses_normalized_url_witness :
  exists out st',
    Convert.convert_to_markdown Double.ready ConvertDouble.rejecting "pdf_url"
      "https://example.com/report.pdf" ConvertDouble.st0 = (Ok out, st')
    /\ convert_calls ConvertDouble.st0 st'
         [Convert.CallMarkItDown; Convert.CallConvertUrl "https://example.com/report.pdf"]
    /\ Convert.original_format out
       = (if String.eqb "pdf_url" "pdf_url" then "pdf" else "html")
    /\ assoc "content_type" (Convert.metadata out) = Some (Convert.MStr "pdf_url").
Proof.
  apply (convert_url_uses_normalized_url Double.ready ConvertDouble.rejecting "pdf_url"
           "https://example.com/report.pdf" "" "https://example.com/report.pdf"
           ConvertDouble.st0).
  - right. reflexivity.
  - reflexivity.
  - reflexivity.
  - reflexivity.
Defined.

(** X26.  When the converter cannot be constructed, a valid content
    type is answered with the error "Unexpected error", and the
    original format of that output is the content type as given
    ("url", "html" or "pdf_url"), not a format; nothing else was
    called. *)
Theorem convert_constructor_failure
    (env : Env) (tools : Convert.Tools) (content_type content : string) (e : exn)
    (st : Convert.state) :
  In content_type Convert.valid_types ->
  Convert.new_converter tools st = Err e ->
  exists out st',
    Convert.convert_to_markdown env tools content_type content st = (Ok out, st')
    /\ convert_calls st st' [Convert.CallMarkItDown]
    /\ Convert.status out = "error"
    /\ Convert.error out = Some ("Unexpected error: " +++ exn_str e)
    /\ Convert.original_format out = content_type.
Proof.
  intros Hin Hnew.
  assert (Hex : existsb (String.eqb content_type) Convert.valid_types = true).
  { apply existsb_exists. exists content_type. split; [exact Hin |].
    apply String.eqb_refl. }
  unfold Convert.convert_to_markdown.
  unfold Convert.bind at 1. unfold Convert.time_time at 1.
  unfold Convert.try_except. rewrite Hex. cbn [negb].
  unfold Convert.bind at 1. unfold Convert.perform at 1. rewrite Hnew.
  eexists; eexists; split; [reflexivity |].
  repeat split.
Qed.

Lemma convert_constructor_failure_witness :
  exists out st',
    Convert.convert_to_markdown Double.ready
      {| Convert.new_converter := fun _ => Err ConvertDouble.unsupported;
         Convert.temp_file := Convert.temp_file ConvertDouble.working;
         Convert.write_file := Convert.write_file ConvertDouble.working;
         Convert.convert_local := Convert.convert_local ConvertDouble.working;
         Convert.convert_url := Convert.convert_url ConvertDouble.working;
         Convert.duration := Convert.duration ConvertDouble.working |}
      "pdf_url" "https://example.com/report.pdf" ConvertDouble.st0 = (Ok out, st')
    /\ convert_calls ConvertDouble.st0 st' [Convert.CallMarkItDown]
    /\ Convert.status out = "error"
    /\ Convert.error out
       = Some ("Unexpected error: " +++ exn_str ConvertDouble.unsupported)
    /\ Convert.original_format out = "pdf_url".
Proof.
  apply convert_constructor_failure.
  - simpl. tauto.
  - reflexivity.
Defined.

(** * A search on a page that never becomes ready *)

(** X27.  An engine routine parses whatever the page holds when the
    wait for the results gives up: with a page whose ready state never
    becomes "complete", the routine acquires the driver, navigates once
    to the search URL of the encoded query, polls, reads the page
    source and returns its parse; the timeout of the wait is not an
    error of the search. *)
Theorem search_unready_page_still_parsed
    (env : Env) (search_url : string -> nat -> string) (max_wait : N)
    (parse : string -> nat -> list Search.SearchResult)
    (bm : BrowserManager) (driver : Driver) (query html : string) (num_results : nat)
    (w : world) :
  (forall v, bm_get_driver env v bm = Ok driver) ->
  (forall v url, drv_get env v driver url = Ok tt) ->
  (forall v, drv_execute_script env v driver "return document.readyState" <> Ok "complete") ->
  (forall v, drv_page_source env v driver = Ok html) ->
  exists w' polls,
    Search.search_engine env search_url max_wait parse bm query num_results w
    = Some (Ok (parse html num_results), w')
    /\ calls_between w w'
         ([EvGetDriver bm; EvGet (search_url (quote_plus env query) num_results)]
          ++ polls ++ [EvPageSource])
    /\ forallb is_wait_call polls = true.
Proof.
  intros Hdriver Hget Hnever Hsource.
  unfold Search.search_engine, try_except.
  unfold bind at 1. unfold get_driver at 1, call at 1. rewrite Hdriver.
  unfold bind at 1. unfold driver_get at 1, call at 1. rewrite Hget.
  unfold bind at 1.
  match goal with
  | |- context [Search._wait_for_search_results env driver max_wait ?v] =>
      destruct (wait_for_search_results_polls_only env driver max_wait v Hnever)
        as (w1 & polls & Hwait & Hcalls & Hpolls)
  end.
  rewrite Hwait.
  unfold bind at 1. unfold page_source at 1, call at 1. rewrite Hsource.
  unfold ret.
  eexists. exists polls. split; [reflexivity |]. split; [| exact Hpolls].
  unfold calls_between in *. cbn [trace] in *. rewrite Hcalls.
  rewrite <- !app_assoc. reflexivity.
Qed.

Lemma search_unready_page_still_parsed_witness :
  exists w' polls,
    Search._search_arxiv Double.stalled Double.manager "graph neural networks" 10 Double.w0
    = Some (Ok (Search._parse_arxiv_results Double.stalled "<html></html>" 10), w')
    /\ calls_between Double.w0 w'
         ([EvGetDriver Double.manager;
           EvGet (Search.arxiv_url (quote_plus Double.stalled "graph neural networks") 10)]
          ++ polls ++ [EvPageSource])
    /\ forallb is_wait_call polls = true.
Proof.
  apply (search_unready_page_still_parsed Double.stalled Search.arxiv_url 15
           (Search._parse_arxiv_results Double.stalled) Double.manager Double.driver
           "graph neural networks" "<html></html>" 10 Double.w0).
  - intros v. reflexivity.
  - intros v url. reflexivity.
  - intros v. simpl. discriminate.
  - intros v. reflexivity.
Defined.
